(** * Invoice issuance and archival pipeline (backend/app)

    A shallow embedding of the issuance pipeline of the GoBD invoice
    backend: the invoice-number sequence, the totals computation on Python
    floats, the ZUGFeRD XML encoder with its companion check, the totals
    block of the visual document, the timestamp service with its fallback,
    the archival store with its two backends and its start-up, the
    issuance orchestrator, the cancellation route, and the routes that
    read an invoice back (detail, preview and download package).

    Python values are modelled as follows: [int] is [Z]; [float] is an
    IEEE 754 binary64 number ([spec_float] at precision 53, with exact
    round-to-nearest-even arithmetic); [str] and [bytes] are [string];
    a [dict] with string keys is a [gmap string _]; an object of a class is
    a record; an exception is a constructor of [exn].

    The world of the service is one record: the committed tables of the
    database, the archival store and the clock.  A method of a service is
    a function from a world to a result and a world.  The libraries the
    code calls (lxml, ReportLab, pikepdf, pyHanko, hashlib) and the time
    authority enter through the class [Env]; the object store is modelled
    from the documented behaviour of an S3 bucket.  The database and the
    store are taken to be reachable: a commit or a write fails only where
    the code or a declared constraint makes it fail. *)

From Stdlib Require Import ZArith List Bool Lia.
From Stdlib Require Import Strings.String Strings.Ascii.
From Stdlib Require Import Floats.SpecFloat.
From Stdlib Require Import Numbers.DecimalString Numbers.DecimalN Numbers.DecimalPos.
From stdpp Require Import base option list strings gmap fin_maps.

Local Open Scope Z_scope.
Local Open Scope string_scope.

(** ** Python's decimal rendering of integers *)

Module PyInt.

(** The decimal digits of a natural number, most significant first,
    ["0"] for zero. *)
Definition digits (n : N) : string :=
  NilEmpty.string_of_uint (N.to_uint n).

(** [str(n)] for an [int]. *)
Definition str (n : Z) : string :=
  match n with
  | Z0 => "0"
  | Zpos p => digits (Npos p)
  | Zneg p => "-" ++ digits (Npos p)
  end.

(** [width] copies of the fill character ["0"]. *)
Fixpoint zeros (width : nat) : string :=
  match width with
  | O => EmptyString
  | S w => String "0" (zeros w)
  end.

(** [s.zfill(width)] on a string of digits: left-pad with zeros. *)
Definition zfill (width : nat) (s : string) : string :=
  zeros (width - String.length s) ++ s.

(** [format(n, "06d")]: sign-aware zero padding to a minimum width of
    six characters; a longer number is rendered in full. *)
Definition format_06d (n : Z) : string :=
  match n with
  | Zneg p => "-" ++ zfill 5 (digits (Npos p))
  | _ => zfill 6 (digits (Z.to_N n))
  end.

(** [k] leading zero digits in front of a decimal numeral. *)
Fixpoint lead0 (k : nat) (d : Decimal.uint) : Decimal.uint :=
  match k with
  | O => d
  | S k' => Decimal.D0 (lead0 k' d)
  end.

End PyInt.

(** ** Python floats: IEEE 754 binary64 *)

Module PyFloat.

Definition prec : Z := 53.
Definition emax : Z := 1024.

Definition float : Type := spec_float.

Definition mul : float -> float -> float := SFmul prec emax.
Definition add : float -> float -> float := SFadd prec emax.
Definition div : float -> float -> float := SFdiv prec emax.

(** [float(n)] for an [int] (correctly rounded). *)
Definition of_Z (n : Z) : float := binary_normalize prec emax n 0 false.

(** The float denoted by the decimal literal [n / 10^k]: the nearest
    binary64 number, which is what correctly rounded division of the
    two integers gives. *)
Definition of_decimal (n : Z) (k : nat) : float :=
  match n with
  | Z0 => S754_zero false
  | Zpos p => SFdiv prec emax (S754_finite false p 0)
                (S754_finite false (Z.to_pos (10 ^ Z.of_nat k)) 0)
  | Zneg p => SFdiv prec emax (S754_finite true p 0)
                (S754_finite false (Z.to_pos (10 ^ Z.of_nat k)) 0)
  end.

(** The exact value [m * 2^e] scaled by [10^ndigits] and rounded to an
    integer, to nearest with ties to even: the digit generation of
    CPython's [_Py_dg_dtoa] in mode 3, on which both [round(x, n)] and
    the [".nf"] format rest. *)
Definition scaled_nearest_even (ndigits : nat) (m : positive) (e : Z) : Z :=
  let s := Zpos m * 10 ^ Z.of_nat ndigits in
  match e with
  | Zneg p =>
      let d := 2 ^ Zpos p in
      let q := s / d in
      let r := s mod d in
      match 2 * r ?= d with
      | Lt => q
      | Eq => if Z.even q then q else q + 1
      | Gt => q + 1
      end
  | _ => s * 2 ^ e
  end.

(** [round(x, ndigits)] with [ndigits] given: infinities and NaN round
    to themselves; a finite float is rendered to [ndigits] places and the
    decimal is read back as the nearest float, keeping the sign. *)
Definition round (x : float) (ndigits : nat) : float :=
  match x with
  | S754_finite s m e =>
      match scaled_nearest_even ndigits m e with
      | Zpos k => SFdiv prec emax (S754_finite s k 0)
                    (S754_finite false (Z.to_pos (10 ^ Z.of_nat ndigits)) 0)
      | _ => S754_zero s
      end
  | _ => x
  end.

(** The digits of [k] with a decimal point before the last [ndigits]
    of them. *)
Definition fixed_point (ndigits : nat) (k : Z) : string :=
  let p := 10 ^ Z.of_nat ndigits in
  match ndigits with
  | O => PyInt.digits (Z.to_N k)
  | _ => PyInt.digits (Z.to_N (k / p)) ++ "."
           ++ PyInt.zfill ndigits (PyInt.digits (Z.to_N (k mod p)))
  end.

Definition sign_str (s : bool) : string := if s then "-" else EmptyString.

(** [format(x, ".{ndigits}f")]. *)
Definition format_f (ndigits : nat) (x : float) : string :=
  match x with
  | S754_zero s => sign_str s ++ fixed_point ndigits 0
  | S754_infinity s => sign_str s ++ "inf"
  | S754_nan => "nan"
  | S754_finite s m e =>
      sign_str s ++ fixed_point ndigits (scaled_nearest_even ndigits m e)
  end.

(** [math.isnan(x)]. *)
Definition is_nan (x : float) : bool :=
  match x with
  | S754_nan => true
  | _ => false
  end.

End PyFloat.

(** ** Exceptions and the result of a call *)

Inductive exn : Type :=
| HTTPException (status_code : Z) (detail : string)
| IntegrityError (constraint : string)
| FileNotFoundError (msg : string)
| AttributeError (msg : string)
| StaleDataError (msg : string).

Inductive result (A : Type) : Type :=
| Ok (a : A)
| Raise (e : exn).
Arguments Ok {A} a.
Arguments Raise {A} e.

(** ** datetime *)

Record datetime : Type := {
  year : Z; month : Z; day : Z;
  hour : Z; minute : Z; second : Z; microsecond : Z
}.

Module Datetime.

Definition pad (width : nat) (n : Z) : string :=
  PyInt.zfill width (PyInt.digits (Z.to_N n)).

(** [d.strftime("%Y%m%d")]. *)
Definition strftime_Ymd (d : datetime) : string :=
  pad 4 (year d) ++ pad 2 (month d) ++ pad 2 (day d).

(** [d.strftime("%d.%m.%Y")]. *)
Definition strftime_dmY (d : datetime) : string :=
  pad 2 (day d) ++ "." ++ pad 2 (month d) ++ "." ++ pad 4 (year d).

(** [d.strftime("D:%Y%m%d%H%M%S")]. *)
Definition strftime_pdf (d : datetime) : string :=
  "D:" ++ strftime_Ymd d ++ pad 2 (hour d) ++ pad 2 (minute d)
       ++ pad 2 (second d).

(** [d.isoformat()]: the microseconds are left out when they are zero. *)
Definition isoformat (d : datetime) : string :=
  pad 4 (year d) ++ "-" ++ pad 2 (month d) ++ "-" ++ pad 2 (day d)
    ++ "T" ++ pad 2 (hour d) ++ ":" ++ pad 2 (minute d) ++ ":"
    ++ pad 2 (second d)
    ++ (if (microsecond d =? 0)%Z then EmptyString else "." ++ pad 6 (microsecond d)).

End Datetime.

(** ** app/schemas/schemas.py: the request payload *)

Module Schemas.

Record LineItemCreate : Type := {
  description : string;
  quantity : PyFloat.float;
  unit : string;
  unit_price : PyFloat.float;
  tax_rate : PyFloat.float
}.

(** [Seller] and [Buyer]; the [tax_id] of a seller is mandatory. *)
Record Party : Type := {
  name : string;
  street : string;
  zip : string;
  city : string;
  country : string;
  email : option string;
  phone : option string;
  tax_id : option string
}.

Record InvoiceCreate : Type := {
  issue_date : datetime;
  delivery_date_start : option datetime;
  delivery_date_end : option datetime;
  currency : string;
  tax_exempt : bool;
  tax_exempt_reason : option string;
  notes : option string;
  payment_terms : option string;
  seller : Party;
  buyer : Party;
  line_items : list LineItemCreate
}.

Definition fzero : PyFloat.float := S754_zero false.
Definition fhundred : PyFloat.float := PyFloat.of_Z 100.

(** The field constraints of [LineItemBase]: [quantity > 0],
    [unit_price >= 0], [0 <= tax_rate <= 100]. *)
Definition valid_line_item (it : LineItemCreate) : bool :=
  SFltb fzero (quantity it)
  && SFleb fzero (unit_price it)
  && SFleb fzero (tax_rate it) && SFleb (tax_rate it) fhundred.

End Schemas.

(** One entry of [line_items_data], which is also the payload of an
    [InvoiceLineItem] row. *)
Module Item.
Record t : Type := {
  position : Z;
  description : string;
  quantity : PyFloat.float;
  unit : string;
  unit_price : PyFloat.float;
  line_net : PyFloat.float;
  tax_rate : PyFloat.float;
  tax_amount : PyFloat.float;
  line_gross : PyFloat.float
}.
End Item.

(** ** app/services/invoice_service.py, step 2: the totals *)

Module Totals.
Import PyFloat.

(** The body of the loop for one item at position [idx]. *)
Definition line (idx : Z) (item : Schemas.LineItemCreate) : Item.t :=
  let line_net :=
    round (mul (Schemas.quantity item) (Schemas.unit_price item)) 2 in
  let tax_amount :=
    round (div (mul line_net (Schemas.tax_rate item)) Schemas.fhundred) 2 in
  let line_gross := round (add line_net tax_amount) 2 in
  {| Item.position := idx;
     Item.description := Schemas.description item;
     Item.quantity := Schemas.quantity item;
     Item.unit := Schemas.unit item;
     Item.unit_price := Schemas.unit_price item;
     Item.line_net := line_net;
     Item.tax_rate := Schemas.tax_rate item;
     Item.tax_amount := tax_amount;
     Item.line_gross := line_gross |}.

(** The loop state: the next index, [line_items_data], [net_total] and
    [tax_total]. *)
Record acc : Type := {
  next_idx : Z;
  line_items_data : list Item.t;
  net_total : float;
  tax_total : float
}.

Definition init : acc :=
  {| next_idx := 1; line_items_data := []; net_total := Schemas.fzero;
     tax_total := Schemas.fzero |}.

Definition step (a : acc) (item : Schemas.LineItemCreate) : acc :=
  let d := line (next_idx a) item in
  {| next_idx := next_idx a + 1;
     line_items_data := line_items_data a ++ [d];
     net_total := add (net_total a) (Item.line_net d);
     tax_total := add (tax_total a) (Item.tax_amount d) |}.

(** [for idx, item in enumerate(invoice_data.line_items, start=1)]. *)
Definition loop (items : list Schemas.LineItemCreate) : acc :=
  fold_left step items init.

Definition gross_total (a : acc) : float :=
  round (add (net_total a) (tax_total a)) 2.

(** Half-up decimal rounding as the specification words it: the exact
    value scaled by [10^ndigits], rounded to the nearest integer with a
    tie going up, read back as a float.  Not used by the code. *)
Definition scaled_half_up (ndigits : nat) (m : positive) (e : Z) : Z :=
  let s := Zpos m * 10 ^ Z.of_nat ndigits in
  match e with
  | Zneg p =>
      let d := 2 ^ Zpos p in
      if (d <=? 2 * (s mod d))%Z then s / d + 1 else s / d
  | _ => s * 2 ^ e
  end.

Definition spec_round_half_up (x : float) (ndigits : nat) : float :=
  match x with
  | S754_finite s m e =>
      match scaled_half_up ndigits m e with
      | Zpos k => SFdiv prec emax (S754_finite s k 0)
                    (S754_finite false (Z.to_pos (10 ^ Z.of_nat ndigits)) 0)
      | _ => S754_zero s
      end
  | _ => x
  end.

End Totals.

(** ** The element trees of lxml *)

Module Lxml.

#[warnings="-register-all"] Inductive element : Type :=
| Element (tag : string) (attrib : gmap string string)
          (text : option string) (children : list element).

Definition tag (e : element) : string :=
  match e with Element t _ _ _ => t end.
Definition attrib (e : element) : gmap string string :=
  match e with Element _ a _ _ => a end.
Definition text (e : element) : option string :=
  match e with Element _ _ t _ => t end.
Definition children (e : element) : list element :=
  match e with Element _ _ _ c => c end.

(** The tag of [local] in the namespace [uri], in Clark notation. *)
Definition qname (uri local : string) : string :=
  "{" ++ uri ++ "}" ++ local.

(** The calls of an [ElementMaker] bound to the namespace [uri]: with
    child elements, with a text, and with a text and attributes. *)
Definition node (uri local : string) (cs : list element) : element :=
  Element (qname uri local) ∅ None cs.
Definition leaf (uri local txt : string) : element :=
  Element (qname uri local) ∅ (Some txt) [].
Definition leaf_with (uri local txt : string)
    (attrs : gmap string string) : element :=
  Element (qname uri local) attrs (Some txt) [].

(** [parent.append(child)]. *)
Definition append (parent child : element) : element :=
  match parent with
  | Element t a x cs => Element t a x (cs ++ [child])
  end.

(** The proper descendants of an element in document order. *)
Fixpoint iterdescendants (e : element) : list element :=
  match e with
  | Element _ _ _ cs => flat_map (fun c => c :: iterdescendants c) cs
  end.

(** [root.find(".//prefix:local", namespaces)]: the first proper
    descendant with that tag; [None] when the prefix is unknown or no
    descendant matches. *)
Definition find (root : element) (prefix local : string)
    (namespaces : gmap string string) : option element :=
  match namespaces !! prefix with
  | Some uri =>
      List.find (fun d => String.eqb (tag d) (qname uri local))
                (iterdescendants root)
  | None => None
  end.

End Lxml.

(** ** The flowables of ReportLab, as far as the composer uses them *)

Module ReportLab.

Inductive cell : Type :=
| Str (s : string)
| Para (text style : string).

Inductive flowable : Type :=
| Paragraph (text style : string)
| Spacer (width_mm height_mm : Z)
| Table (data : list (list cell)) (colWidths_mm : list Z).

End ReportLab.

(** The file attached to the visual document by [_embed_zugferd_xml]. *)
Record EmbeddedFile : Type := {
  ef_filename : string;
  ef_subtype : string;
  ef_body : string;
  ef_size : Z;
  ef_mod_date : string;
  ef_relationship : string
}.

(** ** The environment of the service

    What the code obtains from outside itself: the clock, the conversions
    of the libraries between object graphs and bytes, the digest, and the
    outcome of the timestamping attempt. *)

Class Env : Type := {
  (** the [n]-th reading of the system clock *)
  clock : nat -> datetime;
  (** [repr(x)] of a float *)
  float_repr : PyFloat.float -> string;
  (** [etree.tostring(root, pretty_print=True, xml_declaration=True,
      encoding="UTF-8")] *)
  etree_tostring : Lxml.element -> string;
  (** [etree.fromstring(xml_bytes)]; [None] when it raises *)
  etree_fromstring : string -> option Lxml.element;
  (** [SimpleDocTemplate(...).build(story)], as the bytes written *)
  reportlab_build : list ReportLab.flowable -> string;
  (** opening a document with pikepdf, attaching a file, saving *)
  pikepdf_embed : string -> EmbeddedFile -> string;
  (** [hashlib.sha256(b).hexdigest()] *)
  sha256_hexdigest : string -> string;
  (** the body of the [try] block of [_add_timestamp] up to
      [output_buffer.getvalue()]: the timestamped document, or [None]
      when anything in it raises (network error, timeout, malformed
      response, unreadable document) *)
  pyhanko_timestamp : string -> option string
}.

(** ** app/core/config.py *)

Class Settings : Type := {
  INVOICE_NUMBER_PREFIX : string;
  INVOICE_NUMBER_START : Z;
  TSA_URL : string;
  TSA_HASH_ALGORITHM : string
}.

(** The defaults of the class [Settings]. *)
Definition default_settings : Settings := {|
  INVOICE_NUMBER_PREFIX := "RE";
  INVOICE_NUMBER_START := 10000;
  TSA_URL := "http://timestamp.digicert.com";
  TSA_HASH_ALGORITHM := "SHA256"
|}.

(** ** app/services/zugferd_generator.py *)

Module ZUGFeRDGenerator.
Import Lxml.

Definition rsm_uri : string :=
  "urn:un:unece:uncefact:data:standard:CrossIndustryInvoice:100".
Definition ram_uri : string :=
  "urn:un:unece:uncefact:data:standard:ReusableAggregateBusinessInformationEntity:100".
Definition qdt_uri : string :=
  "urn:un:unece:uncefact:data:standard:QualifiedDataType:100".
Definition udt_uri : string :=
  "urn:un:unece:uncefact:data:standard:UnqualifiedDataType:100".

Definition NAMESPACES : gmap string string :=
  <["rsm" := rsm_uri]> (<["ram" := ram_uri]>
    (<["qdt" := qdt_uri]> (<["udt" := udt_uri]> ∅))).

Definition RSM : string -> list element -> element := node rsm_uri.
Definition RAM : string -> list element -> element := node ram_uri.
Definition RAM_text : string -> string -> element := leaf ram_uri.
Definition UDT_DateTimeString (txt : string) : element :=
  leaf_with udt_uri "DateTimeString" txt (<["format" := "102"]> ∅).

(** [d] has the tag [ram:local]. *)
Definition has_tag (local : string) (d : element) : bool :=
  String.eqb (tag d) (qname ram_uri local).

(** Tags that occur in the header blocks only, never in a line item. *)
Definition header_tag (local : string) : Prop :=
  local = "SellerTradeParty" \/ local = "BuyerTradeParty"
  \/ local = "GrandTotalAmount".

(** Python's truth value of an optional string: [None] and the empty
    string are false. *)
Definition truthy (s : option string) : bool :=
  match s with
  | Some (String _ _) => true
  | _ => false
  end.

Definition or_else {A : Type} (a b : option A) : option A :=
  match a with Some _ => a | None => b end.

Section Generate.
Context {env : Env}.

(** The body of [for item in line_items]: the line element. *)
Definition line_item_element (item : Item.t) : element :=
  let line := RAM "IncludedSupplyChainTradeLineItem" [] in
  let line := append line (RAM "AssociatedDocumentLineDocument"
                [RAM_text "LineID" (PyInt.str (Item.position item))]) in
  let line := append line (RAM "SpecifiedTradeProduct"
                [RAM_text "Name" (Item.description item)]) in
  let line_agreement := RAM "SpecifiedLineTradeAgreement" [] in
  let line_agreement :=
    append line_agreement (RAM "NetPriceProductTradePrice"
      [RAM_text "ChargeAmount" (PyFloat.format_f 2 (Item.unit_price item))]) in
  let line := append line line_agreement in
  let line_delivery := RAM "SpecifiedLineTradeDelivery" [] in
  let line_delivery :=
    append line_delivery
      (leaf_with ram_uri "BilledQuantity" (float_repr (Item.quantity item))
         (<["unitCode" := Item.unit item]> ∅)) in
  let line := append line line_delivery in
  let line_settlement := RAM "SpecifiedLineTradeSettlement" [] in
  let line_settlement :=
    append line_settlement (RAM "ApplicableTradeTax"
      [RAM_text "TypeCode" "VAT";
       RAM_text "CategoryCode" "S";
       RAM_text "RateApplicablePercent"
         (PyFloat.format_f 2 (Item.tax_rate item))]) in
  let line_settlement :=
    append line_settlement
      (RAM "SpecifiedTradeSettlementLineMonetarySummation"
         [RAM_text "LineTotalAmount"
            (PyFloat.format_f 2 (Item.line_net item))]) in
  append line line_settlement.

Definition postal_address (p : Schemas.Party) : element :=
  RAM "PostalTradeAddress"
    [RAM_text "PostcodeCode" (Schemas.zip p);
     RAM_text "LineOne" (Schemas.street p);
     RAM_text "CityName" (Schemas.city p);
     RAM_text "CountryID" (Schemas.country p)].

Definition tax_registration (id : string) : element :=
  RAM "SpecifiedTaxRegistration"
    [leaf_with ram_uri "ID" id (<["schemeID" := "VA"]> ∅)].

(** The element tree built by [generate], before it is serialised. *)
Definition generate_root
    (invoice_number : string) (issue_date : datetime)
    (seller buyer : Schemas.Party) (line_items : list Item.t)
    (net_total tax_total gross_total : PyFloat.float) (currency : string)
    (delivery_date_start delivery_date_end : option datetime)
    (payment_terms : option string) : element :=
  let root := RSM "CrossIndustryInvoice" [] in
  (* Exchange context *)
  let context := RSM "ExchangedDocumentContext" [] in
  let context :=
    append context (RAM "GuidelineSpecifiedDocumentContextParameter"
      [RAM_text "ID"
         "urn:cen.eu:en16931:2017#compliant#urn:factur-x.eu:1p0:basic"]) in
  let root := append root context in
  (* Document header *)
  let header := RSM "ExchangedDocument" [] in
  let header := append header (RAM_text "ID" invoice_number) in
  let header := append header (RAM_text "TypeCode" "380") in
  let header :=
    append header (RAM "IssueDateTime"
      [UDT_DateTimeString (Datetime.strftime_Ymd issue_date)]) in
  let root := append root header in
  (* Transaction and line items *)
  let transaction := RSM "SupplyChainTradeTransaction" [] in
  let transaction :=
    fold_left (fun t item => append t (line_item_element item))
              line_items transaction in
  (* Agreement: seller and buyer *)
  let agreement := RAM "ApplicableHeaderTradeAgreement" [] in
  let seller_party := RAM "SellerTradeParty" [] in
  let seller_party :=
    append seller_party (RAM_text "Name" (Schemas.name seller)) in
  let seller_party := append seller_party (postal_address seller) in
  let seller_party :=
    append seller_party
      (tax_registration (default EmptyString (Schemas.tax_id seller))) in
  let agreement := append agreement seller_party in
  let buyer_party := RAM "BuyerTradeParty" [] in
  let buyer_party :=
    append buyer_party (RAM_text "Name" (Schemas.name buyer)) in
  let buyer_party := append buyer_party (postal_address buyer) in
  let buyer_party :=
    if truthy (Schemas.tax_id buyer)
    then append buyer_party
           (tax_registration (default EmptyString (Schemas.tax_id buyer)))
    else buyer_party in
  let agreement := append agreement buyer_party in
  let transaction := append transaction agreement in
  (* Delivery *)
  let delivery := RAM "ApplicableHeaderTradeDelivery" [] in
  let delivery :=
    match or_else delivery_date_end delivery_date_start with
    | Some delivery_date =>
        append delivery (RAM "ActualDeliverySupplyChainEvent"
          [RAM "OccurrenceDateTime"
             [UDT_DateTimeString (Datetime.strftime_Ymd delivery_date)]])
    | None => delivery
    end in
  let transaction := append transaction delivery in
  (* Settlement *)
  let settlement := RAM "ApplicableHeaderTradeSettlement" [] in
  let settlement :=
    append settlement (RAM_text "InvoiceCurrencyCode" currency) in
  let tax_breakdown := RAM "ApplicableTradeTax" [] in
  let tax_breakdown :=
    append tax_breakdown
      (RAM_text "CalculatedAmount" (PyFloat.format_f 2 tax_total)) in
  let tax_breakdown := append tax_breakdown (RAM_text "TypeCode" "VAT") in
  let tax_breakdown :=
    append tax_breakdown
      (RAM_text "BasisAmount" (PyFloat.format_f 2 net_total)) in
  let tax_breakdown := append tax_breakdown (RAM_text "CategoryCode" "S") in
  let tax_breakdown :=
    match line_items with
    | first :: _ =>
        append tax_breakdown
          (RAM_text "RateApplicablePercent"
             (PyFloat.format_f 2 (Item.tax_rate first)))
    | [] => tax_breakdown
    end in
  let settlement := append settlement tax_breakdown in
  let settlement :=
    if truthy payment_terms
    then append settlement (RAM "SpecifiedTradePaymentTerms"
           [RAM_text "Description" (default EmptyString payment_terms)])
    else settlement in
  (* Monetary summation *)
  let summation := RAM "SpecifiedTradeSettlementHeaderMonetarySummation" [] in
  let summation :=
    append summation
      (RAM_text "LineTotalAmount" (PyFloat.format_f 2 net_total)) in
  let summation :=
    append summation
      (RAM_text "TaxBasisTotalAmount" (PyFloat.format_f 2 net_total)) in
  let summation :=
    append summation
      (leaf_with ram_uri "TaxTotalAmount" (PyFloat.format_f 2 tax_total)
         (<["currencyID" := currency]> ∅)) in
  let summation :=
    append summation
      (RAM_text "GrandTotalAmount" (PyFloat.format_f 2 gross_total)) in
  let summation :=
    append summation
      (RAM_text "DuePayableAmount" (PyFloat.format_f 2 gross_total)) in
  let settlement := append settlement summation in
  let transaction := append transaction settlement in
  append root transaction.

(** [generate]: the tree serialised to bytes. *)
Definition generate
    (invoice_number : string) (issue_date : datetime)
    (seller buyer : Schemas.Party) (line_items : list Item.t)
    (net_total tax_total gross_total : PyFloat.float) (currency : string)
    (delivery_date_start delivery_date_end : option datetime)
    (payment_terms : option string) : string :=
  etree_tostring
    (generate_root invoice_number issue_date seller buyer line_items
       net_total tax_total gross_total currency
       delivery_date_start delivery_date_end payment_terms).

(** The paths of [required_paths], each [".//prefix:local"]. *)
Definition required_paths : list (string * string) :=
  [("ram", "ID"); ("ram", "SellerTradeParty"); ("ram", "BuyerTradeParty");
   ("ram", "GrandTotalAmount")].

(** The checks of [validate] on a parsed root. *)
Definition validate_root (root : element) : bool :=
  if negb (String.eqb (tag root) (qname rsm_uri "CrossIndustryInvoice"))
  then false
  else forallb (fun path => bool_decide (is_Some
                  (find root (fst path) (snd path) NAMESPACES)))
               required_paths.

(** [validate]: a parse error is caught and gives [False]. *)
Definition validate (xml_bytes : string) : bool :=
  match etree_fromstring xml_bytes with
  | Some root => validate_root root
  | None => false
  end.

End Generate.
End ZUGFeRDGenerator.

(** ** app/models/models.py: the rows of the database *)

(** A JSON value of a [details] column. *)
Inductive json : Type :=
| JString (s : string)
| JNumber (x : PyFloat.float).

Module Models.

Record Invoice : Type := {
  id : Z;
  invoice_number : string;
  issue_date : datetime;
  delivery_date_start : option datetime;
  delivery_date_end : option datetime;
  seller_name : string;
  seller_street : string;
  seller_zip : string;
  seller_city : string;
  seller_country : string;
  seller_tax_id : option string;
  seller_email : option string;
  seller_phone : option string;
  buyer_name : string;
  buyer_street : string;
  buyer_zip : string;
  buyer_city : string;
  buyer_country : string;
  buyer_tax_id : option string;
  buyer_email : option string;
  buyer_phone : option string;
  currency : string;
  net_total : PyFloat.float;
  tax_total : PyFloat.float;
  gross_total : PyFloat.float;
  tax_exempt : bool;
  tax_exempt_reason : option string;
  notes : option string;
  payment_terms : option string;
  zugferd_xml_path : option string;
  pdfa3_path : string;
  pdf_hash : string;
  tsa_token : option (gmap string string);
  signature_info : option (gmap string string);
  status : string;
  version : Z;
  is_immutable : bool;
  created_by : Z;
  created_at : datetime;
  updated_at : datetime
}.

Record InvoiceLineItem : Type := {
  item_invoice_id : Z;
  item_data : Item.t
}.

Record AuditLog : Type := {
  user_id : Z;
  entity_type : string;
  entity_id : Z;
  action : string;
  details : gmap string json;
  timestamp : datetime
}.

(** [invoice.status = s], with the column default [onupdate] of
    [updated_at] applied when the change is written. *)
Definition set_status (s : string) (now : datetime) (i : Invoice) : Invoice :=
  {| id := id i; invoice_number := invoice_number i;
     issue_date := issue_date i;
     delivery_date_start := delivery_date_start i;
     delivery_date_end := delivery_date_end i;
     seller_name := seller_name i; seller_street := seller_street i;
     seller_zip := seller_zip i; seller_city := seller_city i;
     seller_country := seller_country i; seller_tax_id := seller_tax_id i;
     seller_email := seller_email i; seller_phone := seller_phone i;
     buyer_name := buyer_name i; buyer_street := buyer_street i;
     buyer_zip := buyer_zip i; buyer_city := buyer_city i;
     buyer_country := buyer_country i; buyer_tax_id := buyer_tax_id i;
     buyer_email := buyer_email i; buyer_phone := buyer_phone i;
     currency := currency i; net_total := net_total i;
     tax_total := tax_total i; gross_total := gross_total i;
     tax_exempt := tax_exempt i; tax_exempt_reason := tax_exempt_reason i;
     notes := notes i; payment_terms := payment_terms i;
     zugferd_xml_path := zugferd_xml_path i; pdfa3_path := pdfa3_path i;
     pdf_hash := pdf_hash i; tsa_token := tsa_token i;
     signature_info := signature_info i;
     status := s;
     version := version i; is_immutable := is_immutable i;
     created_by := created_by i; created_at := created_at i;
     updated_at := now |}.

(** Every column but [status] and [updated_at] agrees. *)
Definition same_but_status (i j : Invoice) : Prop :=
  id i = id j /\ invoice_number i = invoice_number j
  /\ issue_date i = issue_date j
  /\ delivery_date_start i = delivery_date_start j
  /\ delivery_date_end i = delivery_date_end j
  /\ seller_name i = seller_name j /\ seller_street i = seller_street j
  /\ seller_zip i = seller_zip j /\ seller_city i = seller_city j
  /\ seller_country i = seller_country j /\ seller_tax_id i = seller_tax_id j
  /\ seller_email i = seller_email j /\ seller_phone i = seller_phone j
  /\ buyer_name i = buyer_name j /\ buyer_street i = buyer_street j
  /\ buyer_zip i = buyer_zip j /\ buyer_city i = buyer_city j
  /\ buyer_country i = buyer_country j /\ buyer_tax_id i = buyer_tax_id j
  /\ buyer_email i = buyer_email j /\ buyer_phone i = buyer_phone j
  /\ currency i = currency j /\ net_total i = net_total j
  /\ tax_total i = tax_total j /\ gross_total i = gross_total j
  /\ tax_exempt i = tax_exempt j /\ tax_exempt_reason i = tax_exempt_reason j
  /\ notes i = notes j /\ payment_terms i = payment_terms j
  /\ zugferd_xml_path i = zugferd_xml_path j /\ pdfa3_path i = pdfa3_path j
  /\ pdf_hash i = pdf_hash j /\ tsa_token i = tsa_token j
  /\ signature_info i = signature_info j
  /\ version i = version j /\ is_immutable i = is_immutable j
  /\ created_by i = created_by j /\ created_at i = created_at j.

End Models.

(** ** The archival store behind [StorageService]

    The remote backend is a bucket of an S3-compatible object store, the
    local one a directory.  The bucket is modelled from the documented
    behaviour of the service: with versioning enabled every put and every
    delete adds an entry on top of the key's history; without it a put
    replaces the object and a delete removes it. *)

Module S3.

Inductive entry : Type :=
| Version (version_id : nat) (body : string) (content_type : string)
          (metadata : gmap string string) (last_modified : datetime)
| DeleteMarker (version_id : nat).

Definition is_version (e : entry) : bool :=
  match e with Version _ _ _ _ _ => true | DeleteMarker _ => false end.

(** The history of every key, newest entry first. *)
Record bucket : Type := {
  versioning : bool;
  objects : gmap string (list entry);
  next_version_id : nat
}.

Definition history (b : bucket) (key : string) : list entry :=
  default [] (objects b !! key).

Definition put_object (b : bucket) (key body content_type : string)
    (metadata : gmap string string) (now : datetime) : bucket :=
  let v := Version (next_version_id b) body content_type metadata now in
  {| versioning := versioning b;
     objects := <[key := if versioning b then v :: history b key else [v]]>
                  (objects b);
     next_version_id := S (next_version_id b) |}.

(** [get_object]: the body of the current version; [None] stands for the
    [ClientError] with code [NoSuchKey]. *)
Definition get_object (b : bucket) (key : string) : option string :=
  match history b key with
  | Version _ body _ _ _ :: _ => Some body
  | _ => None
  end.

Definition delete_object (b : bucket) (key : string) : bucket :=
  {| versioning := versioning b;
     objects := if versioning b
                then <[key := DeleteMarker (next_version_id b)
                                :: history b key]> (objects b)
                else delete key (objects b);
     next_version_id := S (next_version_id b) |}.

(** One element of the [Versions] list of [list_object_versions]: the key
    and the entry with its rank in the key's history. *)
Record version_info : Type := {
  vi_key : string;
  vi_version_id : nat;
  vi_last_modified : datetime;
  vi_size : Z;
  vi_is_latest : bool
}.

Fixpoint versions_of (key : string) (latest : bool) (h : list entry)
    : list version_info :=
  match h with
  | [] => []
  | Version vid body _ _ lm :: h' =>
      {| vi_key := key; vi_version_id := vid; vi_last_modified := lm;
         vi_size := Z.of_nat (String.length body); vi_is_latest := latest |}
        :: versions_of key false h'
  | DeleteMarker _ :: h' => versions_of key false h'
  end.

(** [list_object_versions(Bucket, Prefix)["Versions"]]: the object
    versions (not the delete markers) of every key that starts with the
    prefix.  One page of the listing is modelled; the order between
    different keys is that of the map. *)
Definition list_object_versions (b : bucket) (prefix : string)
    : list version_info :=
  flat_map (fun kv => versions_of (fst kv) true (snd kv))
    (filter (fun kv => String.prefix prefix (fst kv) = true)
            (map_to_list (objects b))).

End S3.

(** The backend of the service.  The remote one is a bucket.  The local
    one is the directory ./storage, held as the files written under the
    keys of the service ([StorageSpec.canonical]); a key is joined to the
    directory as a path, and what other spellings of a path, keys that
    name a directory, or names the file system refuses would do is not
    modelled. *)
Inductive Storage : Type :=
| Remote (b : S3.bucket)            (* [use_local = False] *)
| Local (files : gmap string string). (* [use_local = True], under ./storage *)

(** ** The state of the world and the monad of the service *)

Record World : Type := {
  (** table [invoice_number_sequence]: prefix to [current_number] *)
  sequences : gmap string Z;
  (** table [invoices], by primary key *)
  invoices : gmap Z Models.Invoice;
  (** table [invoice_line_items] *)
  invoice_line_items : list Models.InvoiceLineItem;
  (** table [audit_logs], oldest first *)
  audit_logs : list Models.AuditLog;
  storage : Storage;
  (** the number of clock readings taken so far *)
  ticks : nat
}.

Definition M (A : Type) : Type := World -> result A * World.

Definition ret {A : Type} (a : A) : M A := fun w => (Ok a, w).

Definition raise {A : Type} (e : exn) : M A := fun w => (Raise e, w).

Definition bind {A B : Type} (m : M A) (k : A -> M B) : M B :=
  fun w =>
    match m w with
    | (Ok a, w') => k a w'
    | (Raise e, w') => (Raise e, w')
    end.

Notation "'let*' x := m 'in' k" := (bind m (fun x => k))
  (at level 10, x name, m at level 100, k at level 200).
Notation "'let*' ' pat := m 'in' k" :=
  (bind m (fun x => match x with pat => k end))
  (at level 10, pat pattern, m at level 100, k at level 200).

Definition set_sequences (s : gmap string Z) (w : World) : World :=
  {| sequences := s; invoices := invoices w;
     invoice_line_items := invoice_line_items w;
     audit_logs := audit_logs w; storage := storage w; ticks := ticks w |}.

Definition set_storage (s : Storage) (w : World) : World :=
  {| sequences := sequences w; invoices := invoices w;
     invoice_line_items := invoice_line_items w;
     audit_logs := audit_logs w; storage := s; ticks := ticks w |}.

Definition set_ticks (n : nat) (w : World) : World :=
  {| sequences := sequences w; invoices := invoices w;
     invoice_line_items := invoice_line_items w;
     audit_logs := audit_logs w; storage := storage w; ticks := n |}.

(** What one commit of the session writes to the invoice tables. *)
Definition set_tables (inv : gmap Z Models.Invoice)
    (items : list Models.InvoiceLineItem) (logs : list Models.AuditLog)
    (w : World) : World :=
  {| sequences := sequences w; invoices := inv;
     invoice_line_items := items; audit_logs := logs;
     storage := storage w; ticks := ticks w |}.

(** [datetime.utcnow()] (and [datetime.now()]): the next reading. *)
Definition utcnow {env : Env} : M datetime :=
  fun w => (Ok (clock (ticks w)), set_ticks (S (ticks w)) w).

(** ** app/services/pdf_generator.py *)

Module PDFGenerator.
Import ReportLab.

Definition truthy := ZUGFeRDGenerator.truthy.

Definition dquote : string := String (ascii_of_nat 34) EmptyString.

Definition footer_text : string := "
        <font size=8 color=" ++ dquote ++ "#7f8c8d" ++ dquote ++ ">
        Dieses Dokument wurde maschinell erstellt und ist ohne Unterschrift gültig.<br/>
        Die Rechnung entspricht den Anforderungen nach §14 UStG und ist GoBD-konform archiviert.<br/>
        PDF/A-3 mit eingebettetem ZUGFeRD XML (EN-16931 kompatibel).
        </font>
        ".

Definition buyer_block (buyer : Schemas.Party) : cell :=
  Para (Schemas.name buyer ++ "<br/>" ++ Schemas.street buyer ++ "<br/>"
        ++ Schemas.zip buyer ++ " " ++ Schemas.city buyer ++ "<br/>"
        ++ Schemas.country buyer
        ++ (if truthy (Schemas.tax_id buyer)
            then "<br/>USt-IdNr: " ++ default EmptyString (Schemas.tax_id buyer)
            else EmptyString))
       "Normal".

Definition seller_block (seller : Schemas.Party) : cell :=
  Para ("<b>Rechnungssteller:</b><br/>" ++ Schemas.name seller ++ "<br/>"
        ++ Schemas.street seller ++ "<br/>" ++ Schemas.zip seller ++ " "
        ++ Schemas.city seller ++ "<br/>" ++ Schemas.country seller
        ++ "<br/>USt-IdNr: " ++ default EmptyString (Schemas.tax_id seller))
       "Normal".

(** One row of the line-item table. *)
Definition line_item_row (currency : string) (item : Item.t) : list cell :=
  [Str (PyInt.str (Item.position item));
   Str (Item.description item);
   Str (PyFloat.format_f 2 (Item.quantity item));
   Str (Item.unit item);
   Str (PyFloat.format_f 2 (Item.unit_price item) ++ " " ++ currency);
   Str (PyFloat.format_f 0 (Item.tax_rate item) ++ "%");
   Str (PyFloat.format_f 2 (Item.line_gross item) ++ " " ++ currency)].

(** [totals_data]. *)
Definition totals_data (net_total tax_total gross_total : PyFloat.float)
    (currency : string) : list (list cell) :=
  [[Str "Nettobetrag:"; Str (PyFloat.format_f 2 net_total ++ " " ++ currency)];
   [Str "MwSt.:"; Str (PyFloat.format_f 2 tax_total ++ " " ++ currency)];
   [Str EmptyString; Str EmptyString];
   [Str "Gesamtbetrag:";
    Str (PyFloat.format_f 2 gross_total ++ " " ++ currency)]].

(** The story handed to [doc.build]. *)
Definition story
    (invoice_number : string) (issue_date : datetime)
    (seller buyer : Schemas.Party) (line_items : list Item.t)
    (net_total tax_total gross_total : PyFloat.float) (currency : string)
    (notes payment_terms : option string) : list flowable :=
  [Paragraph ("Rechnung " ++ invoice_number) "CustomTitle";
   Spacer 1 10;
   Table [[buyer_block buyer; seller_block seller]] [90; 90];
   Spacer 1 10;
   Table [[Str "Rechnungsnummer"; Str invoice_number];
          [Str "Rechnungsdatum"; Str (Datetime.strftime_dmY issue_date)]]
         [55; 65];
   Spacer 1 10;
   Paragraph "Rechnungspositionen" "CustomHeading";
   Table ([Str "Pos."; Str "Beschreibung"; Str "Menge"; Str "Einheit";
           Str "Preis"; Str "MwSt."; Str "Gesamt"]
          :: map (line_item_row currency) line_items)
         [10; 60; 20; 20; 25; 20; 25];
   Spacer 1 10;
   Table (totals_data net_total tax_total gross_total currency) [140; 40]]
  ++ (if truthy payment_terms
      then [Spacer 1 10;
            Paragraph "<b>Zahlungsbedingungen:</b>" "Normal";
            Paragraph (default EmptyString payment_terms) "Normal"]
      else [])
  ++ (if truthy notes
      then [Spacer 1 10;
            Paragraph "<b>Hinweise:</b>" "Normal";
            Paragraph (default EmptyString notes) "Normal"]
      else [])
  ++ [Spacer 1 15; Paragraph footer_text "Normal"].

Section Generate.
Context {env : Env}.

(** [_embed_zugferd_xml]. *)
Definition _embed_zugferd_xml (pdf_bytes xml_bytes invoice_number : string)
    : M string :=
  let* now := utcnow in
  let xml_filename := "zugferd-invoice.xml" in
  ret (pikepdf_embed pdf_bytes
         {| ef_filename := xml_filename;
            ef_subtype := "/text#2Fxml";
            ef_body := xml_bytes;
            ef_size := Z.of_nat (String.length xml_bytes);
            ef_mod_date := Datetime.strftime_pdf now;
            ef_relationship := "/Alternative" |}).

Definition generate
    (invoice_number : string) (issue_date : datetime)
    (seller buyer : Schemas.Party) (line_items : list Item.t)
    (net_total tax_total gross_total : PyFloat.float) (currency : string)
    (notes payment_terms : option string) (zugferd_xml : option string)
    : M string :=
  let pdf_bytes :=
    reportlab_build
      (story invoice_number issue_date seller buyer line_items
         net_total tax_total gross_total currency notes payment_terms) in
  if truthy zugferd_xml
  then _embed_zugferd_xml pdf_bytes (default EmptyString zugferd_xml) invoice_number
  else ret pdf_bytes.

End Generate.
End PDFGenerator.

(** ** app/services/signature_service.py *)

Module SignatureService.
Section Service.
Context {env : Env} {settings : Settings}.

(** [x or "SHA256"] for a string setting. *)
Definition hash_algorithm : string :=
  match TSA_HASH_ALGORITHM with
  | EmptyString => "SHA256"
  | s => s
  end.

Definition tsa_url : string := TSA_URL.

(** The token of the [try] branch. *)
Definition tsa_token_metadata (pdf_bytes signed_pdf_bytes : string)
    (now : datetime) : gmap string string :=
  <["tsa_url" := tsa_url]>
  (<["timestamp" := Datetime.isoformat now]>
  (<["hash_algorithm" := hash_algorithm]>
  (<["pdf_hash" := sha256_hexdigest pdf_bytes]>
  (<["signed_pdf_hash" := sha256_hexdigest signed_pdf_bytes]> ∅)))).

(** The token of the [except] branch. *)
Definition mock_token (pdf_bytes : string) (now : datetime)
    : gmap string string :=
  <["tsa_url" := "mock_tsa"]>
  (<["timestamp" := Datetime.isoformat now]>
  (<["hash_algorithm" := hash_algorithm]>
  (<["pdf_hash" := sha256_hexdigest pdf_bytes]>
  (<["signed_pdf_hash" := sha256_hexdigest pdf_bytes]>
  (<["warning" := "Mock timestamp - not for production use"]> ∅))))).

Definition _add_timestamp (pdf_bytes : string)
    : M (string * gmap string string) :=
  match pyhanko_timestamp pdf_bytes with
  | Some signed_pdf_bytes =>
      let* now := utcnow in
      ret (signed_pdf_bytes,
           tsa_token_metadata pdf_bytes signed_pdf_bytes now)
  | None =>
      (* except Exception *)
      let* now := utcnow in
      ret (pdf_bytes, mock_token pdf_bytes now)
  end.

Definition sign_pdf (pdf_bytes : string) : M (string * gmap string string) :=
  let* '(signed_pdf, tsa_token) := _add_timestamp pdf_bytes in
  ret (signed_pdf, tsa_token).

End Service.
End SignatureService.

(** ** app/services/storage_service.py *)

Module StorageService.
Section Service.
Context {env : Env}.

Definition get_storage : M Storage := fun w => (Ok (storage w), w).
Definition put_storage (s : Storage) : M unit :=
  fun w => (Ok tt, set_storage s w).

(** The common body of [store_pdf] and [store_xml]. *)
Definition store (invoice_number bytes ext content_type : string) : M string :=
  let* now := utcnow in
  let key := "invoices/" ++ PyInt.str (year now) ++ "/" ++ invoice_number
               ++ ext in
  let* s := get_storage in
  match s with
  | Local files =>
      (* file_path.write_bytes(...) *)
      let* _ := put_storage (Local (<[key := bytes]> files)) in
      ret key
  | Remote b =>
      let* created_at := utcnow in
      let metadata : gmap string string :=
        <["invoice_number" := invoice_number]>
        (<["created_at" := Datetime.isoformat created_at]>
        (<["content_type" := content_type]> ∅)) in
      let* _ := put_storage
                  (Remote (S3.put_object b key bytes content_type metadata
                             created_at)) in
      ret key
  end.

Definition store_pdf (invoice_number pdf_bytes : string) : M string :=
  store invoice_number pdf_bytes ".pdf" "application/pdf".

Definition store_xml (invoice_number xml_bytes : string) : M string :=
  store invoice_number xml_bytes ".xml" "text/xml".

Definition get_file (key : string) : M string :=
  let* s := get_storage in
  match s with
  | Local files =>
      match files !! key with
      | Some bytes => ret bytes
      | None => raise (FileNotFoundError ("File not found in storage: " ++ key))
      end
  | Remote b =>
      match S3.get_object b key with
      | Some bytes => ret bytes
      | None => raise (FileNotFoundError ("File not found in storage: " ++ key))
      end
  end.

(** One dictionary of the list returned by [list_versions]. *)
Record version_dict : Type := {
  version_id : nat;
  last_modified : string;
  size : Z;
  is_latest : bool
}.

Definition describe (v : S3.version_info) : version_dict :=
  {| version_id := S3.vi_version_id v;
     last_modified := Datetime.isoformat (S3.vi_last_modified v);
     size := S3.vi_size v;
     is_latest := S3.vi_is_latest v |}.

(** On the local backend [self.s3_client] is [None], and the attribute
    access raises outside the [except ClientError]. *)
Definition list_versions (key : string) : M (list version_dict) :=
  let* s := get_storage in
  match s with
  | Remote b => ret (map describe (S3.list_object_versions b key))
  | Local _ =>
      raise (AttributeError
        "'NoneType' object has no attribute 'list_object_versions'")
  end.

Definition delete_object (key : string) : M unit :=
  let* s := get_storage in
  match s with
  | Remote b => put_storage (Remote (S3.delete_object b key))
  | Local _ =>
      raise (AttributeError
        "'NoneType' object has no attribute 'delete_object'")
  end.

End Service.
End StorageService.

(** ** app/services/invoice_service.py *)

Module InvoiceService.

(** The collaborators held by the service object. *)
Record ZUGFeRDGeneratorT : Type := {
  zugferd_generate :
    string -> datetime -> Schemas.Party -> Schemas.Party -> list Item.t ->
    PyFloat.float -> PyFloat.float -> PyFloat.float -> string ->
    option datetime -> option datetime -> option string -> string;
  zugferd_validate : string -> bool
}.

Record PDFGeneratorT : Type := {
  pdf_generate :
    string -> datetime -> Schemas.Party -> Schemas.Party -> list Item.t ->
    PyFloat.float -> PyFloat.float -> PyFloat.float -> string ->
    option string -> option string -> option string -> M string
}.

Record SignatureServiceT : Type := {
  sign_pdf : string -> M (string * gmap string string)
}.

Record StorageServiceT : Type := {
  store_pdf : string -> string -> M string;
  store_xml : string -> string -> M string;
  get_file : string -> M string
}.

Record t : Type := {
  zugferd_gen : ZUGFeRDGeneratorT;
  pdf_gen : PDFGeneratorT;
  signature_service : SignatureServiceT;
  storage_service : StorageServiceT
}.

(** The next value of an autoincremented primary key. *)
Definition next_id (rows : gmap Z Models.Invoice) : Z :=
  1 + foldr Z.max 0 (map fst (map_to_list rows)).

(** The unique constraint on [invoices.invoice_number]. *)
Definition number_taken (rows : gmap Z Models.Invoice) (n : string) : bool :=
  existsb (fun kv => String.eqb (Models.invoice_number (snd kv)) n)
          (map_to_list rows).

(** The database is SQLite, the default of [DATABASE_URL]: a float that
    is not a number is bound as NULL, so it violates a column declared
    [nullable=False]. *)
Definition null_float (column : string) (x : PyFloat.float) : option string :=
  if PyFloat.is_nan x then Some column else None.

(** The first of [net_total], [tax_total] and [gross_total] of the table
    [invoices] that would hold NULL. *)
Definition null_total (net_total tax_total gross_total : PyFloat.float)
    : option string :=
  match null_float "invoices.net_total" net_total with
  | Some c => Some c
  | None =>
      match null_float "invoices.tax_total" tax_total with
      | Some c => Some c
      | None => null_float "invoices.gross_total" gross_total
      end
  end.

Definition null_column (row : Models.Invoice) : option string :=
  null_total (Models.net_total row) (Models.tax_total row)
    (Models.gross_total row).

(** The first float column of a row of [invoice_line_items] that would
    hold NULL. *)
Definition item_null_column (i : Item.t) : option string :=
  List.fold_right
    (fun cx rest =>
       match null_float (fst cx) (snd cx) with
       | Some c => Some c
       | None => rest
       end)
    None
    [("invoice_line_items.quantity", Item.quantity i);
     ("invoice_line_items.unit_price", Item.unit_price i);
     ("invoice_line_items.line_net", Item.line_net i);
     ("invoice_line_items.tax_rate", Item.tax_rate i);
     ("invoice_line_items.tax_amount", Item.tax_amount i);
     ("invoice_line_items.line_gross", Item.line_gross i)].

Fixpoint items_null_column (items : list Item.t) : option string :=
  match items with
  | [] => None
  | i :: rest =>
      match item_null_column i with
      | Some c => Some c
      | None => items_null_column rest
      end
  end.

(** The totals and the lines computed for the draft are all numbers, so
    that no insert of [create_invoice] violates a NOT NULL constraint. *)
Definition storable (invoice_data : Schemas.InvoiceCreate) : bool :=
  let a := Totals.loop (Schemas.line_items invoice_data) in
  match null_total (Totals.net_total a) (Totals.tax_total a)
          (Totals.gross_total a),
        items_null_column (Totals.line_items_data a) with
  | None, None => true
  | _, _ => false
  end.

Section Service.
Context {env : Env} {settings : Settings}.

(** [InvoiceService(db)]. *)
Definition init : t := {|
  zugferd_gen := {| zugferd_generate := ZUGFeRDGenerator.generate;
                    zugferd_validate := ZUGFeRDGenerator.validate |};
  pdf_gen := {| pdf_generate := PDFGenerator.generate |};
  signature_service := {| sign_pdf := SignatureService.sign_pdf |};
  storage_service := {| store_pdf := StorageService.store_pdf;
                        store_xml := StorageService.store_xml;
                        get_file := StorageService.get_file |}
|}.

(** [_generate_invoice_number], run from its query to its commit without
    another session in between: the row of the prefix is read, created
    with the configured start when missing, and the incremented number is
    committed before the call returns.  The column [current_number] holds
    64-bit integers; the counter is not bounded here, and
    [Schedule.in_range] states the bound. *)
Definition _generate_invoice_number : M string :=
  fun w =>
    let prefix := INVOICE_NUMBER_PREFIX in
    let '(current_number, rows) :=
      match sequences w !! prefix with
      | Some n => (n, sequences w)
      | None => (INVOICE_NUMBER_START,
                 <[prefix := INVOICE_NUMBER_START]> (sequences w))
      end in
    let invoice_number := prefix ++ PyInt.format_06d current_number in
    (Ok invoice_number,
     set_sequences (<[prefix := current_number + 1]> rows) w).

(** [self.db.add(db_invoice); self.db.flush()]: the insert assigns the
    primary key and the column defaults.  It fails on a number that is
    already taken, and on a total that is not a number (NOT NULL); the
    exception is modelled by the constraint it names, the unique one when
    the number is taken. *)
Definition flush_invoice (mk : Z -> datetime -> datetime -> Models.Invoice)
    (invoice_number : string) : M Models.Invoice :=
  fun w =>
    if number_taken (invoices w) invoice_number
    then (Raise (IntegrityError "invoices.invoice_number"), w)
    else
      match (let* created_at := utcnow in
             let* updated_at := utcnow in
             ret (mk (next_id (invoices w)) created_at updated_at)) w with
      | (Ok row, w') =>
          match null_column row with
          | Some c => (Raise (IntegrityError c), w)
          | None => (Ok row, w')
          end
      | (Raise e, w') => (Raise e, w')
      end.

(** [self.db.commit()] at the end of [create_invoice]: the invoice, its
    line items and the audit entry are written together, or, when a
    line item holds a float that is not a number (NOT NULL), nothing is
    written. *)
Definition commit_invoice (db_invoice : Models.Invoice)
    (line_items_data : list Item.t)
    (mk_log : datetime -> Models.AuditLog) : M unit :=
  match items_null_column line_items_data with
  | Some c => raise (IntegrityError c)
  | None =>
      let* ts := utcnow in
      fun w =>
        (Ok tt,
         set_tables
           (<[Models.id db_invoice := db_invoice]> (invoices w))
           (invoice_line_items w
              ++ map (fun d =>
                        {| Models.item_invoice_id := Models.id db_invoice;
                           Models.item_data := d |}) line_items_data)
           (audit_logs w ++ [mk_log ts])
           w)
  end.

Definition create_invoice (self : t) (invoice_data : Schemas.InvoiceCreate)
    (user_id : Z) : M Models.Invoice :=
  (* 1. Generate invoice number *)
  let* invoice_number := _generate_invoice_number in
  (* 2. Calculate totals *)
  let a := Totals.loop (Schemas.line_items invoice_data) in
  let line_items_data := Totals.line_items_data a in
  let net_total := Totals.net_total a in
  let tax_total := Totals.tax_total a in
  let gross_total := Totals.gross_total a in
  (* 3. Generate ZUGFeRD XML *)
  let zugferd_xml :=
    zugferd_generate (zugferd_gen self) invoice_number
      (Schemas.issue_date invoice_data) (Schemas.seller invoice_data)
      (Schemas.buyer invoice_data) line_items_data
      net_total tax_total gross_total (Schemas.currency invoice_data)
      None None None in
  (* 4. Generate PDF/A-3 *)
  let* pdf_bytes :=
    pdf_generate (pdf_gen self) invoice_number
      (Schemas.issue_date invoice_data) (Schemas.seller invoice_data)
      (Schemas.buyer invoice_data) line_items_data
      net_total tax_total gross_total (Schemas.currency invoice_data)
      (Schemas.notes invoice_data) (Schemas.payment_terms invoice_data)
      (Some zugferd_xml) in
  (* 5. Sign PDF *)
  let* '(signed_pdf_bytes, tsa_token) :=
    sign_pdf (signature_service self) pdf_bytes in
  (* 6. Calculate hash *)
  let pdf_hash := sha256_hexdigest signed_pdf_bytes in
  (* 7. Store *)
  let* pdf_path :=
    store_pdf (storage_service self) invoice_number signed_pdf_bytes in
  let* xml_path :=
    store_xml (storage_service self) invoice_number zugferd_xml in
  (* 8. Create database record *)
  let seller := Schemas.seller invoice_data in
  let buyer := Schemas.buyer invoice_data in
  let* db_invoice :=
    flush_invoice (fun new_id created updated =>
      {| Models.id := new_id;
         Models.invoice_number := invoice_number;
         Models.issue_date := Schemas.issue_date invoice_data;
         Models.delivery_date_start := Schemas.delivery_date_start invoice_data;
         Models.delivery_date_end := Schemas.delivery_date_end invoice_data;
         Models.seller_name := Schemas.name seller;
         Models.seller_street := Schemas.street seller;
         Models.seller_zip := Schemas.zip seller;
         Models.seller_city := Schemas.city seller;
         Models.seller_country := Schemas.country seller;
         Models.seller_tax_id := Schemas.tax_id seller;
         Models.seller_email := Schemas.email seller;
         Models.seller_phone := Schemas.phone seller;
         Models.buyer_name := Schemas.name buyer;
         Models.buyer_street := Schemas.street buyer;
         Models.buyer_zip := Schemas.zip buyer;
         Models.buyer_city := Schemas.city buyer;
         Models.buyer_country := Schemas.country buyer;
         Models.buyer_tax_id := Schemas.tax_id buyer;
         Models.buyer_email := Schemas.email buyer;
         Models.buyer_phone := Schemas.phone buyer;
         Models.currency := Schemas.currency invoice_data;
         Models.net_total := net_total;
         Models.tax_total := tax_total;
         Models.gross_total := gross_total;
         Models.tax_exempt := Schemas.tax_exempt invoice_data;
         Models.tax_exempt_reason := Schemas.tax_exempt_reason invoice_data;
         Models.notes := Schemas.notes invoice_data;
         Models.payment_terms := Schemas.payment_terms invoice_data;
         Models.zugferd_xml_path := Some xml_path;
         Models.pdfa3_path := pdf_path;
         Models.pdf_hash := pdf_hash;
         Models.tsa_token := Some tsa_token;
         Models.signature_info := None;
         Models.status := "issued";
         Models.version := 1;
         Models.is_immutable := true;
         Models.created_by := user_id;
         Models.created_at := created;
         Models.updated_at := updated |})
      invoice_number in
  (* 9. line items, 10. audit log, commit *)
  let* _ :=
    commit_invoice db_invoice line_items_data (fun ts =>
      {| Models.user_id := user_id;
         Models.entity_type := "invoice";
         Models.entity_id := Models.id db_invoice;
         Models.action := "create";
         Models.details :=
           <["invoice_number" := JString invoice_number]>
           (<["gross_total" := JNumber gross_total]>
           (<["buyer" := JString (Schemas.name buyer)]> ∅));
         Models.timestamp := ts |}) in
  ret db_invoice.

(** [cancel_invoice]: the status is set, the audit entry added, and both
    are committed.  Assigning the value the row already has changes
    nothing, so no update is written for it. *)
Definition cancel_invoice (self : t) (invoice : Models.Invoice)
    (reason : string) (user_id : Z) : M Models.Invoice :=
  let* invoice' :=
    if String.eqb (Models.status invoice) "cancelled"
    then ret invoice
    else (let* now := utcnow in
          ret (Models.set_status "cancelled" now invoice)) in
  let* ts := utcnow in
  let audit_log :=
    {| Models.user_id := user_id;
       Models.entity_type := "invoice";
       Models.entity_id := Models.id invoice;
       Models.action := "cancel";
       Models.details :=
         <["invoice_number" := JString (Models.invoice_number invoice)]>
         (<["reason" := JString reason]> ∅);
       Models.timestamp := ts |} in
  let* _ := (fun w =>
    (Ok tt,
     set_tables (<[Models.id invoice := invoice']> (invoices w))
                (invoice_line_items w)
                (audit_logs w ++ [audit_log]) w)) in
  ret invoice'.

End Service.
End InvoiceService.

(** ** app/api/invoices.py: the cancellation route *)

Module Api.

Record CancelResponse : Type := {
  message : string;
  invoice_id : Z;
  status : string;
  cancellation_reason : string
}.

(** The error of the guard in the cancellation route. *)
Definition already_cancelled : exn :=
  HTTPException 400 "Invoice is already cancelled".

(** [str(e)] of an exception. *)
Definition exn_str (e : exn) : string :=
  match e with
  | HTTPException code detail => PyInt.str code ++ ": " ++ detail
  | IntegrityError c => c
  | FileNotFoundError m => m
  | AttributeError m => m
  | StaleDataError m => m
  end.

(** [try: m except Exception as e: handler(e)]. *)
Definition try_except {A : Type} (m : M A) (handler : exn -> M A) : M A :=
  fun w =>
    match m w with
    | (Ok a, w') => (Ok a, w')
    | (Raise e, w') => handler e w'
    end.

Section Routes.
Context {env : Env} {settings : Settings}.

(** [db.query(InvoiceModel).filter(InvoiceModel.id == invoice_id).first()]. *)
Definition query_invoice (invoice_id : Z) : M (option Models.Invoice) :=
  fun w => (Ok (invoices w !! invoice_id), w).

(** [DELETE /{invoice_id}]. *)
Definition cancel_invoice (invoice_id : Z) (reason : string)
    (current_user_id : Z) : M CancelResponse :=
  let* found := query_invoice invoice_id in
  match found with
  | None =>
      raise (HTTPException 404
               ("Invoice with ID " ++ PyInt.str invoice_id ++ " not found"))
  | Some invoice =>
      if String.eqb (Models.status invoice) "cancelled"
      then raise (HTTPException 400 "Invoice is already cancelled")
      else
        let service := InvoiceService.init in
        try_except
          (let* cancelled_invoice :=
             InvoiceService.cancel_invoice service invoice reason
               current_user_id in
           ret {| message := "Invoice cancelled successfully";
                  invoice_id := invoice_id;
                  status := Models.status cancelled_invoice;
                  cancellation_reason := reason |})
          (fun e =>
             raise (HTTPException 500
                      ("Failed to cancel invoice: " ++ exn_str e)))
  end.

End Routes.
End Api.

(** ** Schedules of whole allocation calls

    Calls of [_generate_invoice_number] that run one after the other,
    each from its query to its commit, with any other work of the service
    between two of them.  Calls that overlap are the subject of
    [Sessions] below. *)

Module Schedule.

Inductive event : Type :=
| Allocate
| Other (f : World -> World).

Fixpoint allocations (sched : list event) : nat :=
  match sched with
  | [] => O
  | Allocate :: rest => S (allocations rest)
  | Other _ :: rest => allocations rest
  end.

Section Run.
Context {env : Env} {settings : Settings}.

(** The numbers handed to the allocation calls of a schedule, in the
    order in which the calls ran, and the final state. *)
Fixpoint run (sched : list event) (w : World) : list string * World :=
  match sched with
  | [] => ([], w)
  | Allocate :: rest =>
      match InvoiceService._generate_invoice_number w with
      | (Ok n, w') => let '(ns, w'') := run rest w' in (n :: ns, w'')
      | (Raise _, w') => run rest w'
      end
  | Other f :: rest => run rest (f w)
  end.

(** The other work of a schedule leaves the sequence table alone. *)
Definition quiet (e : event) : Prop :=
  match e with
  | Allocate => True
  | Other f => forall w, sequences (f w) = sequences w
  end.

(** The number the next allocation will hand out. *)
Definition base (w : World) : Z :=
  default INVOICE_NUMBER_START (sequences w !! INVOICE_NUMBER_PREFIX).

(** [f"{prefix}{number:06d}"]. *)
Definition render (number : Z) : string :=
  INVOICE_NUMBER_PREFIX ++ PyInt.format_06d number.

(** The numbers [b], [b+1], ..., [b+n-1], rendered. *)
Definition block (b : Z) (n : nat) : list string :=
  map (fun i => render (b + Z.of_nat i)) (seq 0 n).

(** The values the integer column [current_number] can hold. *)
Definition int64_min : Z := - 2 ^ 63.
Definition int64_max : Z := 2 ^ 63 - 1.

(** The counter can be advanced [n] more times: the number the next
    allocation hands out and the [n] values committed after it all fit
    the column.  Beyond that the commit of the call raises
    [OverflowError] and the counter stays, which
    [InvoiceService._generate_invoice_number] does not describe. *)
Definition in_range (n : nat) (w : World) : bool :=
  (int64_min <=? base w)%Z && (base w + Z.of_nat n <=? int64_max)%Z.

End Run.
End Schedule.

(** ** Allocation calls that overlap

    The default database is SQLite ([DATABASE_URL]).  Its dialect renders
    no [FOR UPDATE], and the driver opens a transaction only at the first
    write, so the query of [_generate_invoice_number] (lines 221-224)
    takes no lock and reads the committed row; the writes of the call
    (lines 226-238) form one transaction, and SQLite runs write
    transactions one at a time.  A call is therefore two steps: its
    query, and the rest up to its commit. *)

Module Sessions.

Inductive step : Type :=
| Query (session : nat)
| Finish (session : nat).

Section Steps.
Context {env : Env} {settings : Settings}.

(** Lines 221-224: the row of the prefix as committed, if any. *)
Definition query (w : World) : option Z :=
  sequences w !! INVOICE_NUMBER_PREFIX.

(** Lines 226-240 for a session whose query returned [sequence].  Without
    a row the session inserts one, which the unique constraint on
    [prefix] refuses when another session has inserted it meanwhile.
    The increment is computed from the value the session read, and the
    commit writes it to the row whatever the row holds by then. *)
Definition finish (sequence : option Z) : M string :=
  fun w =>
    let prefix := INVOICE_NUMBER_PREFIX in
    match sequence, sequences w !! prefix with
    | None, Some _ =>
        (Raise (IntegrityError "invoice_number_sequences.prefix"), w)
    | None, None =>
        let current_number := INVOICE_NUMBER_START in
        (Ok (prefix ++ PyInt.format_06d current_number),
         set_sequences
           (<[prefix := current_number + 1]>
              (<[prefix := INVOICE_NUMBER_START]> (sequences w))) w)
    | Some current_number, Some _ =>
        (Ok (prefix ++ PyInt.format_06d current_number),
         set_sequences (<[prefix := current_number + 1]> (sequences w)) w)
    | Some _, None =>
        (Raise (StaleDataError "invoice_number_sequences"), w)
    end.

(** The results of the calls of a schedule, by session and in the order
    in which the calls returned, and the final state.  [pending] holds
    what the sessions between their two steps have read. *)
Fixpoint run (steps : list step) (pending : gmap nat (option Z)) (w : World)
    : list (nat * result string) * World :=
  match steps with
  | [] => ([], w)
  | Query s :: rest => run rest (<[s := query w]> pending) w
  | Finish s :: rest =>
      match pending !! s with
      | Some sequence =>
          let '(r, w') := finish sequence w in
          let '(out, w'') := run rest (delete s pending) w' in
          ((s, r) :: out, w'')
      | None => run rest pending w
      end
  end.

End Steps.
End Sessions.

(** ** Sample data and stand-ins for the environment *)

Module Fixtures.

Definition sample_clock (n : nat) : datetime :=
  {| year := 2025; month := 1; day := 15; hour := 10; minute := 30;
     second := Z.of_nat n; microsecond := 0 |}.

(** A plain serialisation of an element tree. *)
Fixpoint serialize (e : Lxml.element) : string :=
  match e with
  | Lxml.Element t _ x cs =>
      "<" ++ t ++ ">" ++ default EmptyString x
        ++ fold_right String.append EmptyString (map serialize cs)
        ++ "</" ++ t ++ ">"
  end.

Definition cell_text (c : ReportLab.cell) : string :=
  match c with
  | ReportLab.Str s => s
  | ReportLab.Para s _ => s
  end.

Definition flowable_text (f : ReportLab.flowable) : string :=
  match f with
  | ReportLab.Paragraph s _ => s ++ "|"
  | ReportLab.Spacer _ _ => EmptyString
  | ReportLab.Table data _ =>
      fold_right String.append EmptyString
        (map (fun row =>
                fold_right String.append EmptyString
                  (map (fun c => cell_text c ++ ";") row) ++ "|")
             data)
  end.

Definition render_story (story : list ReportLab.flowable) : string :=
  "%PDF|" ++ fold_right String.append EmptyString (map flowable_text story).

Definition attach (pdf : string) (f : EmbeddedFile) : string :=
  pdf ++ "%attached " ++ ef_filename f ++ " " ++ ef_mod_date f ++ "|"
      ++ ef_body f.

(** A stand-in digest (injective, so distinct documents never collide). *)
Definition digest (b : string) : string := "sha256:" ++ b.

Definition seller : Schemas.Party :=
  {| Schemas.name := "Musterfirma Software GmbH";
     Schemas.street := "Innovationsstrasse 42";
     Schemas.zip := "10115"; Schemas.city := "Berlin";
     Schemas.country := "DE"; Schemas.email := None; Schemas.phone := None;
     Schemas.tax_id := Some "DE123456789" |}.

Definition buyer : Schemas.Party :=
  {| Schemas.name := "Kundenfirma Handel AG";
     Schemas.street := "Hauptstrasse 123";
     Schemas.zip := "80331"; Schemas.city := "Muenchen";
     Schemas.country := "DE"; Schemas.email := None; Schemas.phone := None;
     Schemas.tax_id := None |}.

(** The line item [{quantity = 3, unit_price = 10.005, tax_rate = 19}]. *)
Definition item_3_10005_19 : Schemas.LineItemCreate :=
  {| Schemas.description := "Beratung";
     Schemas.quantity := PyFloat.of_Z 3;
     Schemas.unit := "H";
     Schemas.unit_price := PyFloat.of_decimal 10005 3;
     Schemas.tax_rate := PyFloat.of_Z 19 |}.

(** The line item [{quantity = 1, unit_price = 0.125, tax_rate = 0}]. *)
Definition item_1_0125_0 : Schemas.LineItemCreate :=
  {| Schemas.description := "Porto";
     Schemas.quantity := PyFloat.of_Z 1;
     Schemas.unit := "C62";
     Schemas.unit_price := PyFloat.of_decimal 125 3;
     Schemas.tax_rate := PyFloat.of_Z 0 |}.

Definition draft : Schemas.InvoiceCreate :=
  {| Schemas.issue_date := sample_clock 0;
     Schemas.delivery_date_start := None;
     Schemas.delivery_date_end := None;
     Schemas.currency := "EUR";
     Schemas.tax_exempt := false;
     Schemas.tax_exempt_reason := None;
     Schemas.notes := None;
     Schemas.payment_terms := Some "Zahlbar innerhalb von 14 Tagen";
     Schemas.seller := seller;
     Schemas.buyer := buyer;
     Schemas.line_items := [item_3_10005_19] |}.

(** The line item [{quantity = 1e200, unit_price = 1e200, tax_rate = 0}]:
    its net amount is infinite and its tax amount is not a number. *)
Definition item_1e200_1e200_0 : Schemas.LineItemCreate :=
  {| Schemas.description := "Beratung";
     Schemas.quantity := PyFloat.of_Z (10 ^ 200);
     Schemas.unit := "H";
     Schemas.unit_price := PyFloat.of_Z (10 ^ 200);
     Schemas.tax_rate := PyFloat.of_Z 0 |}.

Definition draft_1e200 : Schemas.InvoiceCreate :=
  {| Schemas.issue_date := sample_clock 0;
     Schemas.delivery_date_start := None;
     Schemas.delivery_date_end := None;
     Schemas.currency := "EUR";
     Schemas.tax_exempt := false;
     Schemas.tax_exempt_reason := None;
     Schemas.notes := None;
     Schemas.payment_terms := None;
     Schemas.seller := seller;
     Schemas.buyer := buyer;
     Schemas.line_items := [item_1e200_1e200_0] |}.

(** An environment in which the time authority answers ([tsa = true]) or
    cannot be reached ([tsa = false]), and in which exactly the documents
    of [parsed] are read back by the XML parser. *)
Definition env_with (tsa : bool) (parsed : list Lxml.element) : Env :=
  {| clock := sample_clock;
     float_repr := PyFloat.format_f 1;
     etree_tostring := serialize;
     etree_fromstring := fun b =>
       List.find (fun r => String.eqb (serialize r) b) parsed;
     reportlab_build := render_story;
     pikepdf_embed := attach;
     sha256_hexdigest := digest;
     pyhanko_timestamp := fun pdf =>
       if tsa then Some (pdf ++ "%DocTimeStamp") else None |}.

(** An environment in which the time authority answers for the
    documents [answered] accepts and fails for every other one. *)
Definition env_answering (answered : string -> bool) : Env :=
  {| clock := sample_clock;
     float_repr := PyFloat.format_f 1;
     etree_tostring := serialize;
     etree_fromstring := fun _ => None;
     reportlab_build := render_story;
     pikepdf_embed := attach;
     sha256_hexdigest := digest;
     pyhanko_timestamp := fun pdf =>
       if answered pdf then Some (pdf ++ "%DocTimeStamp") else None |}.

Definition empty_bucket (versioned : bool) : S3.bucket :=
  {| S3.versioning := versioned; S3.objects := ∅; S3.next_version_id := 0 |}.

Definition fresh (s : Storage) : World :=
  {| sequences := ∅; invoices := ∅; invoice_line_items := [];
     audit_logs := []; storage := s; ticks := 0 |}.

(** The world after the sample draft was issued on an empty system with
    a reachable time authority and local storage. *)
Definition issued_world : World :=
  snd (@InvoiceService.create_invoice (env_with true []) default_settings
         (@InvoiceService.init (env_with true []) default_settings)
         draft 1 (fresh (Local ∅))).

(** The service with its companion check replaced. *)
Definition with_validate (self : InvoiceService.t) (v : string -> bool)
    : InvoiceService.t :=
  {| InvoiceService.zugferd_gen :=
       {| InvoiceService.zugferd_generate :=
            InvoiceService.zugferd_generate (InvoiceService.zugferd_gen self);
          InvoiceService.zugferd_validate := v |};
     InvoiceService.pdf_gen := InvoiceService.pdf_gen self;
     InvoiceService.signature_service :=
       InvoiceService.signature_service self;
     InvoiceService.storage_service := InvoiceService.storage_service self |}.

(** The service with an encoder that emits the same bytes for every
    invoice. *)
Definition with_encoder_output (self : InvoiceService.t) (bytes : string)
    : InvoiceService.t :=
  {| InvoiceService.zugferd_gen :=
       {| InvoiceService.zugferd_generate :=
            fun _ _ _ _ _ _ _ _ _ _ _ _ => bytes;
          InvoiceService.zugferd_validate :=
            InvoiceService.zugferd_validate (InvoiceService.zugferd_gen self) |};
     InvoiceService.pdf_gen := InvoiceService.pdf_gen self;
     InvoiceService.signature_service :=
       InvoiceService.signature_service self;
     InvoiceService.storage_service := InvoiceService.storage_service self |}.

End Fixtures.

(** ** The totals as functions of the line items *)

Module TotalsSpec.
Import PyFloat.

(** [line_items_data] for items numbered from [start]. *)
Fixpoint lines_from (start : Z) (items : list Schemas.LineItemCreate)
    : list Item.t :=
  match items with
  | [] => []
  | item :: rest => Totals.line start item :: lines_from (start + 1) rest
  end.

(** The float sum of a list, accumulated from the left as [+=] does. *)
Definition sum_from (z : float) (xs : list float) : float :=
  fold_left add xs z.

(** The three equations of one computed line. *)
Definition line_equations (d : Item.t) : Prop :=
  Item.line_net d = round (mul (Item.quantity d) (Item.unit_price d)) 2
  /\ Item.tax_amount d
     = round (div (mul (Item.line_net d) (Item.tax_rate d))
                  Schemas.fhundred) 2
  /\ Item.line_gross d
     = round (add (Item.line_net d) (Item.tax_amount d)) 2.

(** The computed line [d] of the input item [item]: the item's own
    description, quantity, unit, price and rate, and the three amounts
    computed from them. *)
Definition line_of (item : Schemas.LineItemCreate) (d : Item.t) : Prop :=
  Item.description d = Schemas.description item
  /\ Item.quantity d = Schemas.quantity item
  /\ Item.unit d = Schemas.unit item
  /\ Item.unit_price d = Schemas.unit_price item
  /\ Item.tax_rate d = Schemas.tax_rate item
  /\ Item.line_net d
     = round (mul (Schemas.quantity item) (Schemas.unit_price item)) 2
  /\ Item.tax_amount d
     = round (div (mul (Item.line_net d) (Schemas.tax_rate item))
                  Schemas.fhundred) 2
  /\ Item.line_gross d
     = round (add (Item.line_net d) (Item.tax_amount d)) 2.

(** [k] is the integer nearest to [s / d], the even one of the two when
    [s / d] lies halfway. *)
Definition nearest_even (s d k : Z) : Prop :=
  Z.abs (2 * (s - k * d)) <= d
  /\ (Z.abs (2 * (s - k * d)) = d -> Z.even k = true).

End TotalsSpec.

(** ** What the store holds, as functions of its state *)

Module StorageSpec.

(** The bytes [get_file] returns for a key, if any. *)
Definition read (s : Storage) (key : string) : option string :=
  match s with
  | Local files => files !! key
  | Remote b => S3.get_object b key
  end.

(** [invoices/{year}/{invoice_number}{ext}]. *)
Definition key_of (now : datetime) (invoice_number ext : string) : string :=
  "invoices/" ++ PyInt.str (year now) ++ "/" ++ invoice_number ++ ext.

(** The store after [store] has written [bytes] under [key]. *)
Definition stored (s : Storage) (key bytes content_type invoice_number : string)
    (created_at : datetime) : Storage :=
  match s with
  | Local files => Local (<[key := bytes]> files)
  | Remote b =>
      Remote (S3.put_object b key bytes content_type
                (<["invoice_number" := invoice_number]>
                 (<["created_at" := Datetime.isoformat created_at]>
                  (<["content_type" := content_type]> ∅)))
                created_at)
  end.

(** The number of object versions a key has in the store; the local
    directory keeps the current file only. *)
Definition retained (s : Storage) (key : string) : nat :=
  match s with
  | Local files => match files !! key with Some _ => 1%nat | None => 0%nat end
  | Remote b => length (List.filter S3.is_version (S3.history b key))
  end.

(** The bodies a key has held that the store can still produce. *)
Definition bodies (s : Storage) (key : string) : list string :=
  match s with
  | Local files => match files !! key with Some b => [b] | None => [] end
  | Remote b =>
      flat_map (fun e => match e with
                         | S3.Version _ body _ _ _ => [body]
                         | S3.DeleteMarker _ => []
                         end)
               (S3.history b key)
  end.

(** What one key contributes to the length of a listing by prefix. *)
Definition listed (prefix : string) (kv : string * list S3.entry) : nat :=
  if String.prefix prefix (fst kv)
  then length (List.filter S3.is_version (snd kv))
  else 0%nat.

(** No character of the string is a slash. *)
Fixpoint no_slash (s : string) : Prop :=
  match s with
  | EmptyString => True
  | String c s' => c <> "/"%char /\ no_slash s'
  end.

(** No character of the string is the null byte. *)
Fixpoint no_nul (s : string) : Prop :=
  match s with
  | EmptyString => True
  | String c s' => c <> "000"%char /\ no_nul s'
  end.

(** An invoice number that, followed by an extension of four bytes, is
    one component of a path: no slash, no null byte, and at most 251
    bytes. *)
Definition file_name (n : string) : Prop :=
  no_slash n /\ no_nul n /\ (String.length n <= 251)%nat.

(** The keys the service writes: [invoices/{year}/{number}{ext}] for a
    number that is one path component and the extension of a document.
    The local directory is modelled as a map from keys to files, which
    is what it is on these keys: two of them name the same file only
    when they are equal, and none of them names a directory that holds
    another.  Other spellings of a path are outside the model. *)
Definition canonical (key : string) : Prop :=
  exists (y : Z) (n ext : string),
    key = "invoices/" ++ PyInt.str y ++ "/" ++ n ++ ext
    /\ file_name n /\ (ext = ".pdf" \/ ext = ".xml").

(** A store whose local directory, if it is one, holds files under
    canonical keys only. *)
Definition tidy (s : Storage) : Prop :=
  match s with
  | Local files => forall key, is_Some (files !! key) -> canonical key
  | Remote _ => True
  end.

(** A key the model of the backend covers: any key of a bucket, a
    canonical key of the local directory. *)
Definition addressable (s : Storage) (key : string) : Prop :=
  match s with
  | Local _ => canonical key
  | Remote _ => True
  end.

End StorageSpec.

Module WorldSpec.

(** Two worlds that differ in the clock at most. *)
Definition frame (w w' : World) : Prop :=
  sequences w' = sequences w /\ invoices w' = invoices w
  /\ invoice_line_items w' = invoice_line_items w
  /\ audit_logs w' = audit_logs w /\ storage w' = storage w.

End WorldSpec.

(** The keys every proof token carries. *)
Module TokenSpec.


Definition mock_warning : string := "Mock timestamp - not for production use".

(** The token is marked as a stand-in. *)
Definition degraded (token : gmap string string) : Prop :=
  token !! "warning" = Some mock_warning.

End TokenSpec.

(** ** The service as a whole: requests served one after another *)

Module System.

Inductive request : Type :=
| Issue (d : Schemas.InvoiceCreate) (user : Z)
| Cancel (invoice_id : Z) (reason : string) (user : Z).

Section Serve.
Context {env : Env} {settings : Settings}.

(** The world after one request, whatever its outcome. *)
Definition serve (r : request) (w : World) : World :=
  match r with
  | Issue d user =>
      snd (InvoiceService.create_invoice InvoiceService.init d user w)
  | Cancel invoice_id reason user =>
      snd (Api.cancel_invoice invoice_id reason user w)
  end.

Definition serve_all (rs : list request) (w : World) : World :=
  fold_left (fun w r => serve r w) rs w.

(** The composed document of a row can be fetched and has the recorded
    digest. *)
Definition archived (w : World) (row : Models.Invoice) : Prop :=
  exists bytes,
    StorageSpec.read (storage w) (Models.pdfa3_path row) = Some bytes
    /\ sha256_hexdigest bytes = Models.pdf_hash row.

(** What holds of every row of the invoice table in a world the service
    has produced. *)
Definition row_ok (w : World) (k : Z) (row : Models.Invoice) : Prop :=
  Models.id row = k
  /\ (Models.status row = "issued" \/ Models.status row = "cancelled")
  /\ Models.is_immutable row = true
  /\ archived w row
  /\ exists m t,
       m < Schedule.base w
       /\ Models.invoice_number row = Schedule.render m
       /\ Models.pdfa3_path row
          = StorageSpec.key_of t (Schedule.render m) ".pdf".

Definition consistent (w : World) : Prop :=
  forall k row, invoices w !! k = Some row -> row_ok w k row.

End Serve.
End System.

(** ** What a run of the pipeline writes, as functions of the draft *)

Module PipelineSpec.

(** The columns of an invoice row that [create_invoice] fills from the
    draft: the fields it copies and the totals it computes. *)
Definition snapshot (d : Schemas.InvoiceCreate) (inv : Models.Invoice)
    : Prop :=
  Models.issue_date inv = Schemas.issue_date d
  /\ Models.delivery_date_start inv = Schemas.delivery_date_start d
  /\ Models.delivery_date_end inv = Schemas.delivery_date_end d
  /\ Models.seller_name inv = Schemas.name (Schemas.seller d)
  /\ Models.seller_street inv = Schemas.street (Schemas.seller d)
  /\ Models.seller_zip inv = Schemas.zip (Schemas.seller d)
  /\ Models.seller_city inv = Schemas.city (Schemas.seller d)
  /\ Models.seller_country inv = Schemas.country (Schemas.seller d)
  /\ Models.seller_tax_id inv = Schemas.tax_id (Schemas.seller d)
  /\ Models.seller_email inv = Schemas.email (Schemas.seller d)
  /\ Models.seller_phone inv = Schemas.phone (Schemas.seller d)
  /\ Models.buyer_name inv = Schemas.name (Schemas.buyer d)
  /\ Models.buyer_street inv = Schemas.street (Schemas.buyer d)
  /\ Models.buyer_zip inv = Schemas.zip (Schemas.buyer d)
  /\ Models.buyer_city inv = Schemas.city (Schemas.buyer d)
  /\ Models.buyer_country inv = Schemas.country (Schemas.buyer d)
  /\ Models.buyer_tax_id inv = Schemas.tax_id (Schemas.buyer d)
  /\ Models.buyer_email inv = Schemas.email (Schemas.buyer d)
  /\ Models.buyer_phone inv = Schemas.phone (Schemas.buyer d)
  /\ Models.currency inv = Schemas.currency d
  /\ Models.net_total inv = Totals.net_total (Totals.loop (Schemas.line_items d))
  /\ Models.tax_total inv = Totals.tax_total (Totals.loop (Schemas.line_items d))
  /\ Models.gross_total inv
     = Totals.gross_total (Totals.loop (Schemas.line_items d))
  /\ Models.tax_exempt inv = Schemas.tax_exempt d
  /\ Models.tax_exempt_reason inv = Schemas.tax_exempt_reason d
  /\ Models.notes inv = Schemas.notes d
  /\ Models.payment_terms inv = Schemas.payment_terms d.

(** The rows of [invoice_line_items] written for an invoice. *)
Definition item_rows (invoice_id : Z) (ds : list Item.t)
    : list Models.InvoiceLineItem :=
  map (fun d => {| Models.item_invoice_id := invoice_id;
                   Models.item_data := d |}) ds.


(** The number of issuance requests in a list of requests. *)
Fixpoint issues (rs : list System.request) : nat :=
  match rs with
  | [] => O
  | System.Issue _ _ :: rest => S (issues rest)
  | System.Cancel _ _ _ :: rest => issues rest
  end.

(** The document [create_invoice] hands to the timestamp service for a
    draft in a world: what steps 1 to 4 of the run compose, that is, what
    the composer returns for the number the sequence hands out, the
    computed lines and totals and the structured document. *)
Definition composed {env : Env} {settings : Settings}
    (d : Schemas.InvoiceCreate) (w : World) : string :=
  let number := Schedule.render (Schedule.base w) in
  let a := Totals.loop (Schemas.line_items d) in
  let xml :=
    ZUGFeRDGenerator.generate number (Schemas.issue_date d)
      (Schemas.seller d) (Schemas.buyer d) (Totals.line_items_data a)
      (Totals.net_total a) (Totals.tax_total a) (Totals.gross_total a)
      (Schemas.currency d) None None None in
  match PDFGenerator.generate number (Schemas.issue_date d)
          (Schemas.seller d) (Schemas.buyer d) (Totals.line_items_data a)
          (Totals.net_total a) (Totals.tax_total a) (Totals.gross_total a)
          (Schemas.currency d) (Schemas.notes d) (Schemas.payment_terms d)
          (Some xml) (snd (InvoiceService._generate_invoice_number w)) with
  | (Ok pdf_bytes, _) => pdf_bytes
  | (Raise _, _) => EmptyString
  end.

(** Every row is stored under its primary key. *)
Definition keyed (rows : gmap Z Models.Invoice) : Prop :=
  forall k row, rows !! k = Some row -> Models.id row = k.


End PipelineSpec.

(** ** The numbers on the invoices of a world *)

Module SystemSpec.
Section Spec.
Context {env : Env} {settings : Settings}.


End Spec.
End SystemSpec.

(** ** Views of an element tree *)

Module XmlSpec.
Import Lxml.

(** The proper descendants of [root] with the tag [ram:local], in
    document order: [root.findall(".//ram:local", namespaces)]. *)
Definition findall_ram (root : element) (local : string) : list element :=
  List.filter (ZUGFeRDGenerator.has_tag local) (iterdescendants root).

(** [root] without its children of the tag [t]. *)
Definition without_children (t : string) (root : element) : element :=
  match root with
  | Element t0 a x cs =>
      Element t0 a x (List.filter (fun c => negb (String.eqb (tag c) t)) cs)
  end.

(** An element and its proper descendants, in document order. *)
Definition subtree (e : element) : list element := e :: iterdescendants e.

Section Blocks.
Context {env : Env}.
Import ZUGFeRDGenerator.

(** The exchange context and the document header of a generated
    document, in closed form. *)
Definition preamble (invoice_number : string) (issue_date : datetime)
    : list element :=
  [RSM "ExchangedDocumentContext"
     [RAM "GuidelineSpecifiedDocumentContextParameter"
        [RAM_text "ID"
           "urn:cen.eu:en16931:2017#compliant#urn:factur-x.eu:1p0:basic"]];
   RSM "ExchangedDocument"
     [RAM_text "ID" invoice_number;
      RAM_text "TypeCode" "380";
      RAM "IssueDateTime"
        [UDT_DateTimeString (Datetime.strftime_Ymd issue_date)]]].

(** The agreement, delivery and settlement blocks that follow the line
    elements in the transaction of a generated document, in closed
    form. *)
Definition header_blocks (seller buyer : Schemas.Party)
    (line_items : list Item.t)
    (net_total tax_total gross_total : PyFloat.float) (currency : string)
    (delivery_date_start delivery_date_end : option datetime)
    (payment_terms : option string) : list element :=
  [RAM "ApplicableHeaderTradeAgreement"
     [RAM "SellerTradeParty"
        [RAM_text "Name" (Schemas.name seller);
         postal_address seller;
         tax_registration (default EmptyString (Schemas.tax_id seller))];
      RAM "BuyerTradeParty"
        ([RAM_text "Name" (Schemas.name buyer);
          postal_address buyer]
         ++ if truthy (Schemas.tax_id buyer)
            then [tax_registration
                    (default EmptyString (Schemas.tax_id buyer))]
            else [])];
   RAM "ApplicableHeaderTradeDelivery"
     (match or_else delivery_date_end delivery_date_start with
      | Some delivery_date =>
          [RAM "ActualDeliverySupplyChainEvent"
             [RAM "OccurrenceDateTime"
                [UDT_DateTimeString (Datetime.strftime_Ymd delivery_date)]]]
      | None => []
      end);
   RAM "ApplicableHeaderTradeSettlement"
     ([RAM_text "InvoiceCurrencyCode" currency;
       RAM "ApplicableTradeTax"
         ([RAM_text "CalculatedAmount" (PyFloat.format_f 2 tax_total);
           RAM_text "TypeCode" "VAT";
           RAM_text "BasisAmount" (PyFloat.format_f 2 net_total);
           RAM_text "CategoryCode" "S"]
          ++ match line_items with
             | first :: _ =>
                 [RAM_text "RateApplicablePercent"
                    (PyFloat.format_f 2 (Item.tax_rate first))]
             | [] => []
             end)]
      ++ (if truthy payment_terms
          then [RAM "SpecifiedTradePaymentTerms"
                  [RAM_text "Description"
                     (default EmptyString payment_terms)]]
          else [])
      ++ [RAM "SpecifiedTradeSettlementHeaderMonetarySummation"
            [RAM_text "LineTotalAmount" (PyFloat.format_f 2 net_total);
             RAM_text "TaxBasisTotalAmount" (PyFloat.format_f 2 net_total);
             leaf_with ram_uri "TaxTotalAmount"
               (PyFloat.format_f 2 tax_total)
               (<["currencyID" := currency]> ∅);
             RAM_text "GrandTotalAmount" (PyFloat.format_f 2 gross_total);
             RAM_text "DuePayableAmount"
               (PyFloat.format_f 2 gross_total)]])].

End Blocks.

End XmlSpec.


(** ** Reading an invoice back

    [get_pdf_stream] of the storage service and of the invoice service,
    [create_download_package], and the routes [GET /{invoice_id}],
    [GET /{invoice_id}/preview] and [GET /{invoice_id}/download]. *)

(** What the reading code obtains from the standard library. *)
Class Libs : Type := {
  (** [json.dumps(invoice.tsa_token, indent=2)] of the JSON column *)
  json_dumps_token : option (gmap string string) -> string;
  (** [json.dumps(d, indent=2)] of a dict, its items in order *)
  json_dumps : list (string * json) -> string;
  (** [str(e)] of the exception raised when [get_file] is called with
      [None] for the key: by [pathlib] on the local backend
      ([use_local = True]), by the client of the object store on the
      remote one *)
  str_none_key : bool -> string
}.

Module StorageReads.

(** [StorageService.get_pdf_stream]: the stream over the bytes of
    [get_file], as the bytes it yields. *)
Definition get_pdf_stream (self : InvoiceService.StorageServiceT)
    (key : string) : M string :=
  let* pdf_bytes := InvoiceService.get_file self key in
  ret pdf_bytes.

End StorageReads.

Module InvoiceReads.

(** The file written by [create_download_package]: its path and the
    members of the archive in the order of the [writestr] calls. *)
Record Package : Type := {
  path : string;
  members : list (string * string)
}.

(** What a call of [create_download_package] raises: an exception of
    [get_file], or the one caused by a key that is [None]. *)
Inductive failure : Type :=
| Raised (e : exn)
| NoneKey.

Section Service.
Context {env : Env} {settings : Settings} {libs : Libs}.

(** [InvoiceService.get_pdf_stream]. *)
Definition get_pdf_stream (self : InvoiceService.t)
    (invoice : Models.Invoice) : M string :=
  StorageReads.get_pdf_stream (InvoiceService.storage_service self)
    (Models.pdfa3_path invoice).

(** The dict [metadata]. *)
Definition metadata (invoice : Models.Invoice) : list (string * json) :=
  [("invoice_number", JString (Models.invoice_number invoice));
   ("issue_date", JString (Datetime.isoformat (Models.issue_date invoice)));
   ("buyer", JString (Models.buyer_name invoice));
   ("gross_total", JNumber (Models.gross_total invoice));
   ("currency", JString (Models.currency invoice));
   ("pdf_hash", JString (Models.pdf_hash invoice));
   ("created_at", JString (Datetime.isoformat (Models.created_at invoice)));
   ("status", JString (Models.status invoice))].

(** [InvoiceService.create_download_package]. *)
Definition create_download_package (self : InvoiceService.t)
    (invoice : Models.Invoice) (w : World)
    : (Package + failure) * World :=
  let temp_zip := "/tmp/" ++ Models.invoice_number invoice ++ "_archive.zip" in
  (* Get files from storage *)
  match InvoiceService.get_file (InvoiceService.storage_service self)
          (Models.pdfa3_path invoice) w with
  | (Raise e, w1) => (inr (Raised e), w1)
  | (Ok pdf_bytes, w1) =>
      match Models.zugferd_xml_path invoice with
      | None => (inr NoneKey, w1)
      | Some xml_path =>
          match InvoiceService.get_file (InvoiceService.storage_service self)
                  xml_path w1 with
          | (Raise e, w2) => (inr (Raised e), w2)
          | (Ok xml_bytes, w2) =>
              (* Create ZIP *)
              (inl {| path := temp_zip;
                      members :=
                        [(Models.invoice_number invoice ++ ".pdf", pdf_bytes);
                         (Models.invoice_number invoice ++ ".xml", xml_bytes);
                         ("tsa_token.json",
                          json_dumps_token (Models.tsa_token invoice));
                         ("metadata.json",
                          json_dumps (metadata invoice))] |},
               w2)
          end
      end
  end.

End Service.
End InvoiceReads.

Module ApiReads.

Record StreamingResponse : Type := {
  content : string;
  stream_media_type : string;
  stream_headers : gmap string string
}.

Record FileResponse : Type := {
  file : InvoiceReads.Package;
  file_media_type : string;
  filename : string;
  file_headers : gmap string string
}.

Section Routes.
Context {env : Env} {settings : Settings} {libs : Libs}.

Definition not_found (invoice_id : Z) : exn :=
  HTTPException 404
    ("Invoice with ID " ++ PyInt.str invoice_id ++ " not found").

(** [GET /{invoice_id}]. *)
Definition get_invoice (invoice_id : Z) : M Models.Invoice :=
  let* found := Api.query_invoice invoice_id in
  match found with
  | None => raise (not_found invoice_id)
  | Some invoice => ret invoice
  end.

(** [GET /{invoice_id}/preview]: only [FileNotFoundError] is caught. *)
Definition preview_invoice (invoice_id : Z) : M StreamingResponse :=
  let* found := Api.query_invoice invoice_id in
  match found with
  | None => raise (not_found invoice_id)
  | Some invoice =>
      let service := InvoiceService.init in
      Api.try_except
        (let* pdf_stream := InvoiceReads.get_pdf_stream service invoice in
         ret {| content := pdf_stream;
                stream_media_type := "application/pdf";
                stream_headers :=
                  <["Content-Disposition" :=
                      "inline; filename=" ++ Models.invoice_number invoice
                        ++ ".pdf"]>
                  (<["Cache-Control" := "no-cache"]> ∅) |})
        (fun e =>
           match e with
           | FileNotFoundError _ =>
               raise (HTTPException 404 "PDF file not found in storage")
           | _ => raise e
           end)
  end.

(** Whether the storage service of the world runs on the local
    backend. *)
Definition use_local (w : World) : bool :=
  match storage w with Local _ => true | Remote _ => false end.

(** [GET /{invoice_id}/download]: every exception becomes a 500. *)
Definition download_invoice (invoice_id : Z) : M FileResponse :=
  let* found := Api.query_invoice invoice_id in
  match found with
  | None => raise (not_found invoice_id)
  | Some invoice =>
      let service := InvoiceService.init in
      fun w =>
        match InvoiceReads.create_download_package service invoice w with
        | (inl zip_path, w') =>
            (Ok {| file := zip_path;
                   file_media_type := "application/zip";
                   filename :=
                     Models.invoice_number invoice ++ "_archive.zip";
                   file_headers :=
                     <["Content-Disposition" :=
                         "attachment; filename="
                           ++ Models.invoice_number invoice
                           ++ "_archive.zip"]> ∅ |}, w')
        | (inr f, w') =>
            (Raise (HTTPException 500
                      ("Failed to create download package: "
                       ++ match f with
                          | InvoiceReads.Raised e => Api.exn_str e
                          | InvoiceReads.NoneKey => str_none_key (use_local w')
                          end)), w')
        end
  end.

End Routes.
End ApiReads.

(** ** What the store holds for the invoices of a world *)

Module ArchiveSpec.
Section Spec.
Context {env : Env} {settings : Settings}.

(** The structured document of every invoice can be fetched under the
    key recorded on the row, which is the key of a number the sequence
    has handed out. *)
Definition documented (w : World) : Prop :=
  forall k row,
    invoices w !! k = Some row ->
    exists m t xml,
      m < Schedule.base w
      /\ Models.zugferd_xml_path row
         = Some (StorageSpec.key_of t (Schedule.render m) ".xml")
      /\ StorageSpec.read (storage w)
           (StorageSpec.key_of t (Schedule.render m) ".xml") = Some xml.

End Spec.
End ArchiveSpec.


(** ** app/services/storage_service.py: the start of the service

    The object store as the client finds it when the service is
    constructed.  [available] says whether the connection test
    [list_buckets()] returns; [head_bucket] raises [ClientError] for a
    name that is not among [buckets]; the two booleans say whether
    [create_bucket] and [put_bucket_versioning] succeed.  The store does
    not become unreachable between the connection test and the calls
    that follow it. *)

Module Endpoint.

Record t : Type := {
  available : bool;
  buckets : gmap string S3.bucket;
  create_bucket_ok : bool;
  put_bucket_versioning_ok : bool
}.

Definition set_buckets (bs : gmap string S3.bucket) (e : t) : t :=
  {| available := available e; buckets := bs;
     create_bucket_ok := create_bucket_ok e;
     put_bucket_versioning_ok := put_bucket_versioning_ok e |}.

(** The bucket [create_bucket] makes: empty, versioning not enabled. *)
Definition new_bucket : S3.bucket :=
  {| S3.versioning := false; S3.objects := ∅; S3.next_version_id := 0 |}.

(** [put_bucket_versioning(..., {"Status": "Enabled"})]. *)
Definition enable_versioning (b : S3.bucket) : S3.bucket :=
  {| S3.versioning := true; S3.objects := S3.objects b;
     S3.next_version_id := S3.next_version_id b |}.

End Endpoint.

Module StorageStartup.
Import Endpoint.

(** The attributes [use_local] and [bucket] of the service object. *)
Record t : Type := {
  use_local : bool;
  bucket : option string
}.

(** [_ensure_bucket_exists]: a bucket [head_bucket] finds is left as it
    is; a missing one is created and then versioned, and a failure of
    either call is printed and swallowed. *)
Definition _ensure_bucket_exists (bucket : string) (e : Endpoint.t)
    : Endpoint.t :=
  match buckets e !! bucket with
  | Some _ => e
  | None =>
      (* except ClientError *)
      if create_bucket_ok e
      then
        let e1 := set_buckets (<[bucket := new_bucket]> (buckets e)) e in
        if put_bucket_versioning_ok e
        then set_buckets
               (<[bucket := enable_versioning new_bucket]> (buckets e1)) e1
        else e1
      else e
  end.

(** [StorageService.__init__] for the configured bucket name: the
    service object and the object store afterwards. *)
Definition init (S3_BUCKET : string) (e : Endpoint.t) : t * Endpoint.t :=
  if available e
  then ({| use_local := false; bucket := Some S3_BUCKET |},
        _ensure_bucket_exists S3_BUCKET e)
  else
    (* except Exception *)
    ({| use_local := true; bucket := None |}, e).

(** The store the methods of the service object work on: the directory
    [./storage] with its files, or the bucket of the configured name,
    if there is one. *)
Definition storage_of (self : t) (e : Endpoint.t)
    (files : gmap string string) : option Storage :=
  if use_local self
  then Some (Local files)
  else match bucket self with
       | Some name => Remote <$> buckets e !! name
       | None => None
       end.

End StorageStartup.

(** * Properties *)

(** ** Decimal rendering *)

Module PyIntFacts.
Import PyInt.

Lemma uint_of_string_zeros (k : nat) (s : string) :
  NilEmpty.uint_of_string (zeros k ++ s)
  = option_map (lead0 k) (NilEmpty.uint_of_string s).
Proof.
  induction k as [|k IH].
  - change (zeros 0 ++ s) with s.
    destruct (NilEmpty.uint_of_string s); reflexivity.
  - change (zeros (S k) ++ s) with (String "0" (zeros k ++ s)).
    cbn [NilEmpty.uint_of_string]. rewrite IH.
    destruct (NilEmpty.uint_of_string s); reflexivity.
Qed.

Lemma of_uint_lead0 (k : nat) (d : Decimal.uint) :
  N.of_uint (lead0 k d) = N.of_uint d.
Proof. induction k as [|k IH]; simpl; [reflexivity | exact IH]. Qed.

(** Reading a zero-padded rendering back gives the number. *)
Lemma parse_zfill (width : nat) (n : N) :
  option_map N.of_uint (NilEmpty.uint_of_string (zfill width (digits n)))
  = Some n.
Proof.
  unfold zfill, digits. rewrite uint_of_string_zeros, NilEmpty.usu. simpl.
  rewrite of_uint_lead0. f_equal. apply DecimalN.Unsigned.of_to.
Qed.

Lemma zfill_inj (width : nat) (a b : N) :
  zfill width (digits a) = zfill width (digits b) -> a = b.
Proof.
  intros H. pose proof (parse_zfill width a) as Ha.
  rewrite H, parse_zfill in Ha. congruence.
Qed.

Lemma format_06d_nonneg (n : Z) :
  0 <= n -> format_06d n = zfill 6 (digits (Z.to_N n)).
Proof. destruct n; try reflexivity. lia. Qed.

Lemma format_06d_parses (n : Z) :
  0 <= n -> NilEmpty.uint_of_string (format_06d n) <> None.
Proof.
  intros Hn. rewrite format_06d_nonneg by exact Hn.
  pose proof (parse_zfill 6 (Z.to_N n)) as H.
  destruct (NilEmpty.uint_of_string _); [discriminate | discriminate H].
Qed.

Lemma format_06d_neg_no_parse (p : positive) :
  NilEmpty.uint_of_string (format_06d (Zneg p)) = None.
Proof.
  change (format_06d (Zneg p)) with (String "-" (zfill 5 (digits (Npos p)))).
  cbn [NilEmpty.uint_of_string].
  destruct (NilEmpty.uint_of_string _); reflexivity.
Qed.

(** Different numbers are rendered differently. *)
Lemma format_06d_inj (a b : Z) : format_06d a = format_06d b -> a = b.
Proof.
  intros H.
  destruct (Z_lt_le_dec a 0) as [Ha|Ha], (Z_lt_le_dec b 0) as [Hb|Hb].
  - destruct a as [|a|a], b as [|b|b]; try lia.
    change (String "-" (zfill 5 (digits (Npos a)))
            = String "-" (zfill 5 (digits (Npos b)))) in H.
    injection H as H. apply zfill_inj in H. congruence.
  - exfalso. destruct a as [|a|a]; try lia.
    apply (format_06d_parses b Hb). rewrite <- H.
    apply format_06d_neg_no_parse.
  - exfalso. destruct b as [|b|b]; try lia.
    apply (format_06d_parses a Ha). rewrite H.
    apply format_06d_neg_no_parse.
  - rewrite !format_06d_nonneg in H by assumption.
    apply zfill_inj in H. lia.
Qed.

Lemma app_inv_head_string (p a b : string) : p ++ a = p ++ b -> a = b.
Proof.
  induction p as [|c p IH]; simpl; intros H; [exact H |].
  injection H as H. auto.
Qed.

Lemma length_app_string (a b : string) :
  String.length (a ++ b) = (String.length a + String.length b)%nat.
Proof. induction a as [|c a IH]; simpl; [reflexivity | now rewrite IH]. Qed.

Lemma length_zeros (k : nat) : String.length (zeros k) = k.
Proof. induction k as [|k IH]; simpl; [reflexivity | now rewrite IH]. Qed.

(** Padding gives at least the requested width. *)
Lemma length_zfill (width : nat) (s : string) :
  String.length (zfill width s) = Nat.max width (String.length s).
Proof. unfold zfill. rewrite length_app_string, length_zeros. lia. Qed.

Lemma length_format_06d (n : Z) : (6 <= String.length (format_06d n))%nat.
Proof.
  destruct n as [|p|p].
  - rewrite format_06d_nonneg, length_zfill by lia. lia.
  - rewrite format_06d_nonneg, length_zfill by lia. lia.
  - change (format_06d (Zneg p)) with (String "-" (zfill 5 (digits (Npos p)))).
    cbn [String.length]. rewrite length_zfill. lia.
Qed.

End PyIntFacts.

(** ** The number allocator *)

Module Numbering.
Import Schedule.

Section Facts.
Context {env : Env} {settings : Settings}.

Lemma allocate_returns (w : World) :
  fst (InvoiceService._generate_invoice_number w) = Ok (render (base w)).
Proof.
  unfold InvoiceService._generate_invoice_number, base, render.
  destruct (sequences w !! INVOICE_NUMBER_PREFIX); reflexivity.
Qed.

Lemma allocate_advances (w : World) :
  sequences (snd (InvoiceService._generate_invoice_number w))
    !! INVOICE_NUMBER_PREFIX = Some (base w + 1).
Proof.
  unfold InvoiceService._generate_invoice_number, base.
  destruct (sequences w !! INVOICE_NUMBER_PREFIX); simpl;
    apply lookup_insert_eq.
Qed.

Lemma allocate_base (w : World) :
  base (snd (InvoiceService._generate_invoice_number w)) = base w + 1.
Proof. unfold base at 1. now rewrite allocate_advances. Qed.

(** Only the row of the configured prefix is written. *)
Lemma allocate_other_prefix (w : World) (p : string) :
  p <> INVOICE_NUMBER_PREFIX ->
  sequences (snd (InvoiceService._generate_invoice_number w)) !! p
  = sequences w !! p.
Proof.
  intros Hp. unfold InvoiceService._generate_invoice_number.
  destruct (sequences w !! INVOICE_NUMBER_PREFIX); simpl;
    rewrite ?lookup_insert_ne by congruence; reflexivity.
Qed.

Lemma render_inj (a b : Z) : render a = render b -> a = b.
Proof.
  unfold render. intros H.
  apply PyIntFacts.app_inv_head_string in H.
  now apply PyIntFacts.format_06d_inj.
Qed.

Lemma block_S (b : Z) (n : nat) :
  block b (S n) = render b :: block (b + 1) n.
Proof.
  unfold block. simpl. rewrite Z.add_0_r. f_equal.
  rewrite <- seq_shift, map_map. apply map_ext. intros i.
  f_equal. lia.
Qed.

Lemma block_NoDup (b : Z) (n : nat) : NoDup (block b n).
Proof.
  unfold block. apply NoDup_fmap_2; [| apply NoDup_seq].
  intros i j H. apply render_inj in H. lia.
Qed.

Lemma run_block (sched : list event) :
  Forall quiet sched ->
  forall w,
    fst (run sched w) = block (base w) (allocations sched)
    /\ base (snd (run sched w)) = base w + Z.of_nat (allocations sched).
Proof.
  induction 1 as [|e rest He _ IH]; intros w.
  - simpl. split; [reflexivity | lia].
  - destruct e as [|f].
    + cbn [run allocations].
      pose proof (allocate_returns w) as Hr.
      pose proof (allocate_base w) as Hb.
      destruct (InvoiceService._generate_invoice_number w) as [[n|e] w'].
      * simpl in Hr, Hb. injection Hr as ->.
        destruct (IH w') as [IH1 IH2].
        destruct (run rest w') as [ns w'']. simpl in *.
        rewrite block_S, IH1, Hb. split; [reflexivity | lia].
      * discriminate Hr.
    + cbn [run allocations]. simpl in He.
      destruct (IH (f w)) as [IH1 IH2].
      assert (base (f w) = base w) as Hbase by (unfold base; now rewrite He).
      rewrite IH1, IH2, Hbase. split; reflexivity.
Qed.

End Facts.
End Numbering.

Module SessionFacts.
Import Schedule Sessions.

Section Facts.
Context {env : Env} {settings : Settings}.

(** A call whose two steps run back to back is the whole call. *)
Lemma finish_query (w : World) :
  finish (query w) w = InvoiceService._generate_invoice_number w.
Proof.
  unfold finish, query, InvoiceService._generate_invoice_number.
  destruct (sequences w !! INVOICE_NUMBER_PREFIX); reflexivity.
Qed.

(** Two calls that both query before either commits are handed the
    number the row held, and the row advances once. *)
Lemma overlap_duplicates (a b : nat) (n : Z) (w : World) :
  a <> b ->
  sequences w !! INVOICE_NUMBER_PREFIX = Some n ->
  run [Query a; Query b; Finish a; Finish b] ∅ w
  = ([(a, Ok (render n)); (b, Ok (render n))],
     set_sequences
       (<[INVOICE_NUMBER_PREFIX := n + 1]>
          (<[INVOICE_NUMBER_PREFIX := n + 1]> (sequences w))) w).
Proof.
  intros Hab Hn. cbn [run]. unfold query. rewrite Hn.
  rewrite lookup_insert_ne by congruence. rewrite lookup_insert_eq.
  unfold finish at 1. rewrite Hn.
  rewrite lookup_delete_ne by congruence. rewrite lookup_insert_eq.
  unfold finish. cbn [sequences set_sequences].
  rewrite lookup_insert_eq. reflexivity.
Qed.

(** Two first calls that both query before either commits: the second
    insert of the row is refused, and that call returns no number. *)
Lemma overlap_first_calls (a b : nat) (w : World) :
  a <> b ->
  sequences w !! INVOICE_NUMBER_PREFIX = None ->
  fst (run [Query a; Query b; Finish a; Finish b] ∅ w)
  = [(a, Ok (render INVOICE_NUMBER_START));
     (b, Raise (IntegrityError "invoice_number_sequences.prefix"))].
Proof.
  intros Hab Hn. cbn [run]. unfold query. rewrite Hn.
  rewrite lookup_insert_ne by congruence. rewrite lookup_insert_eq.
  unfold finish at 1. rewrite Hn.
  rewrite lookup_delete_ne by congruence. rewrite lookup_insert_eq.
  unfold finish. cbn [sequences set_sequences].
  rewrite lookup_insert_eq. reflexivity.
Qed.

End Facts.
End SessionFacts.

Module NumberingClaim.
Import Schedule.

(** Calls that run one after the other.  For every schedule of whole
    allocation calls for the configured prefix, in any order with other
    work that leaves the sequence table alone, and a counter that stays
    within its column, the [N] calls receive exactly the numbers [base],
    [base+1], ..., [base+N-1], rendered as prefix followed by the number
    zero-padded to six digits, without duplicates, and the sequence ends
    at [base+N]; when no row exists for the prefix, [base] is the
    configured start and the first call creates the row. *)
Lemma serial_allocation_gapless {env : Env} {settings : Settings}
    (sched : list event) (w : World) :
  Forall quiet sched ->
  in_range (allocations sched) w = true ->
  let N := allocations sched in
  let numbers := fst (run sched w) in
  numbers = map (fun i => INVOICE_NUMBER_PREFIX
                            ++ PyInt.format_06d (base w + Z.of_nat i))
                (seq 0 N)
  /\ NoDup numbers
  /\ base (snd (run sched w)) = base w + Z.of_nat N
  /\ (sequences w !! INVOICE_NUMBER_PREFIX = None ->
      base w = INVOICE_NUMBER_START
      /\ InvoiceService._generate_invoice_number w
         = (Ok (INVOICE_NUMBER_PREFIX
                  ++ PyInt.format_06d INVOICE_NUMBER_START),
            set_sequences (<[INVOICE_NUMBER_PREFIX :=
                               INVOICE_NUMBER_START + 1]>
                             (<[INVOICE_NUMBER_PREFIX :=
                                  INVOICE_NUMBER_START]> (sequences w))) w)).
Proof.
  intros Hq _ N numbers.
  destruct (Numbering.run_block sched Hq w) as [H1 H2].
  repeat split.
  - exact H1.
  - subst numbers. rewrite H1. apply Numbering.block_NoDup.
  - exact H2.
  - unfold base. now rewrite H.
  - unfold InvoiceService._generate_invoice_number. now rewrite H.
Qed.

(** C1.  The claim asks for the numbers [base], ..., [base+N-1] without
    duplicates whatever the interleaving of the calls, and the code means
    to give that (its query asks for the row lock, its docstring promises
    no gaps).  On the default database the lock is not taken: with the
    row of prefix [RE] at 10000, two calls whose queries both run before
    either commit are both handed [RE010000], and the row ends at 10001,
    where two calls that run one after the other are handed [RE010000]
    and [RE010001] and leave the row at 10002. *)
Theorem overlapping_calls_share_a_number :
  let env := Fixtures.env_with true [] in
  let settings := default_settings in
  let w := set_sequences {[ "RE" := 10000 ]} (Fixtures.fresh (Local ∅)) in
  let overlapped :=
    Sessions.run [Sessions.Query 1; Sessions.Query 2;
                  Sessions.Finish 1; Sessions.Finish 2] ∅ w in
  let serial :=
    Sessions.run [Sessions.Query 1; Sessions.Finish 1;
                  Sessions.Query 2; Sessions.Finish 2] ∅ w in
  base w = 10000
  /\ fst overlapped = [(1%nat, Ok "RE010000"); (2%nat, Ok "RE010000")]
  /\ base (snd overlapped) = 10001
  /\ fst serial = [(1%nat, Ok "RE010000"); (2%nat, Ok "RE010001")]
  /\ base (snd serial) = 10002
  /\ fst (run [Allocate; Allocate] w) = ["RE010000"; "RE010001"].
Proof.
  vm_compute. repeat split.
Qed.

End NumberingClaim.

(** ** The totals *)

Module TotalsFacts.
Import PyFloat TotalsSpec.

Lemma fold_step (items : list Schemas.LineItemCreate) (a : Totals.acc) :
  let ds := lines_from (Totals.next_idx a) items in
  fold_left Totals.step items a
  = {| Totals.next_idx := Totals.next_idx a + Z.of_nat (length items);
       Totals.line_items_data := Totals.line_items_data a ++ ds;
       Totals.net_total :=
         sum_from (Totals.net_total a) (map Item.line_net ds);
       Totals.tax_total :=
         sum_from (Totals.tax_total a) (map Item.tax_amount ds) |}.
Proof.
  revert a. induction items as [|item rest IH]; intros a; cbn zeta.
  - destruct a. simpl. rewrite Z.add_0_r, app_nil_r. reflexivity.
  - cbn [fold_left]. rewrite IH. unfold Totals.step at 1 2 3 4 5 6.
    cbn [Totals.next_idx Totals.line_items_data Totals.net_total
         Totals.tax_total lines_from map sum_from fold_left length].
    rewrite <- app_assoc. f_equal. lia.
Qed.

Lemma loop_eq (items : list Schemas.LineItemCreate) :
  let ds := lines_from 1 items in
  Totals.loop items
  = {| Totals.next_idx := 1 + Z.of_nat (length items);
       Totals.line_items_data := ds;
       Totals.net_total := sum_from Schemas.fzero (map Item.line_net ds);
       Totals.tax_total := sum_from Schemas.fzero (map Item.tax_amount ds) |}.
Proof. unfold Totals.loop. rewrite fold_step. reflexivity. Qed.

Lemma lines_from_equations (items : list Schemas.LineItemCreate) (start : Z) :
  Forall line_equations (lines_from start items).
Proof.
  revert start. induction items as [|item rest IH]; intros start; simpl.
  - constructor.
  - constructor; [| apply IH]. repeat split.
Qed.

Lemma lines_from_line_of (items : list Schemas.LineItemCreate) (start : Z) :
  Forall2 line_of items (lines_from start items).
Proof.
  revert start. induction items as [|item rest IH]; intros start; simpl.
  - constructor.
  - constructor; [| apply IH]. repeat split.
Qed.

Lemma lines_from_positions (items : list Schemas.LineItemCreate) (start : Z) :
  map Item.position (lines_from start items)
  = map (fun i => start + Z.of_nat i) (seq 0 (length items)).
Proof.
  revert start. induction items as [|item rest IH]; intros start; simpl.
  - reflexivity.
  - rewrite Z.add_0_r. f_equal. rewrite IH, <- seq_shift, map_map.
    apply map_ext. intros i. lia.
Qed.

(** The digit generation rounds to nearest, ties to even. *)
Lemma scaled_nearest_even_spec (ndigits : nat) (m p : positive) :
  nearest_even (Zpos m * 10 ^ Z.of_nat ndigits) (2 ^ Zpos p)
               (scaled_nearest_even ndigits m (Zneg p)).
Proof.
  unfold nearest_even, scaled_nearest_even.
  set (s := Zpos m * 10 ^ Z.of_nat ndigits).
  set (d := 2 ^ Zpos p).
  assert (0 < d) as Hd by (apply Z.pow_pos_nonneg; lia).
  pose proof (Z.div_mod s d ltac:(lia)) as Hs.
  pose proof (Z.mod_pos_bound s d Hd) as Hr.
  set (q := s / d) in *. set (r := s mod d) in *.
  destruct (Z.compare_spec (2 * r) d) as [He|Hl|Hg].
  - destruct (Z.even q) eqn:Hev.
    + split; [nia | intros _; exact Hev].
    + split; [nia |]. intros _. rewrite Z.even_add, Hev. reflexivity.
  - split; [nia | nia].
  - split; [nia | nia].
Qed.

(** On a float that is an integer nothing is rounded. *)
Lemma scaled_exact (ndigits : nat) (m : positive) (e : Z) :
  0 <= e ->
  scaled_nearest_even ndigits m e = Zpos m * 10 ^ Z.of_nat ndigits * 2 ^ e.
Proof. destruct e; try reflexivity. lia. Qed.

End TotalsFacts.

Module TotalsClaim.
Import PyFloat TotalsSpec.

(** C2, as the code has it.  For every list of line items there is one
    computed line per item, in order and numbered 1, 2, ...; the line of
    an item with quantity [q], price [p] and rate [r] records these three
    as given and has [net = round(q*p, 2)],
    [tax_amount = round(net*r/100, 2)] and
    [gross = round(net+tax_amount, 2)] in binary64 arithmetic, where
    [round] is to the nearest two-digit decimal of the float's exact value
    with a tie going to the even digit (not up); [net_total] and
    [tax_total] are the float sums of the rounded line values and
    [gross_total] is [round(net_total + tax_total, 2)]; the input
    [{quantity = 3, unit_price = 10.005, tax_rate = 19}] gives 30.02, 5.70
    and 35.72. *)
Theorem totals_as_computed (items : list Schemas.LineItemCreate) :
  let a := Totals.loop items in
  let ds := Totals.line_items_data a in
  map Item.position ds = map (fun i => 1 + Z.of_nat i) (seq 0 (length items))
  /\ Forall2 line_of items ds
  /\ Forall line_equations ds
  /\ Totals.net_total a = sum_from Schemas.fzero (map Item.line_net ds)
  /\ Totals.tax_total a = sum_from Schemas.fzero (map Item.tax_amount ds)
  /\ Totals.gross_total a
     = round (add (Totals.net_total a) (Totals.tax_total a)) 2
  /\ (forall ndigits m p,
        nearest_even (Zpos m * 10 ^ Z.of_nat ndigits) (2 ^ Zpos p)
                     (scaled_nearest_even ndigits m (Zneg p)))
  /\ (let d := Totals.line 1 Fixtures.item_3_10005_19 in
      format_f 2 (Item.line_net d) = "30.02"
      /\ format_f 2 (Item.tax_amount d) = "5.70"
      /\ format_f 2 (Item.line_gross d) = "35.72"
      /\ Item.line_net d = of_decimal 3002 2
      /\ Item.tax_amount d = of_decimal 570 2
      /\ Item.line_gross d = of_decimal 3572 2).
Proof.
  intros a ds. subst ds a. rewrite TotalsFacts.loop_eq.
  cbn [Totals.line_items_data Totals.net_total Totals.tax_total].
  split; [apply TotalsFacts.lines_from_positions |].
  split; [apply TotalsFacts.lines_from_line_of |].
  split; [apply TotalsFacts.lines_from_equations |].
  split; [reflexivity |]. split; [reflexivity |]. split; [reflexivity |].
  split; [apply TotalsFacts.scaled_nearest_even_spec |].
  vm_compute. repeat split.
Qed.

(** C2 fails as stated: the line item
    [{quantity = 1, unit_price = 0.125, tax_rate = 0}] satisfies the field
    constraints; its product is exactly 0.125, which half-up rounding
    takes to 0.13, while the code computes a net amount of 0.12. *)
Lemma half_up_refuted :
  let item := Fixtures.item_1_0125_0 in
  Schemas.valid_line_item item = true
  /\ mul (Schemas.quantity item) (Schemas.unit_price item) = of_decimal 125 3
  /\ Totals.spec_round_half_up
       (mul (Schemas.quantity item) (Schemas.unit_price item)) 2
     = of_decimal 13 2
  /\ Item.line_net (Totals.line 1 item) = of_decimal 12 2
  /\ Item.line_net (Totals.line 1 item)
     <> Totals.spec_round_half_up
          (mul (Schemas.quantity item) (Schemas.unit_price item)) 2.
Proof.
  vm_compute. repeat split. discriminate.
Qed.

End TotalsClaim.

(** ** The structured document *)

Module XmlFacts.
Import Lxml ZUGFeRDGenerator.

Lemma fold_append {A : Type} (f : A -> element) (items : list A)
    (t : string) (a : gmap string string) (x : option string)
    (cs : list element) :
  fold_left (fun e i => append e (f i)) items (Element t a x cs)
  = Element t a x (cs ++ map f items).
Proof.
  revert cs. induction items as [|i rest IH]; intros cs; simpl.
  - now rewrite app_nil_r.
  - rewrite IH, <- app_assoc. reflexivity.
Qed.

Lemma find_app_none {A : Type} (p : A -> bool) (l1 l2 : list A) :
  forallb (fun x => negb (p x)) l1 = true ->
  List.find p (l1 ++ l2) = List.find p l2.
Proof.
  induction l1 as [|x l1 IH]; simpl; intros H; [reflexivity |].
  apply andb_true_iff in H as [Hx Hl].
  destruct (p x); [discriminate | auto].
Qed.

Lemma forallb_flat_map {A B : Type} (p : B -> bool) (g : A -> list B)
    (l : list A) :
  (forall a, forallb p (g a) = true) -> forallb p (flat_map g l) = true.
Proof.
  intros H. induction l as [|a l IH]; simpl; [reflexivity |].
  rewrite forallb_app, H, IH. reflexivity.
Qed.

Section Generated.
Context {env : Env}.

Lemma iterdescendants_eq (t : string) (a : gmap string string)
    (x : option string) (cs : list element) :
  iterdescendants (Element t a x cs)
  = flat_map (fun c => c :: iterdescendants c) cs.
Proof. reflexivity. Qed.

Lemma flat_map_map_eq {A B C : Type} (f : A -> B) (g : B -> list C)
    (l : list A) :
  flat_map g (map f l) = flat_map (fun a => g (f a)) l.
Proof. induction l as [|a l IH]; simpl; [reflexivity | now rewrite IH]. Qed.

Lemma find_skip {A : Type} (p : A -> bool) (x : A) (l : list A) :
  p x = false -> List.find p (x :: l) = List.find p l.
Proof. intros H. simpl. now rewrite H. Qed.

Lemma lines_skipped (local : string) (line_items : list Item.t)
    (rest : list element) :
  header_tag local ->
  List.find (has_tag local)
    (flat_map (fun c => c :: iterdescendants c)
              (map line_item_element line_items) ++ rest)
  = List.find (has_tag local) rest.
Proof.
  intros H. apply find_app_none. rewrite flat_map_map_eq.
  apply forallb_flat_map. intros item.
  destruct H as [-> | [-> | ->]]; vm_compute; reflexivity.
Qed.

Ltac walk_to_lines :=
  unfold find; change (NAMESPACES !! "ram") with (Some ram_uri);
  unfold generate_root; cbv zeta;
  unfold RSM, RAM, node; rewrite fold_append;
  cbn [append app];
  let lines := fresh "lines" in
  match goal with
  | |- context [map line_item_element ?l] =>
      set (lines := map line_item_element l)
  end;
  rewrite iterdescendants_eq; cbn [flat_map app];
  rewrite find_skip by reflexivity;
  rewrite find_app_none by reflexivity;
  rewrite find_skip by reflexivity;
  rewrite find_app_none by reflexivity;
  rewrite find_skip by reflexivity;
  rewrite iterdescendants_eq, !flat_map_app, <- !app_assoc;
  subst lines.

Ltac skip_lines local :=
  walk_to_lines;
  change (fun d : element => String.eqb (tag d) (qname ram_uri local))
    with (has_tag local);
  rewrite lines_skipped by (unfold header_tag; auto).

Section Document.
Variables (invoice_number : string) (issue_date : datetime)
  (seller buyer : Schemas.Party) (line_items : list Item.t)
  (net_total tax_total gross_total : PyFloat.float) (currency : string)
  (d1 d2 : option datetime) (payment_terms : option string).

Local Abbreviation root :=
  (generate_root invoice_number issue_date seller buyer line_items
     net_total tax_total gross_total currency d1 d2 payment_terms).

(** The grand total of the document is the two-digit rendering of
    [gross_total]. *)
Lemma find_grand_total :
  find root "ram" "GrandTotalAmount" NAMESPACES
  = Some (RAM_text "GrandTotalAmount" (PyFloat.format_f 2 gross_total)).
Proof.
  skip_lines "GrandTotalAmount".
  destruct (truthy (Schemas.tax_id buyer)), (or_else d2 d1),
    (truthy payment_terms), line_items; reflexivity.
Qed.

Lemma find_seller :
  is_Some (find root "ram" "SellerTradeParty" NAMESPACES).
Proof.
  skip_lines "SellerTradeParty".
  destruct (truthy (Schemas.tax_id buyer)), (or_else d2 d1),
    (truthy payment_terms), line_items; eexists; reflexivity.
Qed.

Lemma find_buyer :
  is_Some (find root "ram" "BuyerTradeParty" NAMESPACES).
Proof.
  skip_lines "BuyerTradeParty".
  destruct (truthy (Schemas.tax_id buyer)), (or_else d2 d1),
    (truthy payment_terms), line_items; eexists; reflexivity.
Qed.

(** The first [ram:ID] of the document is the guideline identifier of the
    exchange context, which precedes the invoice number of the header. *)
Lemma find_id :
  find root "ram" "ID" NAMESPACES
  = Some (RAM_text "ID"
            "urn:cen.eu:en16931:2017#compliant#urn:factur-x.eu:1p0:basic").
Proof.
  unfold find. change (NAMESPACES !! "ram") with (Some ram_uri).
  unfold generate_root. cbv zeta. unfold RSM, RAM, node.
  rewrite fold_append. cbn [append app].
  rewrite iterdescendants_eq. cbn [flat_map app].
  rewrite find_skip by reflexivity. reflexivity.
Qed.

Lemma tag_append (p c : element) : tag (append p c) = tag p.
Proof. destruct p. reflexivity. Qed.

Lemma tag_root : tag root = qname rsm_uri "CrossIndustryInvoice".
Proof.
  unfold generate_root. cbv zeta.
  rewrite !tag_append. reflexivity.
Qed.

(** Every document built by [generate_root] passes the checks of
    [validate]. *)
Lemma validate_root_generated : validate_root root = true.
Proof.
  unfold validate_root. rewrite tag_root, String.eqb_refl.
  cbn [negb forallb required_paths fst snd].
  rewrite find_id, find_grand_total.
  destruct find_seller as [s ->], find_buyer as [b ->].
  reflexivity.
Qed.

End Document.

End Generated.
End XmlFacts.

(** ** The archival store *)

Module StorageFacts.
Import StorageSpec.

Section Facts.
Context {env : Env}.

Lemma store_eq (invoice_number bytes ext content_type : string) (w : World) :
  let key := key_of (clock (ticks w)) invoice_number ext in
  StorageService.store invoice_number bytes ext content_type w
  = (Ok key,
     set_ticks (match storage w with
                | Local _ => S (ticks w)
                | Remote _ => S (S (ticks w))
                end)
       (set_storage
          (stored (storage w) key bytes content_type invoice_number
                  (clock (S (ticks w)))) w)).
Proof.
  unfold StorageService.store, bind, utcnow, StorageService.get_storage,
    StorageService.put_storage, ret, key_of.
  cbn [set_ticks storage ticks]. destruct (storage w); reflexivity.
Qed.

Lemma read_stored_same (s : Storage) (key bytes ct n : string) (t : datetime) :
  read (stored s key bytes ct n t) key = Some bytes.
Proof.
  destruct s as [b|files]; simpl.
  - unfold S3.get_object, S3.history, S3.put_object. simpl.
    rewrite lookup_insert_eq. simpl. destruct (S3.versioning b); reflexivity.
  - apply lookup_insert_eq.
Qed.

Lemma read_stored_other (s : Storage) (key key' bytes ct n : string)
    (t : datetime) :
  key <> key' ->
  read (stored s key bytes ct n t) key' = read s key'.
Proof.
  intros Hk. destruct s as [b|files]; simpl.
  - unfold S3.get_object, S3.history, S3.put_object. simpl.
    now rewrite lookup_insert_ne.
  - now apply lookup_insert_ne.
Qed.

Lemma file_name_sample : file_name "RE010000".
Proof. repeat split; try discriminate. simpl. lia. Qed.

Lemma tidy_empty : tidy (Local ∅).
Proof. intros k [x Hk]. rewrite lookup_empty in Hk. discriminate Hk. Qed.

(** The key of a document of the service is canonical. *)
Lemma canonical_key_of (t : datetime) (n ext : string) :
  file_name n -> ext = ".pdf" \/ ext = ".xml" -> canonical (key_of t n ext).
Proof. intros Hn He. exists (year t), n, ext. auto. Qed.

Lemma get_file_eq (key : string) (w : World) :
  StorageService.get_file key w
  = match read (storage w) key with
    | Some bytes => (Ok bytes, w)
    | None => (Raise (FileNotFoundError
                        ("File not found in storage: " ++ key)), w)
    end.
Proof.
  unfold StorageService.get_file, bind, StorageService.get_storage, read.
  destruct (storage w) as [b|files]; simpl.
  - destruct (S3.get_object b key); reflexivity.
  - destruct (files !! key); reflexivity.
Qed.

End Facts.
End StorageFacts.

(** ** The issuance pipeline *)

Module PipelineFacts.
Import StorageSpec WorldSpec InvoiceService.

Lemma append_assoc_string (a b c : string) : (a ++ b) ++ c = a ++ (b ++ c).
Proof.
  induction a as [|x a IH]; [reflexivity |].
  change (String x ((a ++ b) ++ c) = String x (a ++ (b ++ c))).
  now rewrite IH.
Qed.

Lemma append_suffix_inj (s1 s2 t1 t2 : string) :
  String.length t1 = String.length t2 ->
  s1 ++ t1 = s2 ++ t2 -> s1 = s2 /\ t1 = t2.
Proof.
  intros Hlen. revert s2.
  induction s1 as [|c s1 IH]; intros [|c' s2] H.
  - split; [reflexivity | exact H].
  - exfalso. apply (f_equal String.length) in H.
    change (String c' s2 ++ t2) with (String c' (s2 ++ t2)) in H.
    change (EmptyString ++ t1) with t1 in H.
    cbn [String.length] in H.
    rewrite PyIntFacts.length_app_string in H. lia.
  - exfalso. apply (f_equal String.length) in H.
    change (String c s1 ++ t1) with (String c (s1 ++ t1)) in H.
    change (EmptyString ++ t2) with t2 in H.
    cbn [String.length] in H.
    rewrite PyIntFacts.length_app_string in H. lia.
  - change (String c (s1 ++ t1) = String c' (s2 ++ t2)) in H.
    injection H as -> H. destruct (IH _ H) as [-> ->]. split; reflexivity.
Qed.

(** The key of a visual document is never the key of a structured one. *)
Lemma pdf_key_not_xml_key (t t' : datetime) (n n' : string) :
  key_of t n ".pdf" <> key_of t' n' ".xml".
Proof.
  unfold key_of. intros H.
  rewrite <- !append_assoc_string in H.
  apply append_suffix_inj in H; [| reflexivity].
  destruct H as [_ H]. discriminate H.
Qed.

Lemma storable_spec (d : Schemas.InvoiceCreate) :
  let a := Totals.loop (Schemas.line_items d) in
  storable d = true
  <-> null_total (Totals.net_total a) (Totals.tax_total a)
        (Totals.gross_total a) = None
      /\ items_null_column (Totals.line_items_data a) = None.
Proof.
  unfold storable. cbv zeta.
  destruct (null_total _ _ _), (items_null_column _); split;
    try discriminate; auto; intros [? ?]; discriminate.
Qed.

Lemma draft_storable : storable Fixtures.draft = true.
Proof. vm_compute. reflexivity. Qed.

Section Facts.
Context {env : Env} {settings : Settings}.

(** The insert of the invoice row, in one equation. *)
Lemma flush_invoice_eq (mk : Z -> datetime -> datetime -> Models.Invoice)
    (n : string) (w : World) :
  flush_invoice mk n w
  = if number_taken (invoices w) n
    then (Raise (IntegrityError "invoices.invoice_number"), w)
    else
      let row :=
        mk (next_id (invoices w)) (clock (ticks w)) (clock (S (ticks w))) in
      match null_column row with
      | Some c => (Raise (IntegrityError c), w)
      | None => (Ok row, set_ticks (S (S (ticks w))) w)
      end.
Proof.
  unfold flush_invoice, bind, utcnow, ret.
  destruct (number_taken (invoices w) n); reflexivity.
Qed.

(** The final commit, in one equation. *)
Lemma commit_invoice_eq (inv : Models.Invoice) (items : list Item.t)
    (mk_log : datetime -> Models.AuditLog) (w : World) :
  commit_invoice inv items mk_log w
  = match items_null_column items with
    | Some c => (Raise (IntegrityError c), w)
    | None =>
        (Ok tt,
         set_tables
           (<[Models.id inv := inv]> (invoices w))
           (invoice_line_items w
              ++ map (fun d => {| Models.item_invoice_id := Models.id inv;
                                  Models.item_data := d |}) items)
           (audit_logs w ++ [mk_log (clock (ticks w))])
           (set_ticks (S (ticks w)) w))
    end.
Proof.
  unfold commit_invoice, bind, utcnow, ret, raise.
  destruct (items_null_column items); reflexivity.
Qed.

(** The steps behind a successful run of [create_invoice], for any
    collaborators. *)
Lemma create_invoice_inv (self : t) (d : Schemas.InvoiceCreate) (user : Z)
    (w w' : World) (inv : Models.Invoice) :
  create_invoice self d user w = (Ok inv, w') ->
  let number := Schedule.render (Schedule.base w) in
  let a := Totals.loop (Schemas.line_items d) in
  let xml :=
    zugferd_generate (zugferd_gen self) number (Schemas.issue_date d)
      (Schemas.seller d) (Schemas.buyer d) (Totals.line_items_data a)
      (Totals.net_total a) (Totals.tax_total a) (Totals.gross_total a)
      (Schemas.currency d) None None None in
  exists w1 w2 w3 w4 w5 pdf signed token pdf_path xml_path,
    _generate_invoice_number w = (Ok number, w1)
    /\ pdf_generate (pdf_gen self) number (Schemas.issue_date d)
         (Schemas.seller d) (Schemas.buyer d) (Totals.line_items_data a)
         (Totals.net_total a) (Totals.tax_total a) (Totals.gross_total a)
         (Schemas.currency d) (Schemas.notes d) (Schemas.payment_terms d)
         (Some xml) w1 = (Ok pdf, w2)
    /\ sign_pdf (signature_service self) pdf w2 = (Ok (signed, token), w3)
    /\ store_pdf (storage_service self) number signed w3 = (Ok pdf_path, w4)
    /\ store_xml (storage_service self) number xml w4 = (Ok xml_path, w5)
    /\ number_taken (invoices w5) number = false
    /\ Models.invoice_number inv = number
    /\ Models.net_total inv = Totals.net_total a
    /\ Models.tax_total inv = Totals.tax_total a
    /\ Models.gross_total inv = Totals.gross_total a
    /\ Models.currency inv = Schemas.currency d
    /\ Models.pdfa3_path inv = pdf_path
    /\ Models.zugferd_xml_path inv = Some xml_path
    /\ Models.pdf_hash inv = sha256_hexdigest signed
    /\ Models.tsa_token inv = Some token
    /\ Models.status inv = "issued"
    /\ Models.is_immutable inv = true
    /\ Models.id inv = next_id (invoices w5)
    /\ sequences w' = sequences w5
    /\ storage w' = storage w5
    /\ invoices w' = <[Models.id inv := inv]> (invoices w5)
    /\ length (audit_logs w') = S (length (audit_logs w5))
    /\ storable d = true.
Proof.
  intros H number a xml.
  unfold create_invoice, bind in H.
  pose proof (Numbering.allocate_returns w) as Hn.
  destruct (_generate_invoice_number w) as [[n|e] w1] eqn:E1;
    [| discriminate H].
  simpl in Hn. injection Hn as ->. fold number a xml in H.
  destruct (pdf_generate _ _ _ _ _ _ _ _ _ _ _ _ _ w1) as [[pdf|e] w2] eqn:E2;
    [| discriminate H].
  destruct (sign_pdf _ pdf w2) as [[[signed token]|e] w3] eqn:E3;
    [| discriminate H].
  destruct (store_pdf _ number signed w3) as [[pdf_path|e] w4] eqn:E4;
    [| discriminate H].
  destruct (store_xml _ number xml w4) as [[xml_path|e] w5] eqn:E5;
    [| discriminate H].
  rewrite flush_invoice_eq in H.
  destruct (number_taken (invoices w5) number) eqn:E6; [discriminate H |].
  cbv zeta in H. unfold null_column in H.
  cbn [Models.net_total Models.tax_total Models.gross_total] in H.
  fold a in H.
  destruct (null_total _ _ _) eqn:E7; [discriminate H |].
  rewrite commit_invoice_eq in H.
  destruct (items_null_column _) eqn:E8; [discriminate H |].
  unfold ret in H. injection H as <- <-.
  exists w1, w2, w3, w4, w5, pdf, signed, token, pdf_path, xml_path.
  cbn. rewrite length_app. cbn.
  repeat split; try assumption; try reflexivity; try lia.
  apply storable_spec. split; assumption.
Qed.

Lemma allocate_frame (w : World) :
  let w1 := snd (_generate_invoice_number w) in
  invoices w1 = invoices w /\ storage w1 = storage w
  /\ audit_logs w1 = audit_logs w /\ ticks w1 = ticks w.
Proof.
  unfold _generate_invoice_number.
  destruct (sequences w !! INVOICE_NUMBER_PREFIX); cbn; auto.
Qed.

Lemma pdf_generate_real (invoice_number : string) (issue_date : datetime)
    (seller buyer : Schemas.Party) (line_items : list Item.t)
    (net_total tax_total gross_total : PyFloat.float) (currency : string)
    (notes payment_terms : option string) (xml : string) (w : World) :
  exists w2,
    PDFGenerator.generate invoice_number issue_date seller buyer line_items
      net_total tax_total gross_total currency notes payment_terms
      (Some xml) w
    = (Ok (let base :=
             reportlab_build
               (PDFGenerator.story invoice_number issue_date seller buyer
                  line_items net_total tax_total gross_total currency
                  notes payment_terms) in
           match xml with
           | EmptyString => base
           | _ =>
               pikepdf_embed base
                 {| ef_filename := "zugferd-invoice.xml";
                    ef_subtype := "/text#2Fxml";
                    ef_body := xml;
                    ef_size := Z.of_nat (String.length xml);
                    ef_mod_date := Datetime.strftime_pdf (clock (ticks w));
                    ef_relationship := "/Alternative" |}
           end), w2)
    /\ frame w w2.
Proof.
  unfold PDFGenerator.generate, PDFGenerator._embed_zugferd_xml, bind,
    utcnow, ret, frame.
  destruct xml; cbn; eexists; split; try reflexivity; cbn; auto 10.
Qed.

Lemma sign_pdf_real (pdf : string) (w : World) :
  exists w3,
    SignatureService.sign_pdf pdf w
    = (Ok (match pyhanko_timestamp pdf with
           | Some signed =>
               (signed, SignatureService.tsa_token_metadata pdf signed
                          (clock (ticks w)))
           | None => (pdf, SignatureService.mock_token pdf (clock (ticks w)))
           end), w3)
    /\ frame w w3.
Proof.
  unfold SignatureService.sign_pdf, SignatureService._add_timestamp, bind,
    utcnow, ret, frame.
  destruct (pyhanko_timestamp pdf); cbn; eexists; split; try reflexivity;
    cbn; auto 10.
Qed.

Lemma store_real (invoice_number bytes ext content_type : string)
    (w : World) :
  let key := key_of (clock (ticks w)) invoice_number ext in
  exists w4,
    StorageService.store invoice_number bytes ext content_type w
    = (Ok key, w4)
    /\ sequences w4 = sequences w /\ invoices w4 = invoices w
    /\ audit_logs w4 = audit_logs w
    /\ storage w4 = stored (storage w) key bytes content_type
                       invoice_number (clock (S (ticks w))).
Proof.
  intros key. rewrite StorageFacts.store_eq. eexists. split; [reflexivity |].
  cbn. auto.
Qed.

Lemma foldr_max_ge (l : list Z) (x : Z) : In x l -> x <= foldr Z.max 0 l.
Proof.
  induction l as [|y l IH]; simpl; [contradiction |].
  intros [-> | H]; [lia | specialize (IH H); lia].
Qed.

(** The key handed to a new row is not in use. *)
Lemma next_id_fresh (rows : gmap Z Models.Invoice) :
  rows !! next_id rows = None.
Proof.
  destruct (rows !! next_id rows) as [i|] eqn:E; [| reflexivity].
  exfalso. apply elem_of_map_to_list, list_elem_of_In in E.
  apply (in_map fst) in E. apply foldr_max_ge in E.
  unfold next_id in E. simpl in E. lia.
Qed.

(** The three outcomes of a run with the collaborators of the service
    itself: the unique constraint on the number fails after the documents
    were stored and no row is written; or the invoice is written under a
    fresh key together with one audit entry; or a NOT NULL constraint
    fails, again after the documents were stored, and no row is
    written. *)
Lemma create_invoice_cases (d : Schemas.InvoiceCreate) (user : Z)
    (w : World) :
  let number := Schedule.render (Schedule.base w) in
  if number_taken (invoices w) number
  then exists w5,
         create_invoice init d user w
         = (Raise (IntegrityError "invoices.invoice_number"), w5)
         /\ invoices w5 = invoices w
         /\ invoice_line_items w5 = invoice_line_items w
         /\ audit_logs w5 = audit_logs w
  else if storable d
  then exists inv w' log,
         create_invoice init d user w = (Ok inv, w')
         /\ Models.id inv = next_id (invoices w)
         /\ invoices w' = <[Models.id inv := inv]> (invoices w)
         /\ audit_logs w' = (audit_logs w ++ [log])%list
         /\ Models.action log = "create"
         /\ Models.entity_id log = Models.id inv
  else exists c w5,
         create_invoice init d user w = (Raise (IntegrityError c), w5)
         /\ invoices w5 = invoices w
         /\ invoice_line_items w5 = invoice_line_items w
         /\ audit_logs w5 = audit_logs w.
Proof.
  intros number. unfold create_invoice, bind.
  pose proof (Numbering.allocate_returns w) as Hn.
  pose proof (allocate_frame w) as (Hi1 & _ & Ha1 & _).
  assert (invoice_line_items (snd (_generate_invoice_number w))
          = invoice_line_items w) as Hl1.
  { unfold _generate_invoice_number.
    destruct (sequences w !! INVOICE_NUMBER_PREFIX); reflexivity. }
  destruct (_generate_invoice_number w) as [[n|e] w1];
    [| discriminate Hn].
  simpl in Hn, Hi1, Ha1, Hl1. injection Hn as ->. fold number.
  cbn [init pdf_gen zugferd_gen signature_service storage_service
       pdf_generate zugferd_generate sign_pdf store_pdf store_xml].
  match goal with
  | |- context [PDFGenerator.generate ?a ?b ?c ?d0 ?e ?f ?g ?h ?i ?j ?k (Some ?x) w1] =>
      destruct (pdf_generate_real a b c d0 e f g h i j k x w1)
        as (w2 & -> & F2)
  end.
  match goal with
  | |- context [SignatureService.sign_pdf ?p w2] =>
      destruct (sign_pdf_real p w2) as (w3 & -> & F3)
  end.
  destruct (match pyhanko_timestamp _ with Some _ => _ | None => _ end)
    as [signed token].
  unfold StorageService.store_pdf, StorageService.store_xml.
  rewrite (StorageFacts.store_eq number signed ".pdf" "application/pdf" w3).
  cbv zeta.
  match goal with
  | |- context [StorageService.store ?n ?b ?x ?c ?w4] =>
      rewrite (StorageFacts.store_eq n b x c w4)
  end.
  cbv zeta. rewrite flush_invoice_eq.
  destruct F2 as (_ & I2 & L2 & A2 & _), F3 as (_ & I3 & L3 & A3 & _).
  cbn [invoices set_ticks set_storage].
  rewrite I3, I2, Hi1.
  destruct (number_taken (invoices w) number).
  { eexists. split; [reflexivity |]. cbn.
    rewrite I3, I2, Hi1, L3, L2, Hl1, A3, A2, Ha1. auto. }
  unfold null_column.
  cbn [Models.net_total Models.tax_total Models.gross_total].
  pose proof (storable_spec d) as Hs. cbv zeta in Hs.
  destruct (null_total _ _ _) as [c|].
  { replace (storable d) with false
      by (destruct (storable d); [| reflexivity];
          destruct (proj1 Hs eq_refl); discriminate).
    eexists _, _. split; [reflexivity |]. cbn.
    rewrite I3, I2, Hi1, L3, L2, Hl1, A3, A2, Ha1. auto. }
  rewrite commit_invoice_eq.
  destruct (items_null_column _) as [c|].
  { replace (storable d) with false
      by (destruct (storable d); [| reflexivity];
          destruct (proj1 Hs eq_refl); discriminate).
    eexists _, _. split; [reflexivity |]. cbn.
    rewrite I3, I2, Hi1, L3, L2, Hl1, A3, A2, Ha1. auto. }
  rewrite (proj2 Hs (conj eq_refl eq_refl)).
  unfold ret. cbn.
  rewrite I3, I2, Hi1, A3, A2, Ha1.
  eexists _, _, _. split; [reflexivity |]. cbn. auto 10.
Qed.

(** Issuance succeeds whenever the allocated number is not yet on an
    invoice and the computed amounts are numbers. *)
Lemma create_invoice_completes (d : Schemas.InvoiceCreate) (user : Z)
    (w : World) :
  number_taken (invoices w) (Schedule.render (Schedule.base w)) = false ->
  storable d = true ->
  exists inv w', create_invoice init d user w = (Ok inv, w').
Proof.
  intros Hfree Hs. pose proof (create_invoice_cases d user w) as H.
  cbv zeta in H. rewrite Hfree, Hs in H.
  destruct H as (inv & w' & _ & H & _). eauto.
Qed.

(** The steps behind a successful run with the collaborators of the
    service itself: what is composed, proved, stored and recorded. *)
Lemma create_invoice_real (d : Schemas.InvoiceCreate) (user : Z)
    (w w' : World) (inv : Models.Invoice) :
  create_invoice init d user w = (Ok inv, w') ->
  let number := Schedule.render (Schedule.base w) in
  let a := Totals.loop (Schemas.line_items d) in
  let root :=
    ZUGFeRDGenerator.generate_root number (Schemas.issue_date d)
      (Schemas.seller d) (Schemas.buyer d) (Totals.line_items_data a)
      (Totals.net_total a) (Totals.tax_total a) (Totals.gross_total a)
      (Schemas.currency d) None None None in
  let xml := etree_tostring root in
  let story :=
    PDFGenerator.story number (Schemas.issue_date d) (Schemas.seller d)
      (Schemas.buyer d) (Totals.line_items_data a) (Totals.net_total a)
      (Totals.tax_total a) (Totals.gross_total a) (Schemas.currency d)
      (Schemas.notes d) (Schemas.payment_terms d) in
  exists (t_embed t_sign t_pdf t_xml : datetime) (pdf signed : string)
         (token : gmap string string),
    pdf = match xml with
          | EmptyString => reportlab_build story
          | _ => pikepdf_embed (reportlab_build story)
                   {| ef_filename := "zugferd-invoice.xml";
                      ef_subtype := "/text#2Fxml";
                      ef_body := xml;
                      ef_size := Z.of_nat (String.length xml);
                      ef_mod_date := Datetime.strftime_pdf t_embed;
                      ef_relationship := "/Alternative" |}
          end
    /\ (signed, token)
       = match pyhanko_timestamp pdf with
         | Some s => (s, SignatureService.tsa_token_metadata pdf s t_sign)
         | None => (pdf, SignatureService.mock_token pdf t_sign)
         end
    /\ Models.invoice_number inv = number
    /\ Models.net_total inv = Totals.net_total a
    /\ Models.tax_total inv = Totals.tax_total a
    /\ Models.gross_total inv = Totals.gross_total a
    /\ Models.currency inv = Schemas.currency d
    /\ Models.pdfa3_path inv = key_of t_pdf number ".pdf"
    /\ Models.zugferd_xml_path inv = Some (key_of t_xml number ".xml")
    /\ Models.pdf_hash inv = sha256_hexdigest signed
    /\ Models.tsa_token inv = Some token
    /\ Models.status inv = "issued"
    /\ Models.is_immutable inv = true
    /\ invoices w' !! Models.id inv = Some inv
    /\ read (storage w') (key_of t_pdf number ".pdf") = Some signed
    /\ read (storage w') (key_of t_xml number ".xml") = Some xml.
Proof.
  intros H number a root xml story.
  apply create_invoice_inv in H.
  destruct H as (w1 & w2 & w3 & w4 & w5 & pdf & signed & token & pdf_path
                 & xml_path & E1 & E2 & E3 & E4 & E5 & _ & Hnum & Hnet & Htax
                 & Hgross & Hcur & Hpdf & Hxml & Hhash & Htok & Hst & Him
                 & _ & _ & Hsto & Hinv & _).
  cbn [init pdf_gen zugferd_gen signature_service storage_service
       pdf_generate zugferd_generate sign_pdf store_pdf store_xml] in *.
  fold number a in E2, E5.
  change (ZUGFeRDGenerator.generate number (Schemas.issue_date d)
            (Schemas.seller d) (Schemas.buyer d) (Totals.line_items_data a)
            (Totals.net_total a) (Totals.tax_total a) (Totals.gross_total a)
            (Schemas.currency d) None None None) with xml in E2, E5.
  match type of E2 with
  | PDFGenerator.generate ?a ?b ?c ?d0 ?e ?f ?g ?h ?i ?j ?k (Some ?x) w1 = _ =>
      destruct (pdf_generate_real a b c d0 e f g h i j k x w1)
        as (w2' & E2' & _)
  end.
  pose proof (eq_trans (eq_sym E2) E2') as X2. injection X2 as Epdf _.
  destruct (sign_pdf_real pdf w2) as (w3' & E3' & _).
  pose proof (eq_trans (eq_sym E3) E3') as X3. injection X3 as Esig _.
  unfold StorageService.store_pdf in E4.
  destruct (store_real number signed ".pdf" "application/pdf" w3)
    as (w4' & E4' & _ & _ & _ & S4).
  pose proof (eq_trans (eq_sym E4) E4') as X4. injection X4 as Ekey4 <-.
  unfold StorageService.store_xml in E5.
  destruct (store_real number xml ".xml" "text/xml" w4)
    as (w5' & E5' & _ & _ & _ & S5).
  pose proof (eq_trans (eq_sym E5) E5') as X5. injection X5 as Ekey5 <-.
  exists (clock (ticks w1)), (clock (ticks w2)), (clock (ticks w3)),
         (clock (ticks w4)), pdf, signed, token.
  subst pdf_path xml_path.
  repeat match goal with |- _ /\ _ => split end;
    try assumption; try reflexivity.
  - rewrite Hinv. apply lookup_insert_eq.
  - rewrite Hsto, S5, StorageFacts.read_stored_other, S4.
    + apply StorageFacts.read_stored_same.
    + intros Hk. symmetry in Hk. exact (pdf_key_not_xml_key _ _ _ _ Hk).
  - rewrite Hsto, S5. apply StorageFacts.read_stored_same.
Qed.

(** The call of the timestamp service in a successful run: it is made
    on the composed document, and what it returns is what is stored,
    hashed and recorded. *)
Lemma create_invoice_signing (d : Schemas.InvoiceCreate) (user : Z)
    (w w' : World) (inv : Models.Invoice) :
  create_invoice init d user w = (Ok inv, w') ->
  exists (w2 w3 : World) (signed : string) (token : gmap string string),
    SignatureService.sign_pdf (PipelineSpec.composed d w) w2
    = (Ok (signed, token), w3)
    /\ Models.tsa_token inv = Some token
    /\ Models.pdf_hash inv = sha256_hexdigest signed
    /\ Models.status inv = "issued"
    /\ invoices w' !! Models.id inv = Some inv
    /\ read (storage w') (Models.pdfa3_path inv) = Some signed.
Proof.
  intros H.
  destruct (create_invoice_real d user w w' inv H)
    as (_ & _ & t_pdf & _ & _ & signed0 & _ & _ & _ & _ & _ & _ & _ & _
        & Hpath & _ & Hhash0 & _ & _ & _ & _ & Rpdf & _).
  apply create_invoice_inv in H.
  destruct H as (w1 & w2 & w3 & w4 & w5 & pdf & signed & token & pdf_path
                 & xml_path & E1 & E2 & E3 & E4 & E5 & _ & _ & _ & _
                 & _ & _ & Hpdf & _ & Hhash & Htok & Hst & _
                 & _ & _ & Hsto & Hinv & _).
  cbn [init pdf_gen zugferd_gen signature_service storage_service
       pdf_generate zugferd_generate sign_pdf store_pdf store_xml] in *.
  assert (PipelineSpec.composed d w = pdf) as Epdf.
  { unfold PipelineSpec.composed. cbv zeta. rewrite E1. cbn [snd].
    rewrite E2. reflexivity. }
  subst pdf.
  exists w2, w3, signed, token.
  repeat match goal with |- _ /\ _ => split end; try assumption.
  - rewrite Hinv. apply lookup_insert_eq.
  - unfold StorageService.store_pdf in E4.
    destruct (store_real (Schedule.render (Schedule.base w)) signed ".pdf"
                "application/pdf" w3) as (w4' & E4' & _ & _ & _ & S4).
    pose proof (eq_trans (eq_sym E4) E4') as X4. injection X4 as Ekey4 <-.
    unfold StorageService.store_xml in E5.
    match type of E5 with
    | StorageService.store ?n ?x ?e ?c w4 = _ =>
        destruct (store_real n x e c w4) as (w5' & E5' & _ & _ & _ & S5)
    end.
    pose proof (eq_trans (eq_sym E5) E5') as X5. injection X5 as Ekey5 <-.
    rewrite Hpdf, Ekey4, Hsto, S5, StorageFacts.read_stored_other, S4.
    + apply StorageFacts.read_stored_same.
    + intros Hk. symmetry in Hk.
      exact (pdf_key_not_xml_key _ _ _ _ Hk).
Qed.

End Facts.
End PipelineFacts.

Module PipelineRun.
Import StorageSpec WorldSpec InvoiceService PipelineSpec.

Section Facts.
Context {env : Env} {settings : Settings}.

(** A run of [create_invoice] with the collaborators of the service
    itself, in full: the number is consumed and both documents are stored
    before the insert is tried; the insert fails on a taken number and
    writes nothing; otherwise, when the computed amounts are numbers, the
    row, its line items and one audit entry are written together, and
    when they are not, a NOT NULL constraint fails and nothing is
    written. *)
Lemma create_invoice_run (d : Schemas.InvoiceCreate) (user : Z) (w : World) :
  let number := Schedule.render (Schedule.base w) in
  let a := Totals.loop (Schemas.line_items d) in
  let xml :=
    ZUGFeRDGenerator.generate number (Schemas.issue_date d)
      (Schemas.seller d) (Schemas.buyer d) (Totals.line_items_data a)
      (Totals.net_total a) (Totals.tax_total a) (Totals.gross_total a)
      (Schemas.currency d) None None None in
  exists (w5 : World) (signed : string) (t_pdf t_xml : datetime),
    Schedule.base w5 = Schedule.base w + 1
    /\ invoices w5 = invoices w
    /\ invoice_line_items w5 = invoice_line_items w
    /\ audit_logs w5 = audit_logs w
    /\ read (storage w5) (key_of t_pdf number ".pdf") = Some signed
    /\ read (storage w5) (key_of t_xml number ".xml") = Some xml
    /\ (forall key,
          key <> key_of t_pdf number ".pdf" ->
          key <> key_of t_xml number ".xml" ->
          read (storage w5) key = read (storage w) key)
    /\ if number_taken (invoices w) number
       then create_invoice init d user w
            = (Raise (IntegrityError "invoices.invoice_number"), w5)
       else if storable d
       then exists inv w' log,
              create_invoice init d user w = (Ok inv, w')
              /\ sequences w' = sequences w5
              /\ storage w' = storage w5
              /\ Models.id inv = next_id (invoices w)
              /\ Models.invoice_number inv = number
              /\ Models.pdfa3_path inv = key_of t_pdf number ".pdf"
              /\ Models.zugferd_xml_path inv
                 = Some (key_of t_xml number ".xml")
              /\ Models.pdf_hash inv = sha256_hexdigest signed
              /\ snapshot d inv
              /\ invoices w' = <[Models.id inv := inv]> (invoices w)
              /\ invoice_line_items w'
                 = (invoice_line_items w
                    ++ item_rows (Models.id inv) (Totals.line_items_data a))%list
              /\ audit_logs w' = (audit_logs w ++ [log])%list
              /\ Models.user_id log = user
              /\ Models.entity_type log = "invoice"
              /\ Models.entity_id log = Models.id inv
              /\ Models.action log = "create"
              /\ Models.details log
                 = <["invoice_number" := JString number]>
                   (<["gross_total" := JNumber (Totals.gross_total a)]>
                   (<["buyer" := JString (Schemas.name (Schemas.buyer d))]>
                      ∅))
              /\ Models.created_by inv = user
       else exists c w6,
              create_invoice init d user w = (Raise (IntegrityError c), w6)
              /\ sequences w6 = sequences w5
              /\ storage w6 = storage w5
              /\ invoices w6 = invoices w
              /\ invoice_line_items w6 = invoice_line_items w
              /\ audit_logs w6 = audit_logs w
              /\ match null_total (Totals.net_total a) (Totals.tax_total a)
                         (Totals.gross_total a) with
                 | Some column => column = c
                 | None =>
                     items_null_column (Totals.line_items_data a) = Some c
                 end.
Proof.
  intros number a xml. unfold create_invoice, bind.
  pose proof (Numbering.allocate_returns w) as Hn.
  pose proof (Numbering.allocate_base w) as Hb.
  pose proof (PipelineFacts.allocate_frame w) as (Hi1 & Hs1 & Ha1 & _).
  assert (invoice_line_items (snd (_generate_invoice_number w))
          = invoice_line_items w) as Hl1.
  { unfold _generate_invoice_number.
    destruct (sequences w !! INVOICE_NUMBER_PREFIX); reflexivity. }
  destruct (_generate_invoice_number w) as [[n|e] w1];
    [| discriminate Hn].
  simpl in Hn, Hb, Hi1, Hs1, Ha1, Hl1. injection Hn as ->. fold number a.
  cbn [init pdf_gen zugferd_gen signature_service storage_service
       pdf_generate zugferd_generate sign_pdf store_pdf store_xml].
  fold xml.
  match goal with
  | |- context [PDFGenerator.generate ?a ?b ?c ?d0 ?e ?f ?g ?h ?i ?j ?k (Some ?x) w1] =>
      destruct (PipelineFacts.pdf_generate_real a b c d0 e f g h i j k x w1)
        as (w2 & -> & F2)
  end.
  match goal with
  | |- context [SignatureService.sign_pdf ?p w2] =>
      destruct (PipelineFacts.sign_pdf_real p w2) as (w3 & -> & F3)
  end.
  destruct (match pyhanko_timestamp _ with Some _ => _ | None => _ end)
    as [signed token].
  unfold StorageService.store_pdf, StorageService.store_xml.
  rewrite (StorageFacts.store_eq number signed ".pdf" "application/pdf" w3).
  cbv zeta.
  match goal with
  | |- context [StorageService.store ?n ?b ?x ?c ?w4] =>
      rewrite (StorageFacts.store_eq n b x c w4)
  end.
  cbv zeta. rewrite PipelineFacts.flush_invoice_eq.
  destruct F2 as (Q2 & I2 & L2 & A2 & S2), F3 as (Q3 & I3 & L3 & A3 & S3).
  cbn [invoices set_ticks set_storage ticks storage].
  rewrite I3, I2, Hi1.
  set (kpdf := key_of (clock (ticks w3)) number ".pdf").
  match goal with
  | |- context [key_of ?t number ".xml"] =>
      set (kxml := key_of t number ".xml")
  end.
  match goal with
  | |- context [stored (stored (storage w3) kpdf signed ?c1 ?n1 ?t1)
                       kxml xml ?c2 ?n2 ?t2] =>
      set (s5 := stored (stored (storage w3) kpdf signed c1 n1 t1)
                        kxml xml c2 n2 t2)
  end.
  assert (read s5 kpdf = Some signed) as Rp.
  { subst s5. rewrite StorageFacts.read_stored_other.
    - apply StorageFacts.read_stored_same.
    - intros Hk. symmetry in Hk.
      exact (PipelineFacts.pdf_key_not_xml_key _ _ _ _ Hk). }
  assert (read s5 kxml = Some xml) as Rx
    by (subst s5; apply StorageFacts.read_stored_same).
  assert (forall key, key <> kpdf -> key <> kxml ->
                      read s5 key = read (storage w) key) as Ro.
  { intros key Hp Hx. subst s5.
    rewrite !StorageFacts.read_stored_other by congruence.
    now rewrite S3, S2, Hs1. }
  assert (forall w0 : World, sequences w0 = sequences w3 ->
                             Schedule.base w0 = Schedule.base w + 1) as Hbase.
  { intros w0 H0. rewrite <- Hb. unfold Schedule.base.
    now rewrite H0, Q3, Q2. }
  match goal with
  | |- context [set_ticks ?t (set_storage s5 ?w4)] =>
      set (w5 := set_ticks t (set_storage s5 w4))
  end.
  exists w5, signed, (clock (ticks w3)),
    (clock match storage w3 with
           | Remote _ => S (S (ticks w3))
           | Local _ => S (ticks w3)
           end).
  fold kpdf kxml.
  repeat match goal with |- _ /\ _ => split end;
    try (subst w5; cbn [invoices invoice_line_items audit_logs storage
                        set_ticks set_storage]; congruence);
    try assumption.
  - apply Hbase. reflexivity.
  - destruct (number_taken (invoices w) number); [reflexivity |].
    unfold null_column.
    cbn [Models.net_total Models.tax_total Models.gross_total].
    pose proof (PipelineFacts.storable_spec d) as Hs. cbv zeta in Hs.
    fold a in Hs.
    destruct (null_total _ _ _) as [c|].
    { replace (storable d) with false
        by (destruct (storable d); [| reflexivity];
            destruct (proj1 Hs eq_refl); discriminate).
      exists c, w5. split; [reflexivity |]. subst w5.
      cbn [invoices invoice_line_items audit_logs storage set_ticks
           set_storage sequences].
      rewrite ?I3, ?I2, ?Hi1, L3, L2, Hl1, A3, A2, Ha1. auto 10. }
    rewrite PipelineFacts.commit_invoice_eq.
    destruct (items_null_column _) as [c|].
    { replace (storable d) with false
        by (destruct (storable d); [| reflexivity];
            destruct (proj1 Hs eq_refl); discriminate).
      eexists c, _. split; [reflexivity |]. subst w5.
      cbn [invoices invoice_line_items audit_logs storage set_ticks
           set_storage sequences].
      rewrite ?I3, ?I2, ?Hi1, L3, L2, Hl1, A3, A2, Ha1. auto 10. }
    rewrite (proj2 Hs (conj eq_refl eq_refl)).
    unfold ret.
    cbn [invoices invoice_line_items audit_logs storage set_ticks ticks
         set_storage set_tables Models.id].
    eexists _, _, _. split; [reflexivity |].
    subst w5.
    cbn [invoices invoice_line_items audit_logs storage set_ticks
         set_storage sequences set_tables].
    rewrite ?I3, ?I2, ?Hi1, L3, L2, Hl1, A3, A2, Ha1.
    unfold snapshot, item_rows. cbn.
    repeat match goal with |- _ /\ _ => split end; reflexivity.
Qed.

End Facts.
End PipelineRun.

Module TotalsAgreementClaim.
Import StorageSpec InvoiceService.

(** C3.  For every successful issuance the grand total of the persisted
    record, rendered with two decimals, is byte for byte the text of
    [GrandTotalAmount] in the structured document stored for the invoice
    and the amount in the emphasised row of the totals block of the
    visual document stored for it (where the currency code follows it
    after a space).  The persisted total is the one computed from the
    draft, so the same draft always yields the same amount in both
    documents. *)
Theorem grand_total_agreement {env : Env} {settings : Settings}
    (d : Schemas.InvoiceCreate) (user : Z) (w w' : World)
    (inv : Models.Invoice) :
  create_invoice init d user w = (Ok inv, w') ->
  let a := Totals.loop (Schemas.line_items d) in
  let g := Models.gross_total inv in
  let amount := PyFloat.format_f 2 g in
  let root :=
    ZUGFeRDGenerator.generate_root (Models.invoice_number inv)
      (Schemas.issue_date d) (Schemas.seller d) (Schemas.buyer d)
      (Totals.line_items_data a) (Models.net_total inv)
      (Models.tax_total inv) g (Models.currency inv) None None None in
  let story :=
    PDFGenerator.story (Models.invoice_number inv) (Schemas.issue_date d)
      (Schemas.seller d) (Schemas.buyer d) (Totals.line_items_data a)
      (Models.net_total inv) (Models.tax_total inv) g (Models.currency inv)
      (Schemas.notes d) (Schemas.payment_terms d) in
  let totals :=
    PDFGenerator.totals_data (Models.net_total inv) (Models.tax_total inv) g
      (Models.currency inv) in
  g = Totals.gross_total a
  /\ (exists xml_path,
        Models.zugferd_xml_path inv = Some xml_path
        /\ read (storage w') xml_path = Some (etree_tostring root))
  /\ Lxml.find root "ram" "GrandTotalAmount" ZUGFeRDGenerator.NAMESPACES
     = Some (ZUGFeRDGenerator.RAM_text "GrandTotalAmount" amount)
  /\ (exists t_embed signed,
        read (storage w') (Models.pdfa3_path inv) = Some signed
        /\ let xml := etree_tostring root in
           let pdf :=
             match xml with
             | EmptyString => reportlab_build story
             | _ =>
                 pikepdf_embed (reportlab_build story)
                   {| ef_filename := "zugferd-invoice.xml";
                      ef_subtype := "/text#2Fxml";
                      ef_body := xml;
                      ef_size := Z.of_nat (String.length xml);
                      ef_mod_date := Datetime.strftime_pdf t_embed;
                      ef_relationship := "/Alternative" |}
             end in
           signed = default pdf (pyhanko_timestamp pdf))
  /\ In (ReportLab.Table totals [140; 40]) story
  /\ last totals
     = Some [ReportLab.Str "Gesamtbetrag:";
             ReportLab.Str (amount ++ " " ++ Models.currency inv)].
Proof.
  intros H a g amount root story totals.
  destruct (PipelineFacts.create_invoice_real d user w w' inv H)
    as (t_embed & t_sign & t_pdf & t_xml & pdf & signed & token & Epdf & Esig
        & Hnum & Hnet & Htax & Hgross & Hcur & Hpdf & Hxml & _ & _ & _ & _
        & _ & Rpdf & Rxml).
  fold a in Hnet, Htax, Hgross, Epdf, Rxml.
  subst g amount root story totals.
  rewrite Hnum, Hnet, Htax, Hgross, Hcur.
  repeat match goal with |- _ /\ _ => split end.
  - reflexivity.
  - eexists. split; [exact Hxml | exact Rxml].
  - apply XmlFacts.find_grand_total.
  - exists t_embed, signed. rewrite Hpdf. split; [exact Rpdf |].
    cbv zeta.
    set (pdf' := match _ with EmptyString => _ | String _ _ => _ end).
    assert (pdf = pdf') as <- by exact Epdf.
    destruct (pyhanko_timestamp pdf); injection Esig as -> _; reflexivity.
  - unfold PDFGenerator.story. apply in_or_app. left. simpl. auto 12.
  - reflexivity.
Qed.

Lemma grand_total_agreement_witness :
  let env := Fixtures.env_with true [] in
  let settings := default_settings in
  exists inv w',
    create_invoice init Fixtures.draft 1 (Fixtures.fresh (Local ∅))
    = (Ok inv, w')
    /\ Models.gross_total inv
       = Totals.gross_total (Totals.loop (Schemas.line_items Fixtures.draft)).
Proof.
  intros env settings.
  destruct (PipelineFacts.create_invoice_completes Fixtures.draft 1
              (Fixtures.fresh (Local ∅)) eq_refl PipelineFacts.draft_storable)
    as (inv & w' & E).
  exists inv, w'. split; [exact E |].
  exact (proj1 (grand_total_agreement Fixtures.draft 1 _ _ inv E)).
Defined.

End TotalsAgreementClaim.

Module ValidationClaim.
Import StorageSpec InvoiceService Lxml ZUGFeRDGenerator.

(** C4, as the code has it.  The companion check [validate] accepts
    exactly the bytes that parse to a tree whose root is
    [CrossIndustryInvoice] and in which [ram:ID], [ram:SellerTradeParty],
    [ram:BuyerTradeParty] and [ram:GrandTotalAmount] are found; every
    document the encoder generates passes it (given that the parser reads
    back what the serialiser wrote); and [create_invoice] does not consult
    it: the run is the same whatever the check of the service answers, so
    the bytes reach composition and storage unconditionally. *)
Theorem companion_check_outside_pipeline {env : Env} {settings : Settings}
    (invoice_number : string) (issue_date : datetime)
    (seller buyer : Schemas.Party) (line_items : list Item.t)
    (net_total tax_total gross_total : PyFloat.float) (currency : string)
    (d1 d2 : option datetime) (payment_terms : option string)
    (self : InvoiceService.t) (check : string -> bool)
    (d : Schemas.InvoiceCreate) (user : Z) (w : World) :
  etree_fromstring
    (generate invoice_number issue_date seller buyer line_items
       net_total tax_total gross_total currency d1 d2 payment_terms)
  = Some (generate_root invoice_number issue_date seller buyer line_items
            net_total tax_total gross_total currency d1 d2 payment_terms) ->
  validate
    (generate invoice_number issue_date seller buyer line_items
       net_total tax_total gross_total currency d1 d2 payment_terms) = true
  /\ (forall xml_bytes,
        validate xml_bytes = true <->
        exists root,
          etree_fromstring xml_bytes = Some root
          /\ tag root = qname rsm_uri "CrossIndustryInvoice"
          /\ Forall (fun path =>
                       is_Some (find root (fst path) (snd path) NAMESPACES))
                    required_paths)
  /\ create_invoice (Fixtures.with_validate self check) d user w
     = create_invoice self d user w.
Proof.
  intros Hparse. split; [| split].
  - unfold validate. rewrite Hparse. apply XmlFacts.validate_root_generated.
  - intros xml_bytes. unfold validate.
    destruct (etree_fromstring xml_bytes) as [root|].
    + unfold validate_root.
      destruct (String.eqb_spec (tag root) (qname rsm_uri "CrossIndustryInvoice"))
        as [Ht|Ht]; cbn [negb].
      * rewrite forallb_forall. split.
        -- intros H. exists root. repeat split; [exact Ht |].
           apply Forall_forall. intros p Hp.
           specialize (H p (proj1 (list_elem_of_In _ _) Hp)).
           now apply bool_decide_eq_true in H.
        -- intros (r & [= <-] & _ & H) p Hp.
           apply bool_decide_eq_true.
           rewrite Forall_forall in H.
           exact (H p (proj2 (list_elem_of_In _ _) Hp)).
      * split; [discriminate |].
        intros (r & [= <-] & Ht' & _). contradiction.
    + split; [discriminate |]. intros (r & Hr & _). discriminate Hr.
  - reflexivity.
Qed.

Lemma companion_check_outside_pipeline_witness :
  let env0 := Fixtures.env_with true [] in
  let a := Totals.loop (Schemas.line_items Fixtures.draft) in
  let root :=
    @generate_root env0 "RE010000" (Schemas.issue_date Fixtures.draft)
      Fixtures.seller Fixtures.buyer (Totals.line_items_data a)
      (Totals.net_total a) (Totals.tax_total a) (Totals.gross_total a)
      "EUR" None None None in
  let env := Fixtures.env_with true [root] in
  let settings := default_settings in
  etree_fromstring
    (generate "RE010000" (Schemas.issue_date Fixtures.draft)
       Fixtures.seller Fixtures.buyer (Totals.line_items_data a)
       (Totals.net_total a) (Totals.tax_total a) (Totals.gross_total a)
       "EUR" None None None) = Some root
  /\ validate
       (generate "RE010000" (Schemas.issue_date Fixtures.draft)
          Fixtures.seller Fixtures.buyer (Totals.line_items_data a)
          (Totals.net_total a) (Totals.tax_total a) (Totals.gross_total a)
          "EUR" None None None) = true.
Proof.
  intros env0 a root env settings.
  assert (etree_fromstring
            (generate "RE010000" (Schemas.issue_date Fixtures.draft)
               Fixtures.seller Fixtures.buyer (Totals.line_items_data a)
               (Totals.net_total a) (Totals.tax_total a)
               (Totals.gross_total a) "EUR" None None None) = Some root)
    as Hparse by (vm_compute; reflexivity).
  split; [exact Hparse |].
  exact (proj1 (companion_check_outside_pipeline "RE010000"
                  (Schemas.issue_date Fixtures.draft) Fixtures.seller
                  Fixtures.buyer (Totals.line_items_data a)
                  (Totals.net_total a) (Totals.tax_total a)
                  (Totals.gross_total a) "EUR" None None None
                  init (fun _ => false) Fixtures.draft 1
                  (Fixtures.fresh (Local ∅)) Hparse)).
Defined.

(** C4 fails as stated.  With an encoder whose output does not parse, the
    check of the service rejects the bytes, and yet the run stores them
    as the structured document, stores the visual document and persists
    an issued invoice; likewise with the encoder of the service itself and
    a check that rejects every document. *)
Lemma rejected_document_is_stored :
  let env := Fixtures.env_with true [] in
  let settings := default_settings in
  let broken := "<rsm:CrossIndustryInvoice>" in
  let faulty := Fixtures.with_encoder_output init broken in
  let strict := Fixtures.with_validate init (fun _ => false) in
  zugferd_validate (zugferd_gen faulty) broken = false
  /\ match create_invoice faulty Fixtures.draft 1 (Fixtures.fresh (Local ∅)) with
     | (Ok inv, w') =>
         Models.zugferd_xml_path inv = Some "invoices/2025/RE010000.xml"
         /\ read (storage w') "invoices/2025/RE010000.xml" = Some broken
         /\ is_Some (read (storage w') (Models.pdfa3_path inv))
         /\ invoices w' !! 1 = Some inv
         /\ Models.status inv = "issued"
     | (Raise _, _) => False
     end
  /\ match create_invoice strict Fixtures.draft 1 (Fixtures.fresh (Local ∅)) with
     | (Ok inv, w') =>
         is_Some (read (storage w') "invoices/2025/RE010000.xml")
         /\ is_Some (read (storage w') (Models.pdfa3_path inv))
         /\ invoices w' !! 1 = Some inv
     | (Raise _, _) => False
     end.
Proof.
  vm_compute. repeat split; eexists; reflexivity.
Qed.

End ValidationClaim.

(** ** The timestamp service *)

Module SignatureFacts.
Import TokenSpec.

Section Facts.
Context {env : Env} {settings : Settings}.


Lemma mock_fields (pdf : string) (now : datetime) :
  let token := SignatureService.mock_token pdf now in
  token !! "tsa_url" = Some "mock_tsa"
  /\ token !! "hash_algorithm" = Some SignatureService.hash_algorithm
  /\ token !! "pdf_hash" = Some (sha256_hexdigest pdf)
  /\ token !! "signed_pdf_hash" = Some (sha256_hexdigest pdf)
  /\ token !! "timestamp" = Some (Datetime.isoformat now)
  /\ token !! "warning" = Some mock_warning.
Proof.
  unfold SignatureService.mock_token.
  repeat split; vm_compute; reflexivity.
Qed.



End Facts.
End SignatureFacts.

Module DegradedProofClaim.
Import TokenSpec StorageSpec InvoiceService.




End DegradedProofClaim.

(** ** Invariants of the service *)

Module SystemFacts.
Import StorageSpec WorldSpec System.

Lemma no_slash_uint (d : Decimal.uint) :
  no_slash (NilEmpty.string_of_uint d).
Proof. induction d; simpl; auto; split; auto; discriminate. Qed.

Lemma no_slash_str (n : Z) : no_slash (PyInt.str n).
Proof.
  destruct n; unfold PyInt.str, PyInt.digits.
  - simpl. split; [discriminate | exact I].
  - apply no_slash_uint.
  - change (no_slash (String "-" (NilEmpty.string_of_uint
                                    (N.to_uint (N.pos p))))).
    split; [discriminate | apply no_slash_uint].
Qed.

(** Two strings that agree up to and after their first slash. *)
Lemma split_at_slash (s1 s2 r1 r2 : string) :
  no_slash s1 -> no_slash s2 ->
  s1 ++ "/" ++ r1 = s2 ++ "/" ++ r2 -> s1 = s2 /\ r1 = r2.
Proof.
  revert s2. induction s1 as [|c s1 IH]; intros [|c' s2] H1 H2 H.
  - change (String "/" r1 = String "/" r2) in H. injection H as ->. auto.
  - change (String "/" r1 = String c' (s2 ++ "/" ++ r2)) in H.
    injection H as <- _. destruct H2 as [H2 _]. contradiction.
  - change (String c (s1 ++ "/" ++ r1) = String "/" r2) in H.
    injection H as -> _. destruct H1 as [H1 _]. contradiction.
  - change (String c (s1 ++ "/" ++ r1) = String c' (s2 ++ "/" ++ r2)) in H.
    injection H as -> H. destruct H1 as [_ H1], H2 as [_ H2].
    destruct (IH s2 H1 H2 H) as [-> ->]. auto.
Qed.

(** Keys of the same kind for different invoice numbers differ. *)
Lemma key_of_inj (t t' : datetime) (n n' ext : string) :
  key_of t n ext = key_of t' n' ext -> n = n'.
Proof.
  unfold key_of. intros H.
  apply PyIntFacts.app_inv_head_string in H.
  apply split_at_slash in H; try apply no_slash_str.
  destruct H as [_ H].
  apply PipelineFacts.append_suffix_inj in H; [tauto | reflexivity].
Qed.

Section Facts.
Context {env : Env} {settings : Settings}.

Lemma number_free (rows : gmap Z Models.Invoice) (n : string) :
  (forall k row, rows !! k = Some row -> Models.invoice_number row <> n) ->
  InvoiceService.number_taken rows n = false.
Proof.
  intros H. unfold InvoiceService.number_taken.
  apply not_true_is_false. intros Hex.
  apply existsb_exists in Hex as ([k row] & Hin & Heq).
  apply list_elem_of_In, elem_of_map_to_list in Hin.
  apply String.eqb_eq in Heq. exact (H k row Hin Heq).
Qed.

(** The world after a successful issuance. *)
Lemma create_invoice_world (d : Schemas.InvoiceCreate) (user : Z)
    (w w' : World) (inv : Models.Invoice) :
  InvoiceService.create_invoice InvoiceService.init d user w = (Ok inv, w') ->
  let number := Schedule.render (Schedule.base w) in
  Schedule.base w' = Schedule.base w + 1
  /\ invoices w' = <[Models.id inv := inv]> (invoices w)
  /\ Models.id inv = InvoiceService.next_id (invoices w)
  /\ exists t_pdf t_xml,
       Models.pdfa3_path inv = key_of t_pdf number ".pdf"
       /\ forall key,
            key <> key_of t_pdf number ".pdf" ->
            key <> key_of t_xml number ".xml" ->
            read (storage w') key = read (storage w) key.
Proof.
  intros H number.
  pose proof (PipelineFacts.create_invoice_inv _ d user w w' inv H)
    as (w1 & w2 & w3 & w4 & w5 & pdf & signed & token & pdf_path
        & xml_path & E1 & E2 & E3 & E4 & E5 & _ & _ & _ & _ & _ & _ & Hpdf
        & _ & _ & _ & _ & _ & Hid & Hseq & Hsto & Hinv & _).
  cbn [InvoiceService.init InvoiceService.pdf_gen InvoiceService.zugferd_gen
       InvoiceService.signature_service InvoiceService.storage_service
       InvoiceService.pdf_generate InvoiceService.zugferd_generate
       InvoiceService.sign_pdf InvoiceService.store_pdf
       InvoiceService.store_xml] in *.
  pose proof (Numbering.allocate_base w) as Hb.
  pose proof (PipelineFacts.allocate_frame w) as (Hi1 & Hs1 & _).
  rewrite E1 in Hb, Hi1, Hs1. cbn [snd] in Hb, Hi1, Hs1.
  match type of E2 with
  | PDFGenerator.generate ?a ?b ?c ?d0 ?e ?f ?g ?h ?i ?j ?k (Some ?x) w1 = _ =>
      destruct (PipelineFacts.pdf_generate_real a b c d0 e f g h i j k x w1)
        as (w2' & E2' & F2)
  end.
  pose proof (eq_trans (eq_sym E2) E2') as X2. injection X2 as _ <-.
  destruct (PipelineFacts.sign_pdf_real pdf w2) as (w3' & E3' & F3).
  pose proof (eq_trans (eq_sym E3) E3') as X3. injection X3 as _ <-.
  unfold StorageService.store_pdf in E4.
  match type of E4 with
  | StorageService.store ?n ?b ?x ?c w3 = _ =>
      destruct (PipelineFacts.store_real n b x c w3)
        as (w4' & E4' & Q4 & I4 & _ & S4)
  end.
  pose proof (eq_trans (eq_sym E4) E4') as X4. injection X4 as Ek4 <-.
  unfold StorageService.store_xml in E5.
  match type of E5 with
  | StorageService.store ?n ?b ?x ?c w4 = _ =>
      destruct (PipelineFacts.store_real n b x c w4)
        as (w5' & E5' & Q5 & I5 & _ & S5)
  end.
  pose proof (eq_trans (eq_sym E5) E5') as X5. injection X5 as Ek5 <-.
  destruct F2 as (Q2 & I2 & _ & _ & S2), F3 as (Q3 & I3 & _ & _ & S3).
  repeat match goal with |- _ /\ _ => split end.
  - unfold Schedule.base in *. rewrite Hseq, Q5, Q4, Q3, Q2. exact Hb.
  - rewrite Hinv, I5, I4, I3, I2, Hi1. reflexivity.
  - rewrite Hid, I5, I4, I3, I2, Hi1. reflexivity.
  - exists (clock (ticks w3)), (clock (ticks w4)).
    split; [rewrite Hpdf; exact Ek4 |].
    intros key Hp Hx.
    rewrite Hsto, S5, StorageFacts.read_stored_other
      by (intros Hk; apply Hx; symmetry; exact Hk).
    rewrite S4, StorageFacts.read_stored_other
      by (intros Hk; apply Hp; symmetry; exact Hk).
    rewrite S3, S2, Hs1. reflexivity.
Qed.

(** The world after a cancellation request, whatever its outcome. *)
Lemma cancel_world (invoice_id : Z) (reason : string) (user : Z) (w : World) :
  let w' := snd (Api.cancel_invoice invoice_id reason user w) in
  storage w' = storage w /\ sequences w' = sequences w
  /\ (invoices w' = invoices w
      \/ exists row now,
           invoices w !! invoice_id = Some row
           /\ invoices w'
              = <[Models.id row := Models.set_status "cancelled" now row]>
                  (invoices w)).
Proof.
  unfold Api.cancel_invoice, bind, Api.query_invoice, raise.
  destruct (invoices w !! invoice_id) as [row|] eqn:Hrow; cbn; [| auto].
  destruct (String.eqb (Models.status row) "cancelled") eqn:Hst; cbn;
    [auto |].
  unfold Api.try_except, InvoiceService.cancel_invoice, bind, utcnow, ret.
  rewrite Hst. cbn. split; [reflexivity |]. split; [reflexivity |].
  right. eauto.
Qed.

Lemma fresh_consistent (s : Storage) : consistent (Fixtures.fresh s).
Proof. intros k row H. cbn in H. rewrite lookup_empty in H. discriminate. Qed.

Lemma row_ok_other_world (w w' : World) (k : Z) (row : Models.Invoice) :
  Schedule.base w <= Schedule.base w' ->
  read (storage w') (Models.pdfa3_path row)
  = read (storage w) (Models.pdfa3_path row) ->
  row_ok w k row -> row_ok w' k row.
Proof.
  intros Hb Hr (Hid & Hst & Him & (bytes & Hread & Hhash) & m & t & Hm & Hn
                & Hp).
  repeat split; try assumption.
  - exists bytes. split; [congruence | exact Hhash].
  - exists m, t. repeat split; try assumption. lia.
Qed.

(** Serving a request keeps the table consistent. *)
Lemma serve_consistent (r : request) (w : World) :
  consistent w -> consistent (serve r w).
Proof.
  intros Hc. destruct r as [d user | invoice_id reason user]; cbn [serve].
  - assert (InvoiceService.number_taken (invoices w)
              (Schedule.render (Schedule.base w)) = false) as Hfree.
    { apply number_free. intros k row Hrow Heq.
      destruct (Hc k row Hrow) as (_ & _ & _ & _ & m & t & Hm & Hn & _).
      rewrite Hn in Heq. apply Numbering.render_inj in Heq. lia. }
    destruct (InvoiceService.storable d) eqn:Hs; cycle 1.
    { pose proof (PipelineRun.create_invoice_run d user w) as H.
      cbv zeta in H.
      destruct H as (w5 & signed & t_pdf & t_xml & Hb & _ & _ & _ & _ & _
                     & Hother & H).
      rewrite Hfree, Hs in H.
      destruct H as (c & w6 & -> & Hq & Hsto & Hi & _). cbn [snd].
      intros k row Hrow. rewrite Hi in Hrow.
      pose proof (Hc k row Hrow) as Hok.
      assert (Schedule.base w6 = Schedule.base w + 1) as Hb6
        by (unfold Schedule.base in *; rewrite Hq; exact Hb).
      apply (row_ok_other_world w w6); [lia | | exact Hok].
      destruct Hok as (_ & _ & _ & _ & m & t & Hm & Hn & Hp).
      rewrite Hsto. apply Hother; rewrite Hp.
      - intros Hk. apply key_of_inj, Numbering.render_inj in Hk. lia.
      - apply PipelineFacts.pdf_key_not_xml_key. }
    destruct (PipelineFacts.create_invoice_completes d user w Hfree Hs)
      as (inv & w' & E).
    rewrite E. cbn [snd].
    destruct (create_invoice_world d user w w' inv E)
      as (Hb & Hrows & Hid & t_pdf & t_xml & Hpath & Hother).
    destruct (PipelineFacts.create_invoice_real d user w w' inv E)
      as (_ & _ & t_pdf' & _ & _ & signed & _ & _ & _ & Hnum & _ & _ & _ & _
          & Hpath' & _ & Hhash & _ & Hst & Him & _ & Rpdf & _).
    intros k row Hrow. rewrite Hrows in Hrow.
    destruct (decide (Models.id inv = k)) as [<-|Hne].
    + rewrite lookup_insert_eq in Hrow. injection Hrow as <-.
      repeat split; try assumption; [auto | |].
      * exists signed. rewrite Hpath'. auto.
      * exists (Schedule.base w), t_pdf. repeat split; try assumption. lia.
    + rewrite lookup_insert_ne in Hrow by exact Hne.
      pose proof (Hc k row Hrow) as Hok.
      apply (row_ok_other_world w w'); [lia | | exact Hok].
      destruct Hok as (_ & _ & _ & _ & m & t & Hm & Hn & Hp).
      apply Hother; rewrite Hp.
      * intros Hk. apply key_of_inj, Numbering.render_inj in Hk. lia.
      * apply PipelineFacts.pdf_key_not_xml_key.
  - pose proof (cancel_world invoice_id reason user w) as Hw.
    cbv zeta in Hw.
    set (w' := snd (Api.cancel_invoice invoice_id reason user w)) in *.
    clearbody w'.
    destruct Hw as (Hs & Hq & [Hi | (row0 & now & Hrow0 & Hi)]).
    + intros k row Hrow. rewrite Hi in Hrow.
      apply (row_ok_other_world w); [| | apply Hc; exact Hrow].
      * unfold Schedule.base. rewrite Hq. lia.
      * now rewrite Hs.
    + intros k row Hrow. rewrite Hi in Hrow.
      destruct (decide (Models.id row0 = k)) as [<-|Hne].
      * rewrite lookup_insert_eq in Hrow. injection Hrow as <-.
        destruct (Hc invoice_id row0 Hrow0)
          as (Hid & _ & Him & (bytes & Hread & Hhash) & m & t & Hm & Hn & Hp).
        repeat split; try assumption; [auto | |].
        -- exists bytes. cbn. rewrite Hs. auto.
        -- exists m, t. cbn. unfold Schedule.base in *. rewrite Hq. auto.
      * rewrite lookup_insert_ne in Hrow by exact Hne.
        apply (row_ok_other_world w); [| | apply Hc; exact Hrow].
        -- unfold Schedule.base. rewrite Hq. lia.
        -- now rewrite Hs.
Qed.

Lemma same_but_status_refl (i : Models.Invoice) : Models.same_but_status i i.
Proof. unfold Models.same_but_status. repeat split. Qed.

Lemma same_but_status_set (s : string) (now : datetime) (i : Models.Invoice) :
  Models.same_but_status i (Models.set_status s now i).
Proof. unfold Models.same_but_status. cbn. repeat split. Qed.

Lemma same_but_status_trans (i j k : Models.Invoice) :
  Models.same_but_status i j -> Models.same_but_status j k ->
  Models.same_but_status i k.
Proof.
  unfold Models.same_but_status. intros H1 H2.
  repeat match goal with
         | H : _ /\ _ |- _ => destruct H
         end.
  repeat split; congruence.
Qed.

(** Serving a request removes no row and changes at most the status and
    the update time of a row. *)
Lemma serve_keeps_rows (r : request) (w : World) (k : Z)
    (row : Models.Invoice) :
  consistent w -> invoices w !! k = Some row ->
  exists row',
    invoices (serve r w) !! k = Some row'
    /\ Models.same_but_status row row'.
Proof.
  intros Hc Hrow. destruct r as [d user | invoice_id reason user];
    cbn [serve].
  - pose proof (PipelineFacts.create_invoice_cases d user w) as H.
    cbv zeta in H.
    destruct (InvoiceService.number_taken (invoices w) _).
    + destruct H as (w5 & -> & Hi & _). cbn [snd]. rewrite Hi.
      exists row. split; [exact Hrow | apply same_but_status_refl].
    + destruct (InvoiceService.storable d).
      * destruct H as (inv & w' & log & -> & Hid & Hrows & _). cbn [snd].
        rewrite Hrows. exists row. split; [| apply same_but_status_refl].
        rewrite lookup_insert_ne; [exact Hrow |].
        intros Hk. rewrite <- Hk, Hid, PipelineFacts.next_id_fresh in Hrow.
        discriminate Hrow.
      * destruct H as (c & w5 & -> & Hi & _). cbn [snd]. rewrite Hi.
        exists row. split; [exact Hrow | apply same_but_status_refl].
  - pose proof (cancel_world invoice_id reason user w) as Hw.
    cbv zeta in Hw.
    set (w' := snd (Api.cancel_invoice invoice_id reason user w)) in *.
    clearbody w'.
    destruct Hw as (_ & _ & [Hi | (row0 & now & Hrow0 & Hi)]).
    + rewrite Hi. exists row. split; [exact Hrow | apply same_but_status_refl].
    + rewrite Hi. destruct (Hc invoice_id row0 Hrow0) as (Hid & _).
      destruct (decide (Models.id row0 = k)) as [Hk|Hne].
      * rewrite Hk, lookup_insert_eq. eexists. split; [reflexivity |].
        assert (row0 = row) as -> by congruence.
        apply same_but_status_set.
      * rewrite lookup_insert_ne by exact Hne.
        exists row. split; [exact Hrow | apply same_but_status_refl].
Qed.

Lemma serve_all_keeps_rows (rs : list request) (w : World) (k : Z)
    (row : Models.Invoice) :
  consistent w -> invoices w !! k = Some row ->
  exists row',
    invoices (serve_all rs w) !! k = Some row'
    /\ Models.same_but_status row row'.
Proof.
  revert w row. induction rs as [|r rs IH]; intros w row Hc Hrow.
  - exists row. split; [exact Hrow | apply same_but_status_refl].
  - destruct (serve_keeps_rows r w k row Hc Hrow) as (row1 & H1 & S1).
    destruct (IH (serve r w) row1 (serve_consistent r w Hc) H1)
      as (row2 & H2 & S2).
    exists row2. split; [exact H2 |].
    exact (same_but_status_trans _ _ _ S1 S2).
Qed.

Lemma serve_all_consistent (rs : list request) (w : World) :
  consistent w -> consistent (serve_all rs w).
Proof.
  revert w. induction rs as [|r rs IH]; intros w Hc; [exact Hc |].
  apply IH, serve_consistent, Hc.
Qed.

End Facts.
End SystemFacts.

Module HashIntegrityClaim.
Import StorageSpec InvoiceService.

(** C8.  After every successful issuance, fetching the composed document
    from the store under the key recorded on the invoice succeeds, and the
    SHA-256 digest of the fetched bytes is the recorded content hash.  On
    a consistent system this stays so whatever requests are served
    afterwards: the row keeps its key and its hash, and the document
    fetched under the key still has that digest. *)
Theorem hash_round_trip {env : Env} {settings : Settings}
    (d : Schemas.InvoiceCreate) (user : Z) (w w' : World)
    (inv : Models.Invoice) :
  create_invoice init d user w = (Ok inv, w') ->
  (exists bytes,
     StorageService.get_file (Models.pdfa3_path inv) w' = (Ok bytes, w')
     /\ sha256_hexdigest bytes = Models.pdf_hash inv
     /\ invoices w' !! Models.id inv = Some inv)
  /\ (System.consistent w ->
      forall rs,
        let w'' := System.serve_all rs w' in
        exists row bytes,
          invoices w'' !! Models.id inv = Some row
          /\ Models.pdfa3_path row = Models.pdfa3_path inv
          /\ Models.pdf_hash row = Models.pdf_hash inv
          /\ StorageService.get_file (Models.pdfa3_path inv) w''
             = (Ok bytes, w'')
          /\ sha256_hexdigest bytes = Models.pdf_hash inv).
Proof.
  intros H.
  destruct (PipelineFacts.create_invoice_real d user w w' inv H)
    as (_ & _ & t_pdf & _ & _ & signed & _ & _ & _ & _ & _ & _ & _ & _
        & Hpath & _ & Hhash & _ & _ & _ & Hrow & Rpdf & _).
  split.
  - exists signed. rewrite StorageFacts.get_file_eq, Hpath, Rpdf, Hhash.
    auto.
  - intros Hc rs w''.
    assert (System.consistent w') as Hc'.
    { pose proof (SystemFacts.serve_consistent (System.Issue d user) w Hc)
        as Hs. cbn [System.serve] in Hs. rewrite H in Hs. exact Hs. }
    destruct (SystemFacts.serve_all_keeps_rows rs w' _ inv Hc' Hrow)
      as (row & Hrow' & Hsame).
    pose proof (SystemFacts.serve_all_consistent rs w' Hc' _ row Hrow')
      as (_ & _ & _ & (bytes & Hread & Hdig) & _).
    assert (Models.pdfa3_path row = Models.pdfa3_path inv
            /\ Models.pdf_hash row = Models.pdf_hash inv) as [Hp Hh].
    { unfold Models.same_but_status in Hsame.
      repeat match goal with
             | X : _ /\ _ |- _ => destruct X
             end.
      split; congruence. }
    exists row, bytes. fold w'' in Hread.
    rewrite StorageFacts.get_file_eq, <- Hp, Hread, <- Hh.
    auto.
Qed.

Lemma hash_round_trip_witness :
  let env := Fixtures.env_with true [] in
  let settings := default_settings in
  let w := Fixtures.fresh (Remote (Fixtures.empty_bucket true)) in
  System.consistent w
  /\ exists inv w' bytes,
       create_invoice init Fixtures.draft 1 w = (Ok inv, w')
       /\ StorageService.get_file (Models.pdfa3_path inv) w' = (Ok bytes, w')
       /\ sha256_hexdigest bytes = Models.pdf_hash inv
       /\ let w'' :=
            System.serve_all
              [System.Cancel 1 "Storno" 1; System.Issue Fixtures.draft 1] w' in
          exists bytes',
            StorageService.get_file (Models.pdfa3_path inv) w''
            = (Ok bytes', w'')
            /\ sha256_hexdigest bytes' = Models.pdf_hash inv.
Proof.
  intros env settings w.
  pose proof (SystemFacts.fresh_consistent
                (Remote (Fixtures.empty_bucket true))) as Hc.
  split; [exact Hc |].
  destruct (PipelineFacts.create_invoice_completes Fixtures.draft 1 w eq_refl
              PipelineFacts.draft_storable)
    as (inv & w' & E).
  destruct (hash_round_trip Fixtures.draft 1 _ _ inv E)
    as ((bytes & Hget & Hhash & _) & Hlater).
  destruct (Hlater Hc
              [System.Cancel 1 "Storno" 1; System.Issue Fixtures.draft 1])
    as (row & bytes' & _ & _ & _ & Hget' & Hhash').
  exists inv, w', bytes. repeat split; try assumption.
  exists bytes'. split; assumption.
Defined.

End HashIntegrityClaim.

Module UnsignedFallbackClaim.
Import StorageSpec TokenSpec InvoiceService.

(** C9.  Whenever the timestamping attempt on a document fails,
    [sign_pdf] returns that document's bytes unchanged together with the
    fallback token, whose pre-submission and post-processing digests are
    both the digest of those bytes; this is so whatever the authority
    would answer for other documents.  A successful issuance whose
    attempt on its composed document fails archives that document as it
    left the composer: what is fetched under the key on the row is the
    composed document, its digest is the recorded content hash, and the
    token on the row is the fallback with both digests equal to it. *)
Theorem failed_timestamp_keeps_bytes {env : Env} {settings : Settings}
    (d : Schemas.InvoiceCreate) (user : Z) (w w' : World)
    (inv : Models.Invoice) :
  create_invoice init d user w = (Ok inv, w') ->
  (forall pdf w0,
     pyhanko_timestamp pdf = None ->
     exists token w1,
       SignatureService.sign_pdf pdf w0 = (Ok (pdf, token), w1)
       /\ token = SignatureService.mock_token pdf (clock (ticks w0))
       /\ token !! "pdf_hash" = Some (sha256_hexdigest pdf)
       /\ token !! "signed_pdf_hash" = Some (sha256_hexdigest pdf)
       /\ degraded token)
  /\ (let pdf := PipelineSpec.composed d w in
      pyhanko_timestamp pdf = None ->
      exists token,
        StorageService.get_file (Models.pdfa3_path inv) w' = (Ok pdf, w')
        /\ Models.pdf_hash inv = sha256_hexdigest pdf
        /\ Models.tsa_token inv = Some token
        /\ token !! "pdf_hash" = token !! "signed_pdf_hash"
        /\ token !! "pdf_hash" = Some (sha256_hexdigest pdf)
        /\ degraded token).
Proof.
  intros H.
  assert (forall pdf w0,
     pyhanko_timestamp pdf = None ->
     exists token w1,
       SignatureService.sign_pdf pdf w0 = (Ok (pdf, token), w1)
       /\ token = SignatureService.mock_token pdf (clock (ticks w0))
       /\ token !! "pdf_hash" = Some (sha256_hexdigest pdf)
       /\ token !! "signed_pdf_hash" = Some (sha256_hexdigest pdf)
       /\ degraded token) as Hsign.
  { intros pdf w0 Hfail.
    destruct (PipelineFacts.sign_pdf_real pdf w0) as (w1 & E & _).
    rewrite Hfail in E.
    destruct (SignatureFacts.mock_fields pdf (clock (ticks w0)))
      as (_ & _ & M3 & M4 & _ & M6).
    exists (SignatureService.mock_token pdf (clock (ticks w0))), w1.
    repeat split; assumption. }
  split; [exact Hsign |].
  intros pdf Hfail.
  destruct (PipelineFacts.create_invoice_signing d user w w' inv H)
    as (w2 & w3 & signed & token & Esig & Htok & Hhash & _ & _ & Hread).
  fold pdf in Esig.
  destruct (Hsign pdf w2 Hfail) as (token' & w3' & Esig' & _ & H1 & H2 & H3).
  pose proof (eq_trans (eq_sym Esig) Esig') as X.
  injection X as -> -> _.
  exists token'. rewrite StorageFacts.get_file_eq, Hread.
  repeat split; try assumption. congruence.
Qed.

Lemma failed_timestamp_keeps_bytes_witness :
  let env :=
    Fixtures.env_answering (fun pdf => String.eqb pdf "%PDF|") in
  let settings := default_settings in
  let w := Fixtures.fresh (Local ∅) in
  is_Some (pyhanko_timestamp "%PDF|")
  /\ pyhanko_timestamp (PipelineSpec.composed Fixtures.draft w) = None
  /\ exists inv w',
       create_invoice init Fixtures.draft 1 w = (Ok inv, w')
       /\ StorageService.get_file (Models.pdfa3_path inv) w'
          = (Ok (PipelineSpec.composed Fixtures.draft w), w')
       /\ Models.pdf_hash inv
          = sha256_hexdigest (PipelineSpec.composed Fixtures.draft w).
Proof.
  intros env settings w.
  assert (pyhanko_timestamp (PipelineSpec.composed Fixtures.draft w) = None)
    as Hfail by (vm_compute; reflexivity).
  split; [eexists; reflexivity |]. split; [exact Hfail |].
  destruct (PipelineFacts.create_invoice_completes Fixtures.draft 1 w eq_refl
              PipelineFacts.draft_storable)
    as (inv & w' & E).
  destruct (failed_timestamp_keeps_bytes Fixtures.draft 1 _ _ inv E)
    as (_ & Hrun).
  destruct (Hrun Hfail) as (token & Hget & Hhash & _).
  exists inv, w'. auto.
Defined.

End UnsignedFallbackClaim.

Module IssuedStatusClaim.
Import InvoiceService.

(** C10.  Whatever its outcome, a run of the issuance pipeline leaves in
    the invoice table the rows that were there and at most one new row:
    the invoice it returns, written under a fresh key with status
    [issued] and [is_immutable = True] at once.  No row with status
    [draft] is ever written by it, and a failed run writes no row; in
    every world the service reaches from an empty system each invoice is
    [issued] or [cancelled], and immutable. *)
Theorem pipeline_persists_issued_only {env : Env} {settings : Settings}
    (d : Schemas.InvoiceCreate) (user : Z) (w w' : World)
    (r : result Models.Invoice) :
  create_invoice init d user w = (r, w') ->
  (forall k i,
     invoices w' !! k = Some i ->
     invoices w !! k = Some i
     \/ (r = Ok i /\ Models.id i = k /\ invoices w !! k = None
         /\ Models.status i = "issued" /\ Models.is_immutable i = true))
  /\ (forall inv,
        r = Ok inv ->
        invoices w' !! Models.id inv = Some inv
        /\ Models.status inv = "issued"
        /\ Models.is_immutable inv = true
        /\ Models.status inv <> "draft")
  /\ (forall e, r = Raise e -> invoices w' = invoices w)
  /\ (forall (s : Storage) (rs : list System.request) k row,
        invoices (System.serve_all rs (Fixtures.fresh s)) !! k = Some row ->
        (Models.status row = "issued" \/ Models.status row = "cancelled")
        /\ Models.is_immutable row = true).
Proof.
  intros H.
  assert (forall (s : Storage) (rs : list System.request) k row,
            invoices (System.serve_all rs (Fixtures.fresh s)) !! k = Some row ->
            (Models.status row = "issued" \/ Models.status row = "cancelled")
            /\ Models.is_immutable row = true) as Hreach.
  { intros s rs k row Hrow.
    pose proof (SystemFacts.serve_all_consistent rs (Fixtures.fresh s)
                  (SystemFacts.fresh_consistent s) k row Hrow)
      as (_ & Hst & Him & _).
    auto. }
  pose proof (PipelineFacts.create_invoice_cases d user w) as Hc.
  cbv zeta in Hc.
  destruct (number_taken (invoices w) _).
  - destruct Hc as (w5 & E & Hi & _).
    rewrite E in H. injection H as <- <-.
    split; [| split; [| split]]; [| | | exact Hreach].
    + intros k i Hk. left. now rewrite <- Hi.
    + intros inv [=].
    + intros e _. exact Hi.
  - destruct (storable d); cycle 1.
    { destruct Hc as (c & w5 & E & Hi & _).
      rewrite E in H. injection H as <- <-.
      split; [| split; [| split]]; [| | | exact Hreach].
      + intros k i Hk. left. now rewrite <- Hi.
      + intros inv [=].
      + intros e _. exact Hi. }
    destruct Hc as (inv & w1 & log & E & Hid & Hrows & _).
    rewrite E in H. injection H as <- <-.
    destruct (PipelineFacts.create_invoice_real d user w w1 inv E)
      as (_ & _ & _ & _ & _ & _ & _ & _ & _ & _ & _ & _ & _ & _ & _ & _ & _
          & _ & Hst & Him & Hrow & _).
    split; [| split; [| split]]; [| | | exact Hreach].
    + intros k i Hk. rewrite Hrows in Hk.
      destruct (decide (Models.id inv = k)) as [<-|Hne].
      * rewrite lookup_insert_eq in Hk. injection Hk as <-.
        right. repeat split; try assumption.
        rewrite Hid. apply PipelineFacts.next_id_fresh.
      * rewrite lookup_insert_ne in Hk by exact Hne. now left.
    + intros i [= <-]. repeat split; try assumption.
      rewrite Hst. discriminate.
    + intros e [=].
Qed.

Lemma pipeline_persists_issued_only_witness :
  let env := Fixtures.env_with true [] in
  let settings := default_settings in
  exists inv w',
    create_invoice init Fixtures.draft 1 (Fixtures.fresh (Local ∅))
    = (Ok inv, w')
    /\ invoices w' !! Models.id inv = Some inv
    /\ Models.status inv = "issued"
    /\ Models.is_immutable inv = true.
Proof.
  intros env settings.
  destruct (PipelineFacts.create_invoice_completes Fixtures.draft 1
              (Fixtures.fresh (Local ∅)) eq_refl PipelineFacts.draft_storable)
    as (inv & w' & E).
  destruct (pipeline_persists_issued_only Fixtures.draft 1 _ _ _ E)
    as (_ & H & _).
  destruct (H inv eq_refl) as (H1 & H2 & H3 & _).
  exists inv, w'. auto.
Defined.

End IssuedStatusClaim.

(** ** Cancellation *)

Module CancellationClaim.

(** C6, as the code has it.  For an invoice found under its key: when its
    status is [cancelled] the request fails with an HTTP 400 error and the
    world is left as it was (no field mutated, no audit entry added);
    otherwise the status becomes [cancelled], the column [updated_at] is
    set to the time of the write by its [onupdate] default, every other
    column keeps its value, exactly one audit entry with action [cancel]
    and the supplied reason is appended, the store is untouched, and a
    second request on the same invoice fails with the 400 error and
    changes nothing. *)
Theorem cancellation_guard {env : Env} {settings : Settings}
    (invoice_id : Z) (reason : string) (user : Z) (w : World)
    (inv : Models.Invoice) :
  invoices w !! invoice_id = Some inv ->
  Models.id inv = invoice_id ->
  if String.eqb (Models.status inv) "cancelled"
  then Api.cancel_invoice invoice_id reason user w
       = (Raise Api.already_cancelled, w)
  else exists resp w' inv' log,
         Api.cancel_invoice invoice_id reason user w = (Ok resp, w')
         /\ Api.status resp = "cancelled"
         /\ invoices w' = <[invoice_id := inv']> (invoices w)
         /\ Models.status inv' = "cancelled"
         /\ Models.updated_at inv' = clock (ticks w)
         /\ Models.same_but_status inv inv'
         /\ audit_logs w' = (audit_logs w ++ [log])%list
         /\ Models.action log = "cancel"
         /\ Models.entity_id log = invoice_id
         /\ Models.user_id log = user
         /\ Models.details log !! "reason" = Some (JString reason)
         /\ storage w' = storage w
         /\ sequences w' = sequences w
         /\ forall reason2 user2,
              Api.cancel_invoice invoice_id reason2 user2 w'
              = (Raise Api.already_cancelled, w').
Proof.
  intros Hrow Hid.
  unfold Api.cancel_invoice, bind, Api.query_invoice.
  rewrite Hrow.
  destruct (String.eqb (Models.status inv) "cancelled") eqn:Hst.
  - reflexivity.
  - unfold Api.try_except, InvoiceService.cancel_invoice, bind, utcnow, ret,
      raise.
    rewrite Hst. cbn. rewrite Hid.
    eexists _, _, _, _. split; [reflexivity |]. cbn.
    repeat match goal with |- _ /\ _ => split end; try reflexivity.
    + unfold Models.same_but_status. cbn. repeat split.
    + intros reason2 user2.
      unfold Api.cancel_invoice, bind, Api.query_invoice. cbn.
      rewrite lookup_insert_eq. cbn. reflexivity.
Qed.

Lemma cancellation_guard_witness :
  let env := Fixtures.env_with true [] in
  let settings := default_settings in
  exists inv,
    invoices Fixtures.issued_world !! 1 = Some inv
    /\ Models.id inv = 1
    /\ exists resp w',
         Api.cancel_invoice 1 "Storno" 1 Fixtures.issued_world = (Ok resp, w')
         /\ length (audit_logs w')
            = S (length (audit_logs Fixtures.issued_world)).
Proof.
  intros env settings.
  destruct (invoices Fixtures.issued_world !! 1) as [inv|] eqn:Hrow;
    [| vm_compute in Hrow; discriminate Hrow].
  assert (Models.id inv = 1) as Hid.
  { vm_compute in Hrow. injection Hrow as <-. reflexivity. }
  assert (String.eqb (Models.status inv) "cancelled" = false) as Hst.
  { vm_compute in Hrow. injection Hrow as <-. reflexivity. }
  exists inv. split; [reflexivity |]. split; [exact Hid |].
  pose proof (cancellation_guard 1 "Storno" 1 Fixtures.issued_world inv
                Hrow Hid) as H.
  rewrite Hst in H.
  destruct H as (resp & w' & inv' & log & E & _ & _ & _ & _ & _ & Hlog & _).
  exists resp, w'. split; [exact E |].
  rewrite Hlog, length_app. simpl. lia.
Defined.

(** C6 fails as stated: cancelling the issued sample invoice changes a
    column other than [status], namely [updated_at], and the second
    attempt is answered with status code 400, not 409. *)
Lemma cancellation_touches_updated_at :
  let env := Fixtures.env_with true [] in
  let settings := default_settings in
  match invoices Fixtures.issued_world !! 1,
        Api.cancel_invoice 1 "Storno" 1 Fixtures.issued_world with
  | Some inv, (Ok resp, w') =>
      match invoices w' !! 1 with
      | Some inv' =>
          Models.status inv = "issued"
          /\ Models.status inv' = "cancelled"
          /\ Models.updated_at inv' <> Models.updated_at inv
          /\ Models.pdf_hash inv' = Models.pdf_hash inv
          /\ fst (Api.cancel_invoice 1 "Storno" 1 w')
             = Raise (HTTPException 400 "Invoice is already cancelled")
          /\ length (audit_logs w')
             = S (length (audit_logs Fixtures.issued_world))
      | None => False
      end
  | _, _ => False
  end.
Proof.
  vm_compute. repeat split. discriminate.
Qed.

End CancellationClaim.

(** ** Version retention *)

Module RetentionFacts.
Import StorageSpec.

Lemma length_versions_of (key : string) (latest : bool) (h : list S3.entry) :
  length (S3.versions_of key latest h)
  = length (List.filter S3.is_version h).
Proof.
  revert latest. induction h as [|e h IH]; intros latest; [reflexivity |].
  destruct e; simpl; rewrite IH; reflexivity.
Qed.

Lemma length_listing (prefix : string) (l : list (string * list S3.entry)) :
  length (flat_map (fun kv => S3.versions_of (fst kv) true (snd kv))
            (filter (fun kv => String.prefix prefix (fst kv) = true) l))
  = list_sum (listed prefix <$> l).
Proof.
  induction l as [|kv l IH]; [reflexivity |].
  rewrite filter_cons, fmap_cons. unfold listed at 1. unfold list_sum in *. cbn [fold_right].
  destruct (decide (String.prefix prefix (fst kv) = true)) as [H|H].
  - rewrite H. cbn [flat_map]. rewrite length_app, length_versions_of, IH.
    reflexivity.
  - apply not_true_is_false in H. rewrite H, IH. reflexivity.
Qed.

Lemma listed_eq (prefix key : string) (h : list S3.entry) :
  listed prefix (key, h)
  = if String.prefix prefix key
    then length (List.filter S3.is_version h)
    else 0%nat.
Proof. reflexivity. Qed.

Lemma list_sum_perm (l l' : list nat) : l ≡ₚ l' -> list_sum l = list_sum l'.
Proof.
  induction 1; simpl; lia.
Qed.

(** Replacing the history of one key changes the length of a listing by
    the difference of the two histories. *)
Lemma listing_insert (prefix key : string) (h : list S3.entry)
    (m : gmap string (list S3.entry)) :
  (list_sum (listed prefix <$> map_to_list (<[key := h]> m))
   + listed prefix (key, default [] (m !! key))
   = list_sum (listed prefix <$> map_to_list m)
     + listed prefix (key, h))%nat.
Proof.
  destruct (m !! key) as [h0|] eqn:E; simpl.
  - rewrite <- (insert_delete_eq m key h).
    rewrite (list_sum_perm _ _
               (fmap_Permutation (listed prefix) _ _
                  (map_to_list_insert (delete key m) key h
                     (lookup_delete_eq m key)))).
    rewrite <- (list_sum_perm _ _
                  (fmap_Permutation (listed prefix) _ _
                     (map_to_list_delete m key h0 E))).
    rewrite !fmap_cons. unfold list_sum; cbn [fold_right default]. lia.
  - rewrite (list_sum_perm _ _
               (fmap_Permutation (listed prefix) _ _
                  (map_to_list_insert m key h E))).
    rewrite fmap_cons. unfold list_sum; cbn [fold_right default].
    assert (listed prefix (key, @nil S3.entry) = 0%nat) as ->
      by (unfold listed; cbn; now destruct (String.prefix prefix key)).
    lia.
Qed.

(** A put on a versioned bucket adds a version on top of the history. *)
Lemma put_history (b : S3.bucket) (key body ct : string)
    (md : gmap string string) (now : datetime) :
  S3.versioning b = true ->
  let b' := S3.put_object b key body ct md now in
  S3.history b' key
  = S3.Version (S3.next_version_id b) body ct md now :: S3.history b key
  /\ (forall k, k <> key -> S3.history b' k = S3.history b k).
Proof.
  intros Hv. unfold S3.put_object, S3.history. cbn. rewrite Hv. split.
  - now rewrite lookup_insert_eq.
  - intros k Hk. now rewrite lookup_insert_ne.
Qed.

Lemma put_listing (b : S3.bucket) (key body ct : string)
    (md : gmap string string) (now : datetime) (prefix : string) :
  S3.versioning b = true ->
  (length (S3.list_object_versions b prefix)
   <= length (S3.list_object_versions
                (S3.put_object b key body ct md now) prefix))%nat.
Proof.
  intros Hv. unfold S3.list_object_versions. rewrite !length_listing.
  unfold S3.put_object. cbn [S3.objects]. rewrite Hv.
  pose proof (listing_insert prefix key
                (S3.Version (S3.next_version_id b) body ct md now
                   :: S3.history b key) (S3.objects b)) as H.
  fold (S3.history b key) in H. rewrite !listed_eq in H.
  cbn [List.filter S3.is_version] in H.
  destruct (String.prefix prefix key); cbn [length] in H; lia.
Qed.

(** A delete on a versioned bucket adds a marker and erases nothing. *)
Lemma delete_history (b : S3.bucket) (key : string) :
  S3.versioning b = true ->
  let b' := S3.delete_object b key in
  S3.history b' key = S3.DeleteMarker (S3.next_version_id b) :: S3.history b key
  /\ (forall k, k <> key -> S3.history b' k = S3.history b k).
Proof.
  intros Hv. unfold S3.delete_object, S3.history. cbn. rewrite Hv. split.
  - now rewrite lookup_insert_eq.
  - intros k Hk. now rewrite lookup_insert_ne.
Qed.

Lemma delete_listing (b : S3.bucket) (key prefix : string) :
  S3.versioning b = true ->
  length (S3.list_object_versions (S3.delete_object b key) prefix)
  = length (S3.list_object_versions b prefix).
Proof.
  intros Hv. unfold S3.list_object_versions. rewrite !length_listing.
  unfold S3.delete_object. cbn [S3.objects]. rewrite Hv.
  pose proof (listing_insert prefix key
                (S3.DeleteMarker (S3.next_version_id b) :: S3.history b key)
                (S3.objects b)) as H.
  fold (S3.history b key) in H. rewrite !listed_eq in H.
  cbn [List.filter S3.is_version] in H.
  destruct (String.prefix prefix key); lia.
Qed.

(** A put on a bucket without versioning leaves one entry under the key. *)
Lemma put_history_unversioned (b : S3.bucket) (key body ct : string)
    (md : gmap string string) (now : datetime) :
  S3.versioning b = false ->
  let b' := S3.put_object b key body ct md now in
  S3.history b' key = [S3.Version (S3.next_version_id b) body ct md now]
  /\ S3.versioning b' = false.
Proof.
  intros Hv. unfold S3.put_object, S3.history. cbn. rewrite Hv.
  now rewrite lookup_insert_eq.
Qed.

End RetentionFacts.

Module RetentionClaim.
Import StorageSpec.

(** C7, as the code has it.  Storing bytes returns the key and makes the
    bytes what [get_file] returns for it.  On the remote backend with
    bucket versioning enabled, the write puts a new version on top of the
    key's history and erases nothing: the bodies the key held stay
    retrievable, the key retains one version more, other keys are
    untouched, and no listing by [list_versions] gets shorter; a delete
    puts a delete marker on top of the history, keeps every version, and
    leaves the listings as long as they were.  On the local fallback, and
    on a remote bucket without versioning, the write replaces what the
    key held: afterwards the store can produce the new bytes only, and
    the key retains one version. *)
Theorem store_retention_by_backend {env : Env}
    (invoice_number bytes ext content_type : string) (w : World) :
  exists key w',
    StorageService.store invoice_number bytes ext content_type w = (Ok key, w')
    /\ StorageService.get_file key w' = (Ok bytes, w')
    /\ match storage w with
       | Remote b =>
           if S3.versioning b
           then
             exists b',
               storage w' = Remote b'
               /\ S3.versioning b' = true
               /\ (exists v, S3.history b' key = v :: S3.history b key
                             /\ S3.is_version v = true)
               /\ (forall k, k <> key -> S3.history b' k = S3.history b k)
               /\ bodies (storage w') key = bytes :: bodies (storage w) key
               /\ retained (storage w') key = S (retained (storage w) key)
               /\ (forall k, exists vs vs',
                     StorageService.list_versions k w = (Ok vs, w)
                     /\ StorageService.list_versions k w' = (Ok vs', w')
                     /\ (length vs <= length vs')%nat)
               /\ exists w'' b'',
                    StorageService.delete_object key w' = (Ok tt, w'')
                    /\ storage w'' = Remote b''
                    /\ (exists m, S3.history b'' key = m :: S3.history b' key
                                  /\ S3.is_version m = false)
                    /\ bodies (storage w'') key = bodies (storage w') key
                    /\ (forall k, exists vs' vs'',
                          StorageService.list_versions k w' = (Ok vs', w')
                          /\ StorageService.list_versions k w'' = (Ok vs'', w'')
                          /\ length vs'' = length vs')
           else
             bodies (storage w') key = [bytes]
             /\ retained (storage w') key = 1%nat
       | Local _ =>
           bodies (storage w') key = [bytes]
           /\ retained (storage w') key = 1%nat
       end.
Proof.
  rewrite StorageFacts.store_eq. cbv zeta.
  set (key := key_of (clock (ticks w)) invoice_number ext).
  eexists key, _. split; [reflexivity |].
  split.
  { rewrite StorageFacts.get_file_eq. cbn [storage set_ticks set_storage].
    now rewrite StorageFacts.read_stored_same. }
  cbn [storage set_ticks set_storage].
  destruct (storage w) as [b|files] eqn:Hs; cbn [stored].
  2:{ cbn [bodies retained]. rewrite lookup_insert_eq. auto. }
  set (md := <["invoice_number" := invoice_number]> _).
  set (now := clock (S (ticks w))).
  set (b' := S3.put_object b key bytes content_type md now).
  destruct (S3.versioning b) eqn:Hv.
  2:{ destruct (RetentionFacts.put_history_unversioned b key bytes
                  content_type md now Hv) as [Hh _].
      fold b' in Hh. cbn [bodies retained]. rewrite Hh. auto. }
  destruct (RetentionFacts.put_history b key bytes content_type md now Hv)
    as [Hh Ho]. fold b' in Hh, Ho.
  assert (S3.versioning b' = true) as Hv' by exact Hv.
  destruct (RetentionFacts.delete_history b' key Hv') as [Hd Hdo].
  exists b'.
  repeat match goal with |- _ /\ _ => split end.
  - reflexivity.
  - exact Hv'.
  - eexists. split; [exact Hh | reflexivity].
  - exact Ho.
  - cbn [bodies]. rewrite Hh. reflexivity.
  - cbn [retained]. rewrite Hh. reflexivity.
  - intros k.
    unfold StorageService.list_versions, bind, StorageService.get_storage, ret.
    cbn [storage set_ticks set_storage]. rewrite Hs.
    eexists _, _. split; [reflexivity |]. split; [reflexivity |].
    rewrite !length_map. apply RetentionFacts.put_listing. exact Hv.
  - unfold StorageService.delete_object, bind, StorageService.get_storage,
      StorageService.put_storage.
    cbn [storage set_ticks set_storage].
    eexists _, (S3.delete_object b' key). split; [reflexivity |].
    cbn [storage set_ticks set_storage].
    repeat match goal with |- _ /\ _ => split end.
    + reflexivity.
    + eexists. split; [exact Hd | reflexivity].
    + cbn [bodies]. rewrite Hd. reflexivity.
    + intros k.
      unfold StorageService.list_versions, bind, StorageService.get_storage,
        ret.
      cbn [storage set_ticks set_storage].
      eexists _, _. split; [reflexivity |]. split; [reflexivity |].
      rewrite !length_map. apply RetentionFacts.delete_listing. exact Hv'.
Qed.

(** The theorem at a key that already holds an object: after a first
    write the key [invoices/2025/RE010000.pdf] holds [first]; a second
    write under it leaves a versioned bucket with both bodies and two
    versions, and leaves the local directory with the second body
    only. *)
Lemma store_retention_by_backend_witness :
  let env := Fixtures.env_with true [] in
  let key := "invoices/2025/RE010000.pdf" in
  (let w0 := Fixtures.fresh (Remote (Fixtures.empty_bucket true)) in
   let w1 :=
     snd (StorageService.store "RE010000" "first" ".pdf" "application/pdf"
            w0) in
   bodies (storage w1) key = ["first"]
   /\ exists w2,
        StorageService.store "RE010000" "second" ".pdf" "application/pdf" w1
        = (Ok key, w2)
        /\ bodies (storage w2) key = ["second"; "first"]
        /\ retained (storage w2) key = 2%nat)
  /\ (let w0 := Fixtures.fresh (Local ∅) in
      let w1 :=
        snd (StorageService.store "RE010000" "first" ".pdf" "application/pdf"
               w0) in
      bodies (storage w1) key = ["first"]
      /\ exists w2,
           StorageService.store "RE010000" "second" ".pdf" "application/pdf"
             w1
           = (Ok key, w2)
           /\ bodies (storage w2) key = ["second"]
           /\ retained (storage w2) key = 1%nat).
Proof.
  intros env key. split.
  - intros w0 w1.
    assert (bodies (storage w1) key = ["first"]) as H1
      by (vm_compute; reflexivity).
    split; [exact H1 |].
    destruct (store_retention_by_backend "RE010000" "second" ".pdf"
                "application/pdf" w1)
      as (key' & w2 & E & _ & H).
    assert (key' = key) as ->.
    { rewrite StorageFacts.store_eq in E. injection E as <- _.
      vm_compute. reflexivity. }
    assert (exists b1, storage w1 = Remote b1 /\ S3.versioning b1 = true)
      as (b1 & Hs & Hv) by (eexists; split; vm_compute; reflexivity).
    rewrite Hs, Hv in H.
    destruct H as (b' & _ & _ & _ & _ & Hb & Hr & _).
    exists w2. split; [exact E |]. split.
    + rewrite Hb, <- Hs, H1. reflexivity.
    + rewrite Hr, <- Hs. vm_compute. reflexivity.
  - intros w0 w1.
    assert (bodies (storage w1) key = ["first"]) as H1
      by (vm_compute; reflexivity).
    split; [exact H1 |].
    destruct (store_retention_by_backend "RE010000" "second" ".pdf"
                "application/pdf" w1)
      as (key' & w2 & E & _ & H).
    assert (key' = key) as ->.
    { rewrite StorageFacts.store_eq in E. injection E as <- _.
      vm_compute. reflexivity. }
    assert (exists files, storage w1 = Local files)
      as (files & Hs) by (eexists; vm_compute; reflexivity).
    rewrite Hs in H. destruct H as (Hb & Hr).
    exists w2. auto.
Defined.

(** C7 fails as stated: on the local backend a second write under the
    same key replaces the file, after which the first bytes cannot be
    retrieved and the number of retained versions is still one; on a
    remote bucket without versioning a put replaces the object and a
    delete removes it. *)
Lemma local_store_overwrites :
  let env := Fixtures.env_with true [] in
  let w0 := Fixtures.fresh (Local ∅) in
  match StorageService.store_pdf "RE010000" "first" w0 with
  | (Ok key, w1) =>
      match StorageService.store_pdf "RE010000" "second" w1 with
      | (Ok key', w2) =>
          key' = key
          /\ fst (StorageService.get_file key w1) = Ok "first"
          /\ bodies (storage w1) key = ["first"]
          /\ bodies (storage w2) key = ["second"]
          /\ ~ In "first" (bodies (storage w2) key)
          /\ retained (storage w2) key = retained (storage w1) key
          /\ fst (StorageService.get_file key w2) = Ok "second"
      | (Raise _, _) => False
      end
  | (Raise _, _) => False
  end
  /\ (let u0 := Fixtures.fresh (Remote (Fixtures.empty_bucket false)) in
      match StorageService.store_pdf "RE010000" "first" u0 with
      | (Ok key, u1) =>
          match StorageService.store_pdf "RE010000" "second" u1 with
          | (Ok _, u2) =>
              bodies (storage u2) key = ["second"]
              /\ match StorageService.delete_object key u2 with
                 | (Ok _, u3) => bodies (storage u3) key = []
                 | (Raise _, _) => False
                 end
          | (Raise _, _) => False
          end
      | (Raise _, _) => False
      end).
Proof.
  vm_compute. repeat split.
  intros [H | []]. discriminate H.
Qed.

End RetentionClaim.

(** ** More of the archival store *)

Module StorageExtras.
Import StorageSpec.

Lemma read_deleted (b : S3.bucket) (key : string) :
  read (Remote (S3.delete_object b key)) key = None.
Proof.
  unfold read, S3.get_object, S3.history, S3.delete_object. cbn.
  destruct (S3.versioning b).
  - now rewrite lookup_insert_eq.
  - now rewrite lookup_delete_eq.
Qed.

Lemma read_deleted_other (b : S3.bucket) (key k : string) :
  k <> key ->
  read (Remote (S3.delete_object b key)) k = read (Remote b) k.
Proof.
  intros Hk. unfold read, S3.get_object, S3.history, S3.delete_object. cbn.
  destruct (S3.versioning b).
  - now rewrite lookup_insert_ne.
  - now rewrite lookup_delete_ne.
Qed.

(** X1.  On either backend, for an invoice number that is one path
    component, an extension of the service and a store that holds
    documents of the service only, [store] (the body of [store_pdf] and
    [store_xml]) returns the key [invoices/{year}/{invoice_number}{ext}]
    for the year of the clock, a following [get_file] of that key returns
    exactly the bytes written, the store still holds documents of the
    service only, every other key of a bucket and every other canonical
    key of the local directory reads as before, and the tables of the
    database are untouched. *)
Theorem store_get_round_trip {env : Env} (invoice_number bytes ext content_type : string)
    (w : World) :
  file_name invoice_number ->
  ext = ".pdf" \/ ext = ".xml" ->
  tidy (storage w) ->
  exists w',
    StorageService.store invoice_number bytes ext content_type w
    = (Ok (key_of (clock (ticks w)) invoice_number ext), w')
    /\ canonical (key_of (clock (ticks w)) invoice_number ext)
    /\ StorageService.get_file (key_of (clock (ticks w)) invoice_number ext) w'
       = (Ok bytes, w')
    /\ tidy (storage w')
    /\ (forall k,
          addressable (storage w) k ->
          k <> key_of (clock (ticks w)) invoice_number ext ->
          fst (StorageService.get_file k w')
          = fst (StorageService.get_file k w))
    /\ sequences w' = sequences w /\ invoices w' = invoices w
    /\ invoice_line_items w' = invoice_line_items w
    /\ audit_logs w' = audit_logs w.
Proof.
  intros Hn Hext Ht.
  rewrite StorageFacts.store_eq. cbv zeta. eexists. split; [reflexivity |].
  set (key := key_of (clock (ticks w)) invoice_number ext).
  assert (canonical key) as Hkey
    by (apply StorageFacts.canonical_key_of; assumption).
  split; [exact Hkey |]. split; [| split; [| split]].
  - rewrite StorageFacts.get_file_eq. cbn [storage set_ticks set_storage].
    now rewrite StorageFacts.read_stored_same.
  - cbn [storage set_ticks set_storage].
    destruct (storage w) as [b|files]; cbn [stored tidy] in *; [exact I |].
    intros k Hk. destruct (decide (k = key)) as [->|Hne]; [exact Hkey |].
    rewrite lookup_insert_ne in Hk by congruence. exact (Ht k Hk).
  - intros k _ Hk. rewrite !StorageFacts.get_file_eq.
    cbn [storage set_ticks set_storage].
    rewrite StorageFacts.read_stored_other by congruence.
    destruct (read (storage w) k); reflexivity.
  - cbn. auto.
Qed.

Lemma store_get_round_trip_witness :
  let env := Fixtures.env_with true [] in
  let w := Fixtures.fresh (Local ∅) in
  file_name "RE010000"
  /\ tidy (storage w)
  /\ exists w',
       StorageService.store "RE010000" "%PDF" ".pdf" "application/pdf" w
       = (Ok "invoices/2025/RE010000.pdf", w')
       /\ StorageService.get_file "invoices/2025/RE010000.pdf" w'
          = (Ok "%PDF", w')
       /\ tidy (storage w').
Proof.
  intros env w.
  pose proof StorageFacts.file_name_sample as Hn.
  pose proof StorageFacts.tidy_empty as Ht.
  split; [exact Hn |]. split; [exact Ht |].
  destruct (store_get_round_trip "RE010000" "%PDF" ".pdf" "application/pdf"
              w Hn (or_introl eq_refl) Ht)
    as (w' & E & _ & Hget & Ht' & _).
  exists w'. auto.
Defined.

(** X2.  [delete_object] on the remote backend makes the key unreadable:
    the next [get_file] of it raises [FileNotFoundError] with the message
    [File not found in storage: {key}], whether the bucket keeps versions
    (a delete marker is on top) or not (the object is gone), while every
    other key reads as before.  On the local fallback [delete_object]
    raises [AttributeError] and nothing is deleted. *)
Theorem delete_hides_object {env : Env} (key : string) (w : World) :
  match storage w with
  | Remote b =>
      exists w',
        StorageService.delete_object key w = (Ok tt, w')
        /\ StorageService.get_file key w'
           = (Raise (FileNotFoundError ("File not found in storage: " ++ key)),
              w')
        /\ (forall k, k <> key ->
              read (storage w') k = read (storage w) k)
        /\ invoices w' = invoices w /\ audit_logs w' = audit_logs w
  | Local files =>
      StorageService.delete_object key w
      = (Raise (AttributeError
                  "'NoneType' object has no attribute 'delete_object'"), w)
  end.
Proof.
  unfold StorageService.delete_object, bind, StorageService.get_storage,
    StorageService.put_storage, raise.
  destruct (storage w) as [b|files] eqn:Hs; [| reflexivity].
  eexists. split; [reflexivity |]. split; [| split].
  - rewrite StorageFacts.get_file_eq. cbn [storage set_storage].
    now rewrite read_deleted.
  - intros k Hk. cbn [storage set_storage].
    now rewrite read_deleted_other.
  - cbn. auto.
Qed.

(** X3.  Without bucket versioning, and on the local fallback, storing a
    second time under the same invoice number and extension within the
    same clock year goes to the same key and replaces the bytes: the
    store can afterwards produce the second body only, and [get_file]
    returns it. *)
Theorem restore_replaces_without_versioning {env : Env}
    (invoice_number first second ext content_type : string) (w : World) :
  match storage w with
  | Remote b => S3.versioning b = false
  | Local _ => True
  end ->
  let r1 := StorageService.store invoice_number first ext content_type w in
  let r2 := StorageService.store invoice_number second ext content_type
              (snd r1) in
  year (clock (ticks (snd r1))) = year (clock (ticks w)) ->
  exists key,
    fst r1 = Ok key /\ fst r2 = Ok key
    /\ bodies (storage (snd r2)) key = [second]
    /\ retained (storage (snd r2)) key = 1%nat
    /\ StorageService.get_file key (snd r2) = (Ok second, snd r2).
Proof.
  intros Hv r1 r2. subst r1 r2.
  rewrite (StorageFacts.store_eq invoice_number first). cbv zeta.
  cbn [snd fst].
  match goal with
  | |- context [StorageService.store _ _ _ _ ?w1] =>
      rewrite (StorageFacts.store_eq invoice_number second ext content_type w1)
  end.
  cbv zeta. cbn [snd fst ticks storage set_ticks set_storage].
  intros Hy.
  match type of Hy with
  | year (clock ?t) = _ =>
      assert (key_of (clock t) invoice_number ext
              = key_of (clock (ticks w)) invoice_number ext) as Hk
        by (unfold key_of; now rewrite Hy);
      rewrite !Hk; clear Hk Hy
  end.
  set (key := key_of (clock (ticks w)) invoice_number ext).
  exists key. split; [reflexivity |]. split; [reflexivity |].
  rewrite StorageFacts.get_file_eq. cbn [storage set_ticks set_storage].
  rewrite StorageFacts.read_stored_same.
  destruct (storage w) as [b|files]; cbn [stored bodies retained].
  - match goal with
    | |- context [S3.put_object (S3.put_object b ?k ?x ?c ?m ?t) ?k ?x' ?c' ?m' ?t'] =>
        destruct (RetentionFacts.put_history_unversioned b k x c m t Hv) as [_ Hv1];
        destruct (RetentionFacts.put_history_unversioned (S3.put_object b k x c m t)
                    k x' c' m' t' Hv1) as [-> _]
    end.
    cbn. auto.
  - rewrite lookup_insert_eq. auto.
Qed.

Lemma restore_replaces_without_versioning_witness :
  exists key,
    fst (@StorageService.store (Fixtures.env_with true []) "RE010000" "a"
           ".pdf" "application/pdf" (Fixtures.fresh (Local ∅))) = Ok key
    /\ bodies
         (storage
            (snd (@StorageService.store (Fixtures.env_with true [])
                    "RE010000" "b" ".pdf" "application/pdf"
                    (snd (@StorageService.store (Fixtures.env_with true [])
                            "RE010000" "a" ".pdf" "application/pdf"
                            (Fixtures.fresh (Local ∅)))))))
         key = ["b"].
Proof.
  destruct (@restore_replaces_without_versioning (Fixtures.env_with true [])
              "RE010000" "a" "b" ".pdf" "application/pdf"
              (Fixtures.fresh (Local ∅)) I eq_refl)
    as (key & H1 & _ & H3 & _).
  exists key. split; [exact H1 | exact H3].
Defined.

End StorageExtras.

(** ** More of the issuance pipeline *)

Module PipelineExtras.
Import StorageSpec WorldSpec InvoiceService PipelineSpec System.



(** X5.  A successful [create_invoice] appends to the line-item table one
    row per line of the draft, in order, each carrying the key of the new
    invoice and the positions 1, 2, ..., and appends exactly one audit
    entry: action [create], entity type [invoice], the key of the new
    invoice, the acting user, and the details [invoice_number],
    [gross_total] and [buyer] of the invoice. *)
Theorem issuance_writes_items_and_audit {env : Env} {settings : Settings}
    (d : Schemas.InvoiceCreate) (user : Z) (w w' : World)
    (inv : Models.Invoice) :
  create_invoice init d user w = (Ok inv, w') ->
  exists rows log,
    invoice_line_items w' = (invoice_line_items w ++ rows)%list
    /\ map Models.item_data rows
       = Totals.line_items_data (Totals.loop (Schemas.line_items d))
    /\ Forall (fun r => Models.item_invoice_id r = Models.id inv) rows
    /\ map (fun r => Item.position (Models.item_data r)) rows
       = map (fun i => 1 + Z.of_nat i)
             (seq 0 (length (Schemas.line_items d)))
    /\ audit_logs w' = (audit_logs w ++ [log])%list
    /\ Models.user_id log = user
    /\ Models.entity_type log = "invoice"
    /\ Models.entity_id log = Models.id inv
    /\ Models.action log = "create"
    /\ Models.details log !! "invoice_number"
       = Some (JString (Models.invoice_number inv))
    /\ Models.details log !! "gross_total"
       = Some (JNumber (Models.gross_total inv))
    /\ Models.details log !! "buyer" = Some (JString (Models.buyer_name inv)).
Proof.
  intros E.
  destruct (PipelineRun.create_invoice_run d user w)
    as (w5 & signed & t_pdf & t_xml & _ & _ & _ & _ & _ & _ & _ & H).
  destruct (number_taken (invoices w) _).
  { rewrite H in E. discriminate E. }
  destruct (storable d);
    [| destruct H as (c & w6 & E6 & _); rewrite E6 in E; discriminate E].
  destruct H as (inv0 & w0 & log & E0 & _ & _ & _ & Hn & _ & _ & _ & Hsnap
                 & _ & Hl & Ha & Hu & Ht & He & Hact & Hd & _).
  pose proof (eq_trans (eq_sym E) E0) as X. injection X as -> ->.
  exists (item_rows (Models.id inv0)
            (Totals.line_items_data (Totals.loop (Schemas.line_items d)))),
         log.
  unfold snapshot in Hsnap.
  repeat match goal with H : _ /\ _ |- _ => destruct H end.
  repeat match goal with |- _ /\ _ => split end; try assumption.
  - unfold item_rows. rewrite map_map. cbn. apply map_id.
  - unfold item_rows. apply Forall_forall. intros r Hr.
    apply list_elem_of_In, in_map_iff in Hr as (x & <- & _). reflexivity.
  - unfold item_rows. rewrite map_map. cbn.
    rewrite TotalsFacts.loop_eq. cbn.
    apply TotalsFacts.lines_from_positions.
  - rewrite Hd, lookup_insert_eq, Hn. reflexivity.
  - rewrite Hd, lookup_insert_ne, lookup_insert_eq by discriminate.
    congruence.
  - rewrite Hd, !lookup_insert_ne, lookup_insert_eq by discriminate.
    congruence.
Qed.

Lemma issuance_writes_items_and_audit_witness :
  let env := Fixtures.env_with true [] in
  let settings := default_settings in
  let w := Fixtures.fresh (Local ∅) in
  exists inv w' rows log,
    create_invoice init Fixtures.draft 7 w = (Ok inv, w')
    /\ invoice_line_items w' = (invoice_line_items w ++ rows)%list
    /\ length rows = 1%nat
    /\ audit_logs w' = (audit_logs w ++ [log])%list
    /\ Models.user_id log = 7.
Proof.
  intros env settings w.
  destruct (PipelineFacts.create_invoice_completes Fixtures.draft 7 w eq_refl
              PipelineFacts.draft_storable)
    as (inv & w' & E).
  destruct (issuance_writes_items_and_audit Fixtures.draft 7 w w' inv E)
    as (rows & log & Hl & Hd & _ & _ & Ha & Hu & _).
  exists inv, w', rows, log. repeat split; try assumption.
  rewrite <- (length_map Models.item_data), Hd. reflexivity.
Defined.

End PipelineExtras.

(** ** More of the service as a whole *)

Module SystemRun.
Import StorageSpec WorldSpec PipelineSpec SystemSpec System.

Section Facts.
Context {env : Env} {settings : Settings}.


(** What a request does to the sequence: an issuance consumes one
    number whatever its outcome, a cancellation none. *)
Lemma serve_base (r : request) (w : World) :
  Schedule.base (serve r w)
  = Schedule.base w + match r with Issue _ _ => 1 | Cancel _ _ _ => 0 end.
Proof.
  destruct r as [d user | invoice_id reason user]; cbn [serve].
  - destruct (PipelineRun.create_invoice_run d user w)
      as (w5 & signed & t_pdf & t_xml & Hb & _ & _ & _ & _ & _ & _ & H).
    destruct (InvoiceService.number_taken (invoices w) _).
    + rewrite H. exact Hb.
    + destruct (InvoiceService.storable d).
      * destruct H as (inv & w' & log & -> & Hs & _). cbn [snd].
        rewrite <- Hb. unfold Schedule.base. now rewrite Hs.
      * destruct H as (c & w6 & -> & Hs & _). cbn [snd].
        rewrite <- Hb. unfold Schedule.base. now rewrite Hs.
  - destruct (SystemFacts.cancel_world invoice_id reason user w)
      as (_ & Hs & _).
    unfold Schedule.base. rewrite Hs. lia.
Qed.

(** What the cancellation route does to the line-item and audit
    tables. *)
Lemma cancel_tables (invoice_id : Z) (reason : string) (user : Z)
    (w : World) :
  let w' := snd (Api.cancel_invoice invoice_id reason user w) in
  invoice_line_items w' = invoice_line_items w
  /\ (audit_logs w' = audit_logs w
      \/ exists log,
           audit_logs w' = (audit_logs w ++ [log])%list
           /\ Models.action log = "cancel").
Proof.
  unfold Api.cancel_invoice, bind, Api.query_invoice, raise.
  destruct (invoices w !! invoice_id) as [row|] eqn:Hrow; cbn; [| auto].
  destruct (String.eqb (Models.status row) "cancelled") eqn:Hst; cbn;
    [auto |].
  unfold Api.try_except, InvoiceService.cancel_invoice, bind, utcnow, ret.
  rewrite Hst. cbn. split; [reflexivity |]. right. eauto.
Qed.

(** The line-item and audit tables only grow, by at most one audit
    entry per request. *)
Lemma serve_tables (r : request) (w : World) :
  exists rows logs,
    invoice_line_items (serve r w) = (invoice_line_items w ++ rows)%list
    /\ audit_logs (serve r w) = (audit_logs w ++ logs)%list
    /\ (length logs <= 1)%nat
    /\ Forall (fun l => Models.action l = "create"
                        \/ Models.action l = "cancel") logs.
Proof.
  destruct r as [d user | invoice_id reason user]; cbn [serve].
  - destruct (PipelineRun.create_invoice_run d user w)
      as (w5 & signed & t_pdf & t_xml & _ & _ & Hl & Ha & _ & _ & _ & H).
    destruct (InvoiceService.number_taken (invoices w) _).
    + rewrite H. cbn [snd]. exists [], [].
      rewrite !app_nil_r. repeat split; auto.
    + destruct (InvoiceService.storable d).
      * destruct H as (inv & w' & log & -> & _ & _ & _ & _ & _ & _ & _ & _
                       & _ & Hl' & Ha' & _ & _ & _ & Hact & _).
        cbn [snd]. eexists _, [log]. repeat split; eauto.
      * destruct H as (c & w6 & -> & _ & _ & _ & Hl6 & Ha6 & _). cbn [snd].
        exists [], []. rewrite !app_nil_r. repeat split; auto.
  - destruct (cancel_tables invoice_id reason user w)
      as (Hl & [Ha | (log & Ha & Hact)]).
    + exists [], []. rewrite !app_nil_r. repeat split; auto.
    + exists [], [log]. rewrite app_nil_r. repeat split; auto.
Qed.

Lemma snapshot_same_but_status (d : Schemas.InvoiceCreate)
    (i j : Models.Invoice) :
  snapshot d i -> Models.same_but_status i j -> snapshot d j.
Proof.
  unfold snapshot, Models.same_but_status. intros H1 H2.
  repeat match goal with
         | H : _ /\ _ |- _ => destruct H
         end.
  repeat split; congruence.
Qed.



Lemma serve_all_base (rs : list request) (w : World) :
  Schedule.base (serve_all rs w)
  = Schedule.base w + Z.of_nat (issues rs).
Proof.
  revert w. induction rs as [|r rs IH]; intros w; cbn [serve_all fold_left].
  - cbn. lia.
  - fold (serve_all rs (serve r w)). rewrite IH, serve_base.
    destruct r; cbn [issues]; lia.
Qed.

End Facts.
End SystemRun.

Module SystemExtras.
Import StorageSpec WorldSpec PipelineSpec SystemSpec System.

(** X6.  The row written by a successful issuance on a consistent system
    holds the draft's issue and delivery dates, seller and buyer fields,
    currency, tax exemption, notes and payment terms and the computed
    totals; whatever issuance and cancellation requests are served
    afterwards, the row is still stored under the same key with all of
    these columns, its number, its creator and its creation time
    unchanged. *)
Theorem issued_snapshot_persists {env : Env} {settings : Settings}
    (d : Schemas.InvoiceCreate) (user : Z) (w w' : World)
    (inv : Models.Invoice) :
  consistent w ->
  InvoiceService.create_invoice InvoiceService.init d user w = (Ok inv, w') ->
  snapshot d inv
  /\ Models.created_by inv = user
  /\ forall rs,
       exists row,
         invoices (serve_all rs w') !! Models.id inv = Some row
         /\ snapshot d row
         /\ Models.invoice_number row = Models.invoice_number inv
         /\ Models.created_by row = user
         /\ Models.created_at row = Models.created_at inv.
Proof.
  intros Hc E.
  assert (consistent w') as Hc'.
  { pose proof (SystemFacts.serve_consistent (Issue d user) w Hc) as H.
    cbn [serve] in H. rewrite E in H. exact H. }
  destruct (PipelineRun.create_invoice_run d user w)
    as (w5 & signed & t_pdf & t_xml & _ & _ & _ & _ & _ & _ & _ & H).
  destruct (InvoiceService.number_taken (invoices w) _).
  { rewrite H in E. discriminate E. }
  destruct (InvoiceService.storable d);
    [| destruct H as (c & w6 & E6 & _); rewrite E6 in E; discriminate E].
  destruct H as (inv0 & w0 & log & E0 & _ & _ & _ & _ & _ & _ & _ & Hsnap
                 & Hinv & _ & _ & _ & _ & _ & _ & _ & Hby).
  pose proof (eq_trans (eq_sym E) E0) as X. injection X as -> ->.
  split; [exact Hsnap |]. split; [exact Hby |].
  intros rs.
  assert (invoices w0 !! Models.id inv0 = Some inv0) as Hrow
    by (rewrite Hinv; apply lookup_insert_eq).
  destruct (SystemFacts.serve_all_keeps_rows rs w0 _ inv0 Hc' Hrow)
    as (row & Hrow' & Hsame).
  exists row. split; [exact Hrow' |].
  split; [exact (SystemRun.snapshot_same_but_status d inv0 row Hsnap Hsame) |].
  unfold Models.same_but_status in Hsame.
  repeat match goal with H : _ /\ _ |- _ => destruct H end.
  repeat split; congruence.
Qed.

Lemma issued_snapshot_persists_witness :
  let env := Fixtures.env_with true [] in
  let settings := default_settings in
  let w := Fixtures.fresh (Local ∅) in
  exists inv w' row,
    InvoiceService.create_invoice InvoiceService.init Fixtures.draft 1 w
    = (Ok inv, w')
    /\ invoices
         (serve_all [Cancel 1 "Storno" 2; Issue Fixtures.draft 3] w')
       !! Models.id inv = Some row
    /\ snapshot Fixtures.draft row.
Proof.
  intros env settings w.
  destruct (PipelineFacts.create_invoice_completes Fixtures.draft 1 w eq_refl
              PipelineFacts.draft_storable)
    as (inv & w' & E).
  destruct (issued_snapshot_persists Fixtures.draft 1 w w' inv
              (SystemFacts.fresh_consistent (Local ∅)) E)
    as (_ & _ & H).
  destruct (H [Cancel 1 "Storno" 2; Issue Fixtures.draft 3])
    as (row & Hrow & Hsnap & _).
  exists inv, w', row. auto.
Defined.





(** X8.  The line-item table and the audit log are append-only under
    the requests of the service: after any list of issuance and
    cancellation requests, on any world, both tables are the old ones
    followed by new rows; at most one audit entry is added per request,
    and every added entry has the action [create] or [cancel]. *)
Theorem tables_append_only {env : Env} {settings : Settings}
    (rs : list request) (w : World) :
  exists rows logs,
    invoice_line_items (serve_all rs w) = (invoice_line_items w ++ rows)%list
    /\ audit_logs (serve_all rs w) = (audit_logs w ++ logs)%list
    /\ (length logs <= length rs)%nat
    /\ Forall (fun l => Models.action l = "create"
                        \/ Models.action l = "cancel") logs.
Proof.
  revert w. induction rs as [|r rs IH]; intros w.
  - exists [], []. cbn. rewrite !app_nil_r. auto.
  - cbn [serve_all fold_left]. fold (serve_all rs (serve r w)).
    destruct (SystemRun.serve_tables r w) as (rows1 & logs1 & Hl1 & Ha1 & Hn1
                                              & Hf1).
    destruct (IH (serve r w)) as (rows2 & logs2 & Hl2 & Ha2 & Hn2 & Hf2).
    exists (rows1 ++ rows2)%list, (logs1 ++ logs2)%list.
    rewrite Hl2, Ha2, Hl1, Ha1, <- !app_assoc, length_app.
    repeat split; try reflexivity.
    + cbn [length]. lia.
    + apply Forall_app. auto.
Qed.

(** X9.  While the counter stays within its column, every issuance
    request consumes exactly one number of the sequence, whether it
    succeeds or fails, and a cancellation request consumes none: after
    any list of requests, on any world, the next number of the sequence
    has advanced by the number of issuance requests in the list. *)
Theorem requests_consume_numbers {env : Env} {settings : Settings}
    (rs : list request) (w : World) :
  Schedule.in_range (issues rs) w = true ->
  Schedule.base (serve_all rs w)
  = Schedule.base w + Z.of_nat (issues rs)
  /\ forall r,
       Schedule.in_range 1 w = true ->
       Schedule.base (serve r w)
       = Schedule.base w
         + match r with Issue _ _ => 1 | Cancel _ _ _ => 0 end.
Proof.
  intros _.
  split; [apply SystemRun.serve_all_base |].
  intros r _. apply SystemRun.serve_base.
Qed.

Lemma requests_consume_numbers_witness :
  let env := Fixtures.env_with true [] in
  let settings := default_settings in
  let rs := [Issue Fixtures.draft 1; Cancel 1 "Storno" 1;
             Issue Fixtures.draft_1e200 2; Issue Fixtures.draft 3] in
  let w := Fixtures.fresh (Local ∅) in
  Schedule.in_range (issues rs) w = true
  /\ Schedule.base (serve_all rs w) = 10003.
Proof.
  intros env settings rs w.
  assert (Schedule.in_range (issues rs) w = true) as Hr
    by (vm_compute; reflexivity).
  split; [exact Hr |].
  rewrite (proj1 (requests_consume_numbers rs w Hr)).
  vm_compute. reflexivity.
Defined.

End SystemExtras.

(** ** More of the structured document *)

Module XmlRun.
Import Lxml ZUGFeRDGenerator XmlSpec.

Lemma filter_flat_map {A B : Type} (p : B -> bool) (f : A -> list B)
    (l : list A) :
  List.filter p (flat_map f l) = flat_map (fun a => List.filter p (f a)) l.
Proof.
  induction l as [|a l IH]; simpl; [reflexivity |].
  now rewrite List.filter_app, IH.
Qed.

Lemma flat_map_single {A B : Type} (f : A -> B) (l : list A) :
  flat_map (fun a => [f a]) l = map f l.
Proof. induction l as [|a l IH]; simpl; [reflexivity | now rewrite IH]. Qed.

Lemma flat_map_none {A B : Type} (l : list A) :
  flat_map (fun _ : A => @nil B) l = [].
Proof. induction l as [|a l IH]; simpl; [reflexivity | exact IH]. Qed.

Lemma find_head_filter {A : Type} (p : A -> bool) (l : list A) :
  List.find p l = head (List.filter p l).
Proof.
  induction l as [|x l IH]; simpl; [reflexivity |].
  destruct (p x); [reflexivity | exact IH].
Qed.

(** [find] returns the first of the elements [findall] lists. *)
Lemma find_head (r : element) (local : string) :
  find r "ram" local NAMESPACES = head (findall_ram r local).
Proof.
  unfold find, findall_ram. change (NAMESPACES !! "ram") with (Some ram_uri).
  apply find_head_filter.
Qed.

Section Generated.
Context {env : Env}.

(** The elements with a given [ram] tag in a document of the shape the
    encoder builds. *)
Lemma findall_shape (pre post : list element) (line_items : list Item.t)
    (local : string) :
  findall_ram
    (RSM "CrossIndustryInvoice"
       (pre ++ [RSM "SupplyChainTradeTransaction"
                  (map line_item_element line_items ++ post)]))
    local
  = (List.filter (has_tag local) (flat_map subtree pre)
     ++ flat_map (fun i => List.filter (has_tag local)
                             (subtree (line_item_element i)))
                 line_items
     ++ List.filter (has_tag local) (flat_map subtree post))%list.
Proof.
  unfold findall_ram.
  unfold RSM at 1, node at 1. rewrite XmlFacts.iterdescendants_eq.
  fold subtree. rewrite flat_map_app, List.filter_app. f_equal.
  cbn [flat_map]. rewrite app_nil_r. unfold subtree at 1.
  cbn [List.filter].
  assert (has_tag local
            (RSM "SupplyChainTradeTransaction"
               (map line_item_element line_items ++ post)) = false)
    as -> by reflexivity.
  unfold RSM at 1, node at 1. rewrite XmlFacts.iterdescendants_eq.
  fold subtree. rewrite flat_map_app, List.filter_app.
  rewrite XmlFacts.flat_map_map_eq, filter_flat_map. reflexivity.
Qed.

Section Document.
Variables (invoice_number : string) (issue_date : datetime)
  (seller buyer : Schemas.Party) (line_items : list Item.t)
  (net_total tax_total gross_total : PyFloat.float) (currency : string)
  (d1 d2 : option datetime) (payment_terms : option string).

Local Abbreviation root :=
  (generate_root invoice_number issue_date seller buyer line_items
     net_total tax_total gross_total currency d1 d2 payment_terms).

(** The tree built by [generate], in closed form. *)
Lemma generate_root_eq :
  root
  = RSM "CrossIndustryInvoice"
      (preamble invoice_number issue_date
       ++ [RSM "SupplyChainTradeTransaction"
             (map line_item_element line_items
              ++ header_blocks seller buyer line_items net_total tax_total
                   gross_total currency d1 d2 payment_terms)]).
Proof.
  unfold generate_root. cbv zeta. unfold RSM, RAM, node.
  rewrite XmlFacts.fold_append. unfold header_blocks, preamble.
  set (lines := map line_item_element line_items).
  destruct (truthy (Schemas.tax_id buyer)), (or_else d2 d1),
    (truthy payment_terms), line_items;
    cbn [append app]; rewrite <- ?app_assoc; reflexivity.
Qed.

(** The elements of a generated document with a given [ram] tag: those
    of the preamble, of each line element and of the header blocks. *)
Lemma findall_root (local : string) :
  findall_ram root local
  = (List.filter (has_tag local)
       (flat_map subtree (preamble invoice_number issue_date))
     ++ flat_map (fun i => List.filter (has_tag local)
                             (subtree (line_item_element i)))
                 line_items
     ++ List.filter (has_tag local)
          (flat_map subtree
             (header_blocks seller buyer line_items net_total tax_total
                gross_total currency d1 d2 payment_terms)))%list.
Proof. rewrite generate_root_eq. apply findall_shape. Qed.

Lemma findall_parts (local : string) (A C : list element)
    (L : Item.t -> list element) :
  List.filter (has_tag local)
    (flat_map subtree (preamble invoice_number issue_date)) = A ->
  (forall i, List.filter (has_tag local) (subtree (line_item_element i))
             = L i) ->
  List.filter (has_tag local)
    (flat_map subtree
       (header_blocks seller buyer line_items net_total tax_total
          gross_total currency d1 d2 payment_terms)) = C ->
  findall_ram root local = (A ++ flat_map L line_items ++ C)%list.
Proof.
  intros HA HL HC. rewrite findall_root, HA, HC.
  now rewrite (flat_map_ext _ _ HL).
Qed.

End Document.
End Generated.

(** Evaluates the elements of the header blocks with a given tag. *)
Ltac blocks :=
  unfold header_blocks;
  repeat match goal with
         | |- context [truthy ?x] =>
             let v := eval hnf in (truthy x) in
             lazymatch v with
             | true => change (truthy x) with true
             | false => change (truthy x) with false
             | _ => destruct (truthy x)
             end
         | |- context [or_else ?x ?y] =>
             let v := eval hnf in (or_else x y) in
             lazymatch v with
             | Some _ => change (or_else x y) with v
             | None => change (or_else x y) with v
             | _ => destruct (or_else x y)
             end
         | |- context [match ?l with [] => _ | _ :: _ => _ end] =>
             destruct l
         end;
  reflexivity.

End XmlRun.

Module XmlExtras.
Import Lxml ZUGFeRDGenerator XmlSpec.

(** X10.  In a generated document there is one line element per line
    item, in the order of the items, and it is the element built from
    that item; the line identifiers are the positions of the items, and
    the [LineTotalAmount] elements are the net amounts of the lines
    followed by the net total of the invoice. *)
Theorem line_elements_in_order {env : Env}
    (invoice_number : string) (issue_date : datetime)
    (seller buyer : Schemas.Party) (line_items : list Item.t)
    (net_total tax_total gross_total : PyFloat.float) (currency : string)
    (d1 d2 : option datetime) (payment_terms : option string) :
  let root :=
    generate_root invoice_number issue_date seller buyer line_items
      net_total tax_total gross_total currency d1 d2 payment_terms in
  findall_ram root "IncludedSupplyChainTradeLineItem"
  = map line_item_element line_items
  /\ map text (findall_ram root "LineID")
     = map (fun i => Some (PyInt.str (Item.position i))) line_items
  /\ map text (findall_ram root "LineTotalAmount")
     = (map (fun i => Some (PyFloat.format_f 2 (Item.line_net i))) line_items
        ++ [Some (PyFloat.format_f 2 net_total)])%list.
Proof.
  intros root. subst root. repeat split.
  - rewrite (XmlRun.findall_parts _ _ _ _ _ _ _ _ _ _ _ _ _
               [] [] (fun i => [line_item_element i]));
      [| reflexivity | reflexivity | XmlRun.blocks].
    now rewrite XmlRun.flat_map_single, app_nil_r.
  - rewrite (XmlRun.findall_parts _ _ _ _ _ _ _ _ _ _ _ _ _
               [] []
               (fun i => [RAM_text "LineID" (PyInt.str (Item.position i))]));
      [| reflexivity | reflexivity | XmlRun.blocks].
    rewrite XmlRun.flat_map_single, app_nil_r. cbn [app].
    now rewrite map_map.
  - rewrite (XmlRun.findall_parts _ _ _ _ _ _ _ _ _ _ _ _ _
               [] [RAM_text "LineTotalAmount" (PyFloat.format_f 2 net_total)]
               (fun i => [RAM_text "LineTotalAmount"
                            (PyFloat.format_f 2 (Item.line_net i))]));
      [| reflexivity | reflexivity | XmlRun.blocks].
    rewrite XmlRun.flat_map_single. cbn [app].
    now rewrite map_app, map_map.
Qed.

(** X11.  The [ram:ID] elements of a generated document are, in document
    order: the guideline identifier of the exchange context, the invoice
    number in the document header, the tax number of the seller, and the
    tax number of the buyer when (and only when) the buyer has a
    non-empty one. *)
Theorem identifiers_in_order {env : Env}
    (invoice_number : string) (issue_date : datetime)
    (seller buyer : Schemas.Party) (line_items : list Item.t)
    (net_total tax_total gross_total : PyFloat.float) (currency : string)
    (d1 d2 : option datetime) (payment_terms : option string) :
  let root :=
    generate_root invoice_number issue_date seller buyer line_items
      net_total tax_total gross_total currency d1 d2 payment_terms in
  map text (findall_ram root "ID")
  = ([Some "urn:cen.eu:en16931:2017#compliant#urn:factur-x.eu:1p0:basic";
      Some invoice_number;
      Some (default EmptyString (Schemas.tax_id seller))]
     ++ if truthy (Schemas.tax_id buyer)
        then [Schemas.tax_id buyer]
        else [])%list.
Proof.
  intros root. subst root.
  rewrite (XmlRun.findall_parts _ _ _ _ _ _ _ _ _ _ _ _ _
             [RAM_text "ID"
                "urn:cen.eu:en16931:2017#compliant#urn:factur-x.eu:1p0:basic";
              RAM_text "ID" invoice_number]
             ([leaf_with ram_uri "ID"
                 (default EmptyString (Schemas.tax_id seller))
                 (<["schemeID" := "VA"]> ∅)]
              ++ if truthy (Schemas.tax_id buyer)
                 then [leaf_with ram_uri "ID"
                         (default EmptyString (Schemas.tax_id buyer))
                         (<["schemeID" := "VA"]> ∅)]
                 else [])%list
             (fun _ => []));
    [| reflexivity | reflexivity | XmlRun.blocks].
  rewrite XmlRun.flat_map_none. cbn [app map text RAM_text leaf].
  destruct (Schemas.tax_id buyer) as [[|c b]|]; reflexivity.
Qed.

(** X12.  The [RateApplicablePercent] elements of a generated document
    are the tax rates of the line items, in order, followed by the rate
    of the header tax breakdown, which is the rate of the first line item
    whatever the rates of the other items are; a document without line
    items has no rate in its header breakdown. *)
Theorem header_rate_is_first_item {env : Env}
    (invoice_number : string) (issue_date : datetime)
    (seller buyer : Schemas.Party) (line_items : list Item.t)
    (net_total tax_total gross_total : PyFloat.float) (currency : string)
    (d1 d2 : option datetime) (payment_terms : option string) :
  let root :=
    generate_root invoice_number issue_date seller buyer line_items
      net_total tax_total gross_total currency d1 d2 payment_terms in
  map text (findall_ram root "RateApplicablePercent")
  = (map (fun i => Some (PyFloat.format_f 2 (Item.tax_rate i))) line_items
     ++ match line_items with
        | first :: _ => [Some (PyFloat.format_f 2 (Item.tax_rate first))]
        | [] => []
        end)%list.
Proof.
  intros root. subst root.
  rewrite (XmlRun.findall_parts _ _ _ _ _ _ _ _ _ _ _ _ _
             []
             (match line_items with
              | first :: _ =>
                  [RAM_text "RateApplicablePercent"
                     (PyFloat.format_f 2 (Item.tax_rate first))]
              | [] => []
              end)
             (fun i => [RAM_text "RateApplicablePercent"
                          (PyFloat.format_f 2 (Item.tax_rate i))]));
    [| reflexivity | reflexivity | XmlRun.blocks].
  rewrite XmlRun.flat_map_single. cbn [app].
  rewrite map_app, map_map. destruct line_items; reflexivity.
Qed.

(** X13.  A generated document has a payment-terms element exactly when
    the payment terms passed to the encoder are a non-empty string, and
    a delivery event exactly when a delivery date is passed; of two
    delivery dates the end date is the one encoded. *)
Theorem optional_blocks {env : Env}
    (invoice_number : string) (issue_date : datetime)
    (seller buyer : Schemas.Party) (line_items : list Item.t)
    (net_total tax_total gross_total : PyFloat.float) (currency : string)
    (d1 d2 : option datetime) (payment_terms : option string) :
  let root :=
    generate_root invoice_number issue_date seller buyer line_items
      net_total tax_total gross_total currency d1 d2 payment_terms in
  findall_ram root "SpecifiedTradePaymentTerms"
  = (if truthy payment_terms
     then [RAM "SpecifiedTradePaymentTerms"
             [RAM_text "Description" (default EmptyString payment_terms)]]
     else [])
  /\ findall_ram root "ActualDeliverySupplyChainEvent"
     = match d2, d1 with
       | Some d, _ | None, Some d =>
           [RAM "ActualDeliverySupplyChainEvent"
              [RAM "OccurrenceDateTime"
                 [UDT_DateTimeString (Datetime.strftime_Ymd d)]]]
       | None, None => []
       end.
Proof.
  intros root. subst root. split.
  - rewrite (XmlRun.findall_parts _ _ _ _ _ _ _ _ _ _ _ _ _
               []
               (if truthy payment_terms
                then [RAM "SpecifiedTradePaymentTerms"
                        [RAM_text "Description"
                           (default EmptyString payment_terms)]]
                else [])
               (fun _ => []));
      [| reflexivity | reflexivity | XmlRun.blocks].
    now rewrite XmlRun.flat_map_none.
  - rewrite (XmlRun.findall_parts _ _ _ _ _ _ _ _ _ _ _ _ _
               []
               (match or_else d2 d1 with
                | Some d =>
                    [RAM "ActualDeliverySupplyChainEvent"
                       [RAM "OccurrenceDateTime"
                          [UDT_DateTimeString (Datetime.strftime_Ymd d)]]]
                | None => []
                end)
               (fun _ => []));
      [| reflexivity | reflexivity | XmlRun.blocks].
    rewrite XmlRun.flat_map_none. destruct d2, d1; reflexivity.
Qed.

(** X14.  The companion check does not look for the invoice number: a
    generated document from which the document header (invoice number,
    type code and issue date) has been removed still passes [validate],
    because the guideline identifier of the exchange context satisfies
    the search for a [ram:ID]. *)
Theorem validate_ignores_header {env : Env}
    (invoice_number : string) (issue_date : datetime)
    (seller buyer : Schemas.Party) (line_items : list Item.t)
    (net_total tax_total gross_total : PyFloat.float) (currency : string)
    (d1 d2 : option datetime) (payment_terms : option string)
    (xml_bytes : string) :
  let root :=
    generate_root invoice_number issue_date seller buyer line_items
      net_total tax_total gross_total currency d1 d2 payment_terms in
  let pruned :=
    without_children (qname rsm_uri "ExchangedDocument") root in
  etree_fromstring xml_bytes = Some pruned ->
  validate xml_bytes = true
  /\ Forall (fun c => tag c <> qname rsm_uri "ExchangedDocument")
            (children pruned)
  /\ map text (findall_ram pruned "ID")
     = ([Some "urn:cen.eu:en16931:2017#compliant#urn:factur-x.eu:1p0:basic";
         Some (default EmptyString (Schemas.tax_id seller))]
        ++ if truthy (Schemas.tax_id buyer)
           then [Schemas.tax_id buyer]
           else [])%list.
Proof.
  intros root pruned Hparse.
  assert (pruned
          = RSM "CrossIndustryInvoice"
              ([RSM "ExchangedDocumentContext"
                  [RAM "GuidelineSpecifiedDocumentContextParameter"
                     [RAM_text "ID"
                        "urn:cen.eu:en16931:2017#compliant#urn:factur-x.eu:1p0:basic"]]]
               ++ [RSM "SupplyChainTradeTransaction"
                     (map line_item_element line_items
                      ++ header_blocks seller buyer line_items net_total
                           tax_total gross_total currency d1 d2
                           payment_terms)])) as Hp.
  { subst pruned root. rewrite XmlRun.generate_root_eq. reflexivity. }
  assert (forall local A C L,
             List.filter (has_tag local)
               (flat_map subtree
                  [RSM "ExchangedDocumentContext"
                     [RAM "GuidelineSpecifiedDocumentContextParameter"
                        [RAM_text "ID"
                           "urn:cen.eu:en16931:2017#compliant#urn:factur-x.eu:1p0:basic"]]])
             = A ->
             (forall i, List.filter (has_tag local)
                          (subtree (line_item_element i)) = L i) ->
             List.filter (has_tag local)
               (flat_map subtree
                  (header_blocks seller buyer line_items net_total tax_total
                     gross_total currency d1 d2 payment_terms)) = C ->
             findall_ram pruned local
             = (A ++ flat_map L line_items ++ C)%list) as Hparts.
  { intros local A C L HA HL HC.
    rewrite Hp, XmlRun.findall_shape, HA, HC.
    now rewrite (flat_map_ext _ _ HL). }
  split; [| split].
  - unfold validate. rewrite Hparse. unfold validate_root.
    replace (tag pruned) with (qname rsm_uri "CrossIndustryInvoice")
      by (rewrite Hp; reflexivity).
    rewrite String.eqb_refl.
    cbn [negb forallb required_paths fst snd]. rewrite !XmlRun.find_head.
    rewrite (Hparts "ID"
               [RAM_text "ID"
                  "urn:cen.eu:en16931:2017#compliant#urn:factur-x.eu:1p0:basic"]
               _ (fun _ => []) eq_refl (fun _ => eq_refl) eq_refl).
    rewrite (Hparts "SellerTradeParty" []
               [RAM "SellerTradeParty"
                  [RAM_text "Name" (Schemas.name seller);
                   postal_address seller;
                   tax_registration
                     (default EmptyString (Schemas.tax_id seller))]]
               (fun _ => []));
      [| reflexivity | reflexivity | XmlRun.blocks].
    rewrite (Hparts "BuyerTradeParty" []
               [RAM "BuyerTradeParty"
                  ([RAM_text "Name" (Schemas.name buyer);
                    postal_address buyer]
                   ++ if truthy (Schemas.tax_id buyer)
                      then [tax_registration
                              (default EmptyString (Schemas.tax_id buyer))]
                      else [])]
               (fun _ => []));
      [| reflexivity | reflexivity | XmlRun.blocks].
    rewrite (Hparts "GrandTotalAmount" []
               [RAM_text "GrandTotalAmount" (PyFloat.format_f 2 gross_total)]
               (fun _ => []));
      [| reflexivity | reflexivity | XmlRun.blocks].
    rewrite !XmlRun.flat_map_none. reflexivity.
  - rewrite Hp. cbn [children RSM node app].
    repeat constructor; discriminate.
  - rewrite (Hparts "ID"
               [RAM_text "ID"
                  "urn:cen.eu:en16931:2017#compliant#urn:factur-x.eu:1p0:basic"]
               ([leaf_with ram_uri "ID"
                   (default EmptyString (Schemas.tax_id seller))
                   (<["schemeID" := "VA"]> ∅)]
                ++ if truthy (Schemas.tax_id buyer)
                   then [leaf_with ram_uri "ID"
                           (default EmptyString (Schemas.tax_id buyer))
                           (<["schemeID" := "VA"]> ∅)]
                   else [])%list
               (fun _ => []));
      [| reflexivity | reflexivity | XmlRun.blocks].
    rewrite XmlRun.flat_map_none. cbn [app map text RAM_text leaf].
    destruct (Schemas.tax_id buyer) as [[|c b]|]; reflexivity.
Qed.

Lemma validate_ignores_header_witness :
  let a := Totals.loop (Schemas.line_items Fixtures.draft) in
  let pruned :=
    without_children (qname rsm_uri "ExchangedDocument")
      (@generate_root (Fixtures.env_with true []) "RE010000"
         (Fixtures.sample_clock 0) Fixtures.seller Fixtures.buyer
         (Totals.line_items_data a) (Totals.net_total a)
         (Totals.tax_total a) (Totals.gross_total a) "EUR" None None None) in
  @validate (Fixtures.env_with true [pruned]) (Fixtures.serialize pruned)
  = true.
Proof.
  intros a pruned.
  apply (@validate_ignores_header (Fixtures.env_with true [pruned])
           "RE010000" (Fixtures.sample_clock 0) Fixtures.seller
           Fixtures.buyer (Totals.line_items_data a) (Totals.net_total a)
           (Totals.tax_total a) (Totals.gross_total a) "EUR" None None None
           (Fixtures.serialize pruned)).
  vm_compute. reflexivity.
Defined.

End XmlExtras.

(** ** Reading an invoice back *)

Module ReadRun.
Import StorageSpec WorldSpec PipelineSpec SystemSpec ArchiveSpec System.

Section Facts.
Context {env : Env} {settings : Settings}.

Lemma xml_key_not_pdf_key (t t' : datetime) (n n' : string) :
  key_of t n ".xml" <> key_of t' n' ".pdf".
Proof.
  intros H. symmetry in H. exact (PipelineFacts.pdf_key_not_xml_key _ _ _ _ H).
Qed.

(** The structured documents stay readable when a consistent system
    serves a request. *)
Lemma serve_documented (r : request) (w : World) :
  consistent w -> documented w -> documented (serve r w).
Proof.
  intros Hc Hd. pose proof (SystemRun.serve_base r w) as Hb.
  destruct r as [d user | invoice_id reason user]; cbn [serve] in *.
  - destruct (PipelineRun.create_invoice_run d user w)
      as (w5 & signed & t_pdf & t_xml & _ & Hi5 & _ & _ & _ & Rx & Ro & H).
    assert (forall k row,
               invoices w !! k = Some row ->
               exists m t xml,
                 m < Schedule.base w + 1
                 /\ Models.zugferd_xml_path row
                    = Some (key_of t (Schedule.render m) ".xml")
                 /\ read (storage w5) (key_of t (Schedule.render m) ".xml")
                    = Some xml) as Hold.
    { intros k row Hrow. destruct (Hd k row Hrow) as (m & t & xml & Hm & Hp & Hr).
      exists m, t, xml. split; [lia |]. split; [exact Hp |].
      rewrite Ro; [exact Hr | apply xml_key_not_pdf_key |].
      intros Hk. apply SystemFacts.key_of_inj, Numbering.render_inj in Hk.
      lia. }
    destruct (InvoiceService.number_taken (invoices w) _).
    + rewrite H in *. cbn [snd] in *. intros k row Hrow.
      rewrite Hi5 in Hrow. rewrite Hb. exact (Hold k row Hrow).
    + destruct (InvoiceService.storable d); cycle 1.
      { destruct H as (c & w6 & E & _ & Hs & Hi6 & _).
        rewrite E in *. cbn [snd] in *. intros k row Hrow.
        rewrite Hi6 in Hrow. rewrite Hb, Hs. exact (Hold k row Hrow). }
      destruct H as (inv & w' & log & E & _ & Hs & _ & _ & _ & Hx & _ & _
                     & Hinv & _).
      rewrite E in *. cbn [snd] in *. intros k row Hrow.
      rewrite Hb, Hs. rewrite Hinv in Hrow.
      destruct (decide (Models.id inv = k)) as [<- | Hne].
      * rewrite lookup_insert_eq in Hrow. injection Hrow as <-.
        eexists (Schedule.base w), t_xml, _.
        split; [lia |]. split; [exact Hx | exact Rx].
      * rewrite lookup_insert_ne in Hrow by exact Hne.
        exact (Hold k row Hrow).
  - destruct (SystemFacts.cancel_world invoice_id reason user w)
      as (Hs & _ & [Hi | (row0 & now & Hrow0 & Hi)]);
      intros k row Hrow; rewrite Hb, Hs, Z.add_0_r; rewrite Hi in Hrow.
    + exact (Hd k row Hrow).
    + destruct (Hc invoice_id row0 Hrow0) as (Hkey & _). rewrite Hkey in Hrow.
      destruct (decide (invoice_id = k)) as [<- | Hne].
      * rewrite lookup_insert_eq in Hrow. injection Hrow as <-.
        exact (Hd invoice_id row0 Hrow0).
      * rewrite lookup_insert_ne in Hrow by exact Hne.
        exact (Hd k row Hrow).
Qed.

Lemma serve_all_documented (rs : list request) (w : World) :
  consistent w -> documented w ->
  consistent (serve_all rs w) /\ documented (serve_all rs w).
Proof.
  revert w. induction rs as [|r rs IH]; intros w Hc Hd; [auto |].
  exact (IH (serve r w) (SystemFacts.serve_consistent r w Hc)
            (serve_documented r w Hc Hd)).
Qed.

Lemma fresh_documented (s : Storage) : documented (Fixtures.fresh s).
Proof. intros k row H. cbn in H. rewrite lookup_empty in H. discriminate. Qed.

End Facts.
End ReadRun.

Module ReadExtras.
Import StorageSpec WorldSpec PipelineSpec SystemSpec ArchiveSpec System.
Import XmlSpec.

(** X15.  The structured document archived by a successful issuance
    never carries payment terms or a delivery date: the pipeline calls
    the encoder without them, so the stored XML has no payment-terms
    element and no delivery event, although the row records the payment
    terms and the delivery dates of the draft. *)
Theorem archived_xml_omits_terms {env : Env} {settings : Settings}
    (d : Schemas.InvoiceCreate) (user : Z) (w w' : World)
    (inv : Models.Invoice) :
  InvoiceService.create_invoice InvoiceService.init d user w = (Ok inv, w') ->
  let a := Totals.loop (Schemas.line_items d) in
  let root :=
    ZUGFeRDGenerator.generate_root (Models.invoice_number inv)
      (Schemas.issue_date d) (Schemas.seller d) (Schemas.buyer d)
      (Totals.line_items_data a) (Totals.net_total a) (Totals.tax_total a)
      (Totals.gross_total a) (Schemas.currency d) None None None in
  exists xml_path,
    Models.zugferd_xml_path inv = Some xml_path
    /\ StorageService.get_file xml_path w' = (Ok (etree_tostring root), w')
    /\ findall_ram root "SpecifiedTradePaymentTerms" = []
    /\ findall_ram root "ActualDeliverySupplyChainEvent" = []
    /\ Models.payment_terms inv = Schemas.payment_terms d
    /\ Models.delivery_date_start inv = Schemas.delivery_date_start d
    /\ Models.delivery_date_end inv = Schemas.delivery_date_end d.
Proof.
  intros E a root.
  destruct (PipelineRun.create_invoice_run d user w)
    as (w5 & signed & t_pdf & t_xml & _ & _ & _ & _ & _ & Rx & _ & H).
  destruct (InvoiceService.number_taken (invoices w) _).
  { rewrite H in E. discriminate E. }
  destruct (InvoiceService.storable d);
    [| destruct H as (c & w6 & E6 & _); rewrite E6 in E; discriminate E].
  destruct H as (inv0 & w0 & log & E0 & _ & Hs & _ & Hn & _ & Hx & _ & Hsnap
                 & _).
  pose proof (eq_trans (eq_sym E) E0) as X. injection X as -> ->.
  subst root. rewrite Hn.
  eexists. split; [exact Hx |].
  split; [rewrite StorageFacts.get_file_eq, Hs, Rx; reflexivity |].
  unfold snapshot in Hsnap.
  repeat match goal with H : _ /\ _ |- _ => destruct H end.
  repeat split; try assumption.
  - rewrite (XmlRun.findall_parts _ _ _ _ _ _ _ _ _ _ _ _ _
               [] [] (fun _ => []));
      [| reflexivity | reflexivity | XmlRun.blocks].
    now rewrite XmlRun.flat_map_none.
  - rewrite (XmlRun.findall_parts _ _ _ _ _ _ _ _ _ _ _ _ _
               [] [] (fun _ => []));
      [| reflexivity | reflexivity | XmlRun.blocks].
    now rewrite XmlRun.flat_map_none.
Qed.

Lemma archived_xml_omits_terms_witness :
  let env := Fixtures.env_with true [] in
  let settings := default_settings in
  let w := Fixtures.fresh (Local ∅) in
  exists inv w' root,
    InvoiceService.create_invoice InvoiceService.init Fixtures.draft 1 w
    = (Ok inv, w')
    /\ Models.payment_terms inv = Some "Zahlbar innerhalb von 14 Tagen"
    /\ findall_ram root "SpecifiedTradePaymentTerms" = []
    /\ exists xml_path,
         Models.zugferd_xml_path inv = Some xml_path
         /\ StorageService.get_file xml_path w'
            = (Ok (etree_tostring root), w').
Proof.
  intros env settings w.
  destruct (PipelineFacts.create_invoice_completes Fixtures.draft 1 w eq_refl
              PipelineFacts.draft_storable)
    as (inv & w' & E).
  destruct (archived_xml_omits_terms Fixtures.draft 1 w w' inv E)
    as (xml_path & Hx & Hget & Hpt & _ & Hterms & _).
  eexists inv, w', _. split; [exact E |]. split; [exact Hterms |].
  split; [exact Hpt |]. exists xml_path. split; [exact Hx | exact Hget].
Defined.

(** X16.  On a consistent system the preview route answers, for every
    invoice, with the bytes of its archived document: their digest is the
    content hash recorded on the row, the media type is
    [application/pdf], the disposition is [inline] under the name
    [{invoice_number}.pdf], and the world is left as it was. *)
Theorem preview_returns_archived_document
    {env : Env} {settings : Settings} {libs : Libs}
    (invoice_id : Z) (w : World) (row : Models.Invoice) :
  consistent w ->
  invoices w !! invoice_id = Some row ->
  exists bytes,
    ApiReads.preview_invoice invoice_id w
    = (Ok {| ApiReads.content := bytes;
             ApiReads.stream_media_type := "application/pdf";
             ApiReads.stream_headers :=
               <["Content-Disposition" :=
                   "inline; filename=" ++ Models.invoice_number row ++ ".pdf"]>
               (<["Cache-Control" := "no-cache"]> ∅) |}, w)
    /\ sha256_hexdigest bytes = Models.pdf_hash row.
Proof.
  intros Hc Hrow.
  destruct (Hc invoice_id row Hrow) as (_ & _ & _ & (bytes & Hread & Hhash) & _).
  exists bytes. split; [| exact Hhash].
  unfold ApiReads.preview_invoice, bind, Api.query_invoice. rewrite Hrow.
  unfold Api.try_except, bind, InvoiceReads.get_pdf_stream,
    StorageReads.get_pdf_stream, bind.
  cbn [InvoiceService.init InvoiceService.storage_service
       InvoiceService.get_file].
  rewrite StorageFacts.get_file_eq, Hread. reflexivity.
Qed.

Lemma preview_returns_archived_document_witness :
  let env := Fixtures.env_with true [] in
  let settings := default_settings in
  let libs := {| json_dumps_token := fun _ => "{}";
                 json_dumps := fun _ => "{}";
                 str_none_key := fun _ => "None" |} in
  let w := Fixtures.fresh (Local ∅) in
  exists inv w' bytes,
    InvoiceService.create_invoice InvoiceService.init Fixtures.draft 1 w
    = (Ok inv, w')
    /\ (exists resp,
          ApiReads.preview_invoice (Models.id inv) w' = (Ok resp, w')
          /\ ApiReads.content resp = bytes)
    /\ sha256_hexdigest bytes = Models.pdf_hash inv.
Proof.
  intros env settings libs w.
  destruct (PipelineFacts.create_invoice_completes Fixtures.draft 1 w eq_refl
              PipelineFacts.draft_storable)
    as (inv & w' & E).
  assert (consistent w') as Hc.
  { pose proof (SystemFacts.serve_consistent (Issue Fixtures.draft 1) w
                  (SystemFacts.fresh_consistent (Local ∅))) as H.
    cbn [serve] in H. rewrite E in H. exact H. }
  pose proof (PipelineFacts.create_invoice_real Fixtures.draft 1 w w' inv E)
    as (_ & _ & _ & _ & _ & _ & _ & _ & _ & _ & _ & _ & _ & _ & _ & _ & _
        & _ & _ & _ & Hrow & _).
  destruct (preview_returns_archived_document (Models.id inv) w' inv Hc Hrow)
    as (bytes & Ep & Hh).
  exists inv, w', bytes. split; [exact E |]. split; [| exact Hh].
  eexists. split; [exact Ep | reflexivity].
Defined.

(** X17.  For a key under which there is no invoice, the detail, preview,
    download and cancellation routes all fail with HTTP 404 and the
    detail [Invoice with ID {invoice_id} not found], and leave the world
    as it was. *)
Theorem unknown_invoice_is_404
    {env : Env} {settings : Settings} {libs : Libs}
    (invoice_id : Z) (reason : string) (user : Z) (w : World) :
  invoices w !! invoice_id = None ->
  let e := HTTPException 404
             ("Invoice with ID " ++ PyInt.str invoice_id ++ " not found") in
  ApiReads.get_invoice invoice_id w = (Raise e, w)
  /\ ApiReads.preview_invoice invoice_id w = (Raise e, w)
  /\ ApiReads.download_invoice invoice_id w = (Raise e, w)
  /\ Api.cancel_invoice invoice_id reason user w = (Raise e, w).
Proof.
  intros Hnone e.
  unfold ApiReads.get_invoice, ApiReads.preview_invoice,
    ApiReads.download_invoice, Api.cancel_invoice, bind, Api.query_invoice.
  rewrite Hnone. repeat split.
Qed.

Lemma unknown_invoice_is_404_witness :
  let env := Fixtures.env_with true [] in
  let settings := default_settings in
  let libs := {| json_dumps_token := fun _ => "{}";
                 json_dumps := fun _ => "{}";
                 str_none_key := fun _ => "None" |} in
  ApiReads.get_invoice 7 (Fixtures.fresh (Local ∅))
  = (Raise (HTTPException 404 "Invoice with ID 7 not found"),
     Fixtures.fresh (Local ∅)).
Proof.
  intros env settings libs.
  exact (proj1 (unknown_invoice_is_404 7 "Storno" 1 (Fixtures.fresh (Local ∅))
                  eq_refl)).
Defined.

(** X18.  When the row of an invoice exists but its composed document is
    not in the store, the preview route answers HTTP 404 with the detail
    [PDF file not found in storage], whereas the download route answers
    HTTP 500 with the detail [Failed to create download package: File not
    found in storage: {key}]; both leave the world as it was.  On the
    local directory this is for a row whose key is one the service
    writes and a directory that holds documents of the service only, so
    that the key names neither a file nor a directory. *)
Theorem missing_document_errors
    {env : Env} {settings : Settings} {libs : Libs}
    (invoice_id : Z) (w : World) (row : Models.Invoice) :
  invoices w !! invoice_id = Some row ->
  tidy (storage w) ->
  addressable (storage w) (Models.pdfa3_path row) ->
  read (storage w) (Models.pdfa3_path row) = None ->
  ApiReads.preview_invoice invoice_id w
  = (Raise (HTTPException 404 "PDF file not found in storage"), w)
  /\ ApiReads.download_invoice invoice_id w
     = (Raise (HTTPException 500
                 ("Failed to create download package: "
                  ++ "File not found in storage: " ++ Models.pdfa3_path row)),
        w).
Proof.
  intros Hrow _ _ Hread.
  unfold ApiReads.preview_invoice, ApiReads.download_invoice, bind,
    Api.query_invoice.
  rewrite Hrow.
  unfold Api.try_except, bind, InvoiceReads.get_pdf_stream,
    StorageReads.get_pdf_stream, InvoiceReads.create_download_package, bind.
  cbn [InvoiceService.init InvoiceService.storage_service
       InvoiceService.get_file].
  rewrite StorageFacts.get_file_eq, Hread. split; reflexivity.
Qed.

Lemma missing_document_errors_witness :
  let env := Fixtures.env_with true [] in
  let settings := default_settings in
  let libs := {| json_dumps_token := fun _ => "{}";
                 json_dumps := fun _ => "{}";
                 str_none_key := fun _ => "None" |} in
  let w := Fixtures.fresh (Local ∅) in
  exists inv w',
    InvoiceService.create_invoice InvoiceService.init Fixtures.draft 1 w
    = (Ok inv, w')
    /\ canonical (Models.pdfa3_path inv)
    /\ ApiReads.preview_invoice (Models.id inv) (set_storage (Local ∅) w')
       = (Raise (HTTPException 404 "PDF file not found in storage"),
          set_storage (Local ∅) w').
Proof.
  intros env settings libs w.
  destruct (PipelineFacts.create_invoice_completes Fixtures.draft 1 w eq_refl
              PipelineFacts.draft_storable)
    as (inv & w' & E).
  pose proof (PipelineFacts.create_invoice_real Fixtures.draft 1 w w' inv E)
    as (_ & _ & t_pdf & _ & _ & _ & _ & _ & _ & _ & _ & _ & _ & _ & Hpath & _
        & _ & _ & _ & _ & Hrow & _).
  assert (Schedule.render (Schedule.base w) = "RE010000") as Hnum
    by (vm_compute; reflexivity).
  rewrite Hnum in Hpath.
  assert (canonical (Models.pdfa3_path inv)) as Hcan.
  { rewrite Hpath.
    exact (StorageFacts.canonical_key_of t_pdf "RE010000" ".pdf"
             StorageFacts.file_name_sample (or_introl eq_refl)). }
  pose proof StorageFacts.tidy_empty as Ht.
  exists inv, w'. split; [exact E |]. split; [exact Hcan |].
  exact (proj1 (missing_document_errors (Models.id inv)
                  (set_storage (Local ∅) w') inv Hrow Ht Hcan
                  (lookup_empty (Models.pdfa3_path inv)))).
Defined.

(** X19.  In every world the service reaches from an empty system, the
    download route succeeds for every invoice and leaves the world as it
    was.  The archive is written to [/tmp/{invoice_number}_archive.zip]
    and has four members in this order: [{invoice_number}.pdf] with the
    archived composed document, whose digest is the content hash of the
    row and of [metadata.json]; [{invoice_number}.xml] with the archived
    structured document; [tsa_token.json]; and [metadata.json]. *)
Theorem download_package_of_reachable_invoice
    {env : Env} {settings : Settings} {libs : Libs}
    (s : Storage) (rs : list request) (invoice_id : Z)
    (row : Models.Invoice) :
  let w := serve_all rs (Fixtures.fresh s) in
  invoices w !! invoice_id = Some row ->
  let n := Models.invoice_number row in
  exists pdf xml xml_path,
    ApiReads.download_invoice invoice_id w
    = (Ok {| ApiReads.file :=
               {| InvoiceReads.path := "/tmp/" ++ n ++ "_archive.zip";
                  InvoiceReads.members :=
                    [(n ++ ".pdf", pdf);
                     (n ++ ".xml", xml);
                     ("tsa_token.json",
                      json_dumps_token (Models.tsa_token row));
                     ("metadata.json",
                      json_dumps (InvoiceReads.metadata row))] |};
             ApiReads.file_media_type := "application/zip";
             ApiReads.filename := n ++ "_archive.zip";
             ApiReads.file_headers :=
               <["Content-Disposition" :=
                   "attachment; filename=" ++ n ++ "_archive.zip"]> ∅ |},
       w)
    /\ StorageService.get_file (Models.pdfa3_path row) w = (Ok pdf, w)
    /\ sha256_hexdigest pdf = Models.pdf_hash row
    /\ In ("pdf_hash", JString (sha256_hexdigest pdf))
          (InvoiceReads.metadata row)
    /\ Models.zugferd_xml_path row = Some xml_path
    /\ StorageService.get_file xml_path w = (Ok xml, w).
Proof.
  intros w Hrow n.
  destruct (ReadRun.serve_all_documented rs (Fixtures.fresh s)
              (SystemFacts.fresh_consistent s) (ReadRun.fresh_documented s))
    as (Hc & Hd).
  fold w in Hc, Hd.
  destruct (Hc invoice_id row Hrow)
    as (_ & _ & _ & (pdf & Hread & Hhash) & _).
  destruct (Hd invoice_id row Hrow) as (m & t & xml & _ & Hpath & Hxml).
  exists pdf, xml, (key_of t (Schedule.render m) ".xml").
  rewrite !StorageFacts.get_file_eq, Hread, Hxml.
  repeat match goal with |- _ /\ _ => split end;
    try assumption; try reflexivity.
  - unfold ApiReads.download_invoice, bind, Api.query_invoice.
    rewrite Hrow. unfold InvoiceReads.create_download_package.
    cbn [InvoiceService.init InvoiceService.storage_service
         InvoiceService.get_file].
    rewrite StorageFacts.get_file_eq, Hread, Hpath.
    rewrite StorageFacts.get_file_eq, Hxml. reflexivity.
  - unfold InvoiceReads.metadata. rewrite Hhash. cbn. auto 10.
Qed.

Lemma download_package_of_reachable_invoice_witness :
  let env := Fixtures.env_with true [] in
  let settings := default_settings in
  let libs := {| json_dumps_token := fun _ => "{}";
                 json_dumps := fun _ => "{}";
                 str_none_key := fun _ => "None" |} in
  let w := serve_all [Issue Fixtures.draft 1] (Fixtures.fresh (Local ∅)) in
  exists row resp,
    invoices w !! 1 = Some row
    /\ ApiReads.download_invoice 1 w = (Ok resp, w)
    /\ length (InvoiceReads.members (ApiReads.file resp)) = 4%nat.
Proof.
  intros env settings libs w.
  destruct (PipelineFacts.create_invoice_completes Fixtures.draft 1
              (Fixtures.fresh (Local ∅)) eq_refl PipelineFacts.draft_storable)
    as (inv & w' & E).
  pose proof (PipelineFacts.create_invoice_cases Fixtures.draft 1
                (Fixtures.fresh (Local ∅))) as H.
  cbv zeta in H.
  change (InvoiceService.number_taken (invoices (Fixtures.fresh (Local ∅))) _)
    with false in H.
  rewrite PipelineFacts.draft_storable in H.
  destruct H as (inv0 & w0 & log & E0 & Hid & Hinv & _).
  assert (invoices w !! 1 = Some inv0) as Hrow.
  { subst w. cbn [serve_all fold_left serve]. rewrite E0. cbn [snd].
    rewrite Hinv.
    replace 1 with (Models.id inv0) by (rewrite Hid; vm_compute; reflexivity).
    apply lookup_insert_eq. }
  destruct (download_package_of_reachable_invoice (Local ∅)
              [Issue Fixtures.draft 1] 1 inv0 Hrow)
    as (pdf & xml & xml_path & Ed & _).
  eexists inv0, _. split; [exact Hrow |]. split; [exact Ed | reflexivity].
Defined.

End ReadExtras.

(** ** The start of the storage service *)

Module StartupExtras.
Import Endpoint StorageStartup.

(** X20.  [StorageService()] falls back to the local directory exactly
    when the connection test fails, and then leaves the object store
    alone.  Otherwise a bucket found under the configured name is used as
    it is found (versioning is not switched on for it) and a missing one
    is created; hence the bucket the service works on keeps versions if
    and only if it was found with versioning enabled, or was missing and
    the call enabling versioning succeeded.  No other bucket is touched,
    and constructing the service a second time changes nothing. *)
Theorem startup_selects_backend (name : string) (e : Endpoint.t)
    (files : gmap string string) :
  let self := fst (init name e) in
  let e' := snd (init name e) in
  use_local self = negb (available e)
  /\ (available e = false ->
      e' = e /\ storage_of self e' files = Some (Local files))
  /\ (forall b, buckets e !! name = Some b -> buckets e' !! name = Some b)
  /\ (forall b',
        storage_of self e' files = Some (Remote b') ->
        (S3.versioning b' = true <->
         (exists b, buckets e !! name = Some b /\ S3.versioning b = true)
         \/ (buckets e !! name = None
             /\ put_bucket_versioning_ok e = true
             /\ b' = enable_versioning new_bucket)))
  /\ (forall n, n <> name -> buckets e' !! n = buckets e !! n)
  /\ init name e' = (self, e').
Proof.
  intros self e'. subst self e'. unfold init, storage_of, _ensure_bucket_exists.
  destruct (available e) eqn:Hav; cbn [fst snd use_local bucket negb].
  2: { split; [reflexivity |]. split; [auto |].
       rewrite Hav. repeat split; try congruence; discriminate. }
  split; [reflexivity |]. split; [discriminate |].
  destruct (buckets e !! name) as [b|] eqn:Hb.
  { rewrite Hav, Hb. split; [auto |]. split; [| auto].
    intros b' H. cbn in H. injection H as <-. split.
    - intros Hv. left. eauto.
    - intros [(b0 & Hb0 & Hv) | (Hn & _)]; congruence. }
  split; [discriminate |].
  destruct (create_bucket_ok e) eqn:Hc;
    [destruct (put_bucket_versioning_ok e) eqn:Hp |];
    cbn [set_buckets buckets available create_bucket_ok
         put_bucket_versioning_ok];
    rewrite ?Hav, ?Hb, ?lookup_insert_eq.
  - split; [| split; [intros n Hn; now rewrite !lookup_insert_ne by congruence
                     | reflexivity]].
    intros b' H. cbn in H. injection H as <-.
    split; [intros _; right; auto | reflexivity].
  - split; [| split; [intros n Hn; now rewrite !lookup_insert_ne by congruence
                     | reflexivity]].
    intros b' H. cbn in H. injection H as <-.
    split; [discriminate |].
    intros [(b0 & Hb0 & _) | (_ & Hp' & _)]; discriminate.
  - rewrite Hc. split; [| auto]. intros b' H. discriminate H.
Qed.

End StartupExtras.

(** ** The rendering of invoice numbers *)

Module NumberExtras.
Import Schedule.

(** X21.  When the sequence stands at a non-negative value that the
    column can still advance from, [_generate_invoice_number] returns the
    configured prefix followed by at least six characters that are the
    decimal digits of that value: reading them back as a decimal numeral
    gives the value again, so a value with more than six digits is
    rendered in full and not truncated, and two different values never
    give the same number. *)
Theorem allocated_number_reads_back {env : Env} {settings : Settings}
    (w : World) :
  0 <= base w ->
  in_range 1 w = true ->
  exists digits,
    fst (InvoiceService._generate_invoice_number w)
    = Ok (INVOICE_NUMBER_PREFIX ++ digits)
    /\ (6 <= String.length digits)%nat
    /\ option_map N.of_uint (NilEmpty.uint_of_string digits)
       = Some (Z.to_N (base w))
    /\ forall w',
         fst (InvoiceService._generate_invoice_number w')
         = Ok (INVOICE_NUMBER_PREFIX ++ digits) ->
         base w' = base w.
Proof.
  intros Hb _. exists (PyInt.format_06d (base w)).
  split; [apply Numbering.allocate_returns |].
  split; [apply PyIntFacts.length_format_06d |].
  split.
  - rewrite PyIntFacts.format_06d_nonneg by exact Hb.
    apply PyIntFacts.parse_zfill.
  - intros w' H. rewrite Numbering.allocate_returns in H.
    injection H as H. now apply Numbering.render_inj in H.
Qed.

Lemma allocated_number_reads_back_witness :
  let env := Fixtures.env_with true [] in
  let settings := default_settings in
  let w := set_sequences {[ "RE" := 12345678 ]} (Fixtures.fresh (Local ∅)) in
  0 <= base w
  /\ in_range 1 w = true
  /\ exists digits,
       fst (InvoiceService._generate_invoice_number w) = Ok ("RE" ++ digits)
       /\ option_map N.of_uint (NilEmpty.uint_of_string digits)
          = Some 12345678%N.
Proof.
  intros env settings w.
  assert (0 <= base w) as Hb by (vm_compute; discriminate).
  assert (in_range 1 w = true) as Hr by (vm_compute; reflexivity).
  split; [exact Hb |]. split; [exact Hr |].
  destruct (allocated_number_reads_back w Hb Hr)
    as (digits & H1 & _ & H3 & _).
  exists digits. split; [exact H1 |].
  rewrite H3. vm_compute. reflexivity.
Defined.

End NumberExtras.
